(** * BillBuddy: the balance computation engine of [back_end/main.py]

    A shallow embedding of the split calculator ([calculate_split]), the
    per-expense balance ([calculate_user_balance]), the user view
    ([get_user_expenses_by_email]), the write endpoints ([add_expense],
    [add_group_expense], [add_payment]), the repair sweep
    ([fix_expenses]) and the group endpoints ([create_group],
    [get_groups]), with the pydantic models of [back_end/models.py].

    Conventions of the embedding.
    - Amounts are Python floats.  The code is embedded over an arbitrary
      number type [num] carrying the operations the source uses
      (class [Number]); no law is assumed about them, so what is proved
      generically holds for IEEE binary64, the instance [float_Number]
      (with CPython's [round(x, 2)]), in which the examples are computed.
    - A Python [dict] is an insertion-ordered association list.
    - A MongoDB collection is the list of its documents in natural
      (insertion) order; the [_id] of a document is its position.  No
      endpoint modelled here deletes a document.
    - Exceptions are values of [exn]; a function that can raise returns a
      [result].  A [PyMongoError] of the store is met where the handler
      catches it and turns it into status 500.  Logging has no effect on
      data and is left out.
    - The store can refuse a write ([insert_one], [update_one]).  Reads
      succeed; in particular the [find_one] with which a handler reads
      back the document it has just inserted finds it, so the status 500
      of a failed read-back, which the source raises with the document
      already stored, is no outcome of the embedding.  The message of a
      [PyMongoError] is not part of the detail of a 500.
    - [EmailStr] validation is taken to accept every address that occurs
      and to return it unchanged: the addresses of the store are taken
      to be in the form pydantic gives them. *)

From Stdlib Require Import ZArith Floats Lia Ascii String.
From stdpp Require Import base option list strings.

Open Scope string_scope.
Open Scope list_scope.

(** ** Numbers *)

(** The arithmetic the source performs on amounts. *)
Class Number (num : Type) := {
  zero : num;                      (* the literal [0]: start of [sum], default of [.get] *)
  add : num -> num -> num;         (* [x + y] *)
  sub : num -> num -> num;         (* [x - y] *)
  neg : num -> num;                (* [-x] *)
  div_len : num -> nat -> num;     (* [x / len(l)], for [len(l) > 0] *)
  round2 : num -> num;             (* [round(x, 2)] *)
  num_eqb : num -> num -> bool;    (* [x == y]; [x != y] is its negation *)
  num_leb : num -> num -> bool     (* [x <= y] *)
}.

(** The integer nearest to [n / d] for [d > 0], ties going to the even
    one: the rounding rule of [round] on an exactly known value. *)
Definition round_half_even_div (n d : Z) : Z :=
  let q := (n / d)%Z in
  let r := (n mod d)%Z in
  match (2 * r ?= d)%Z with
  | Lt => q
  | Gt => (q + 1)%Z
  | Eq => if Z.even q then q else (q + 1)%Z
  end.

(** *** IEEE binary64 *)

(** CPython rounds a finite float to two decimals on its exact binary
    value (ties to even) and converts the decimal result back to the
    nearest float.  A float with a non-negative exponent is an integer
    and is returned as it is. *)
Definition float_round2 (x : float) : float :=
  match Prim2SF x with
  | S754_finite s m e =>
      if (0 <=? e)%Z then x
      else
        match round_half_even_div (Zpos m * 100) (2 ^ (- e)) with
        | Zpos k =>
            SF2Prim (SFdiv prec emax (S754_finite s k 0) (S754_finite false 100 0))
        | _ => if s then neg_zero else PrimFloat.zero
        end
  | _ => x
  end.

Definition float_of_nat (n : nat) : float :=
  PrimFloat.of_uint63 (Uint63.of_Z (Z.of_nat n)).

#[export] Instance float_Number : Number float := {|
  zero := PrimFloat.zero;
  add := PrimFloat.add;
  sub := PrimFloat.sub;
  neg := PrimFloat.opp;
  div_len := fun x n => PrimFloat.div x (float_of_nat n);
  round2 := float_round2;
  num_eqb := PrimFloat.eqb;
  num_leb := PrimFloat.leb
|}.

(** ** Exceptions and results *)

Inductive exn :=
  | HTTPException (status_code : nat) (detail : string)
  | ZeroDivisionError
  | InvalidId.                      (* raised by [ObjectId] on a malformed id *)

Inductive result (A : Type) :=
  | Ok (a : A)
  | Raise (e : exn).
Arguments Ok {A} a.
Arguments Raise {A} e.

Definition bind {A B} (r : result A) (f : A -> result B) : result B :=
  match r with
  | Ok a => f a
  | Raise e => Raise e
  end.

Notation "x <- r ;; k" := (bind r (fun x => k))
  (at level 100, r at next level, right associativity).

Definition is_Ok {A} (r : result A) : bool :=
  match r with Ok _ => true | Raise _ => false end.

(** ** Python dictionaries *)

Definition dict (V : Type) := list (string * V).

Section Dict.
Context {V : Type}.

Fixpoint dict_get (d : dict V) (k : string) : option V :=
  match d with
  | [] => None
  | (k', v) :: d' => if decide (k' = k) then Some v else dict_get d' k
  end.

(** [d[k] = v]: an existing key keeps its place, a new key goes last. *)
Fixpoint dict_set (d : dict V) (k : string) (v : V) : dict V :=
  match d with
  | [] => [(k, v)]
  | (k', v') :: d' =>
      if decide (k' = k) then (k', v) :: d' else (k', v') :: dict_set d' k v
  end.

Definition dict_keys (d : dict V) : list string := map fst d.
Definition dict_values (d : dict V) : list V := map snd d.

(** [k in d] *)
Definition dict_mem (d : dict V) (k : string) : bool :=
  match dict_get d k with Some _ => true | None => false end.

(** [d.get(k, v)] *)
Definition dict_get_default (d : dict V) (k : string) (v : V) : V :=
  match dict_get d k with Some x => x | None => v end.

(** [{p: v for p in l}] *)
Definition dict_const (l : list string) (v : V) : dict V :=
  fold_left (fun d p => dict_set d p v) l [].

(** [{k: f(x) for k, x in d.items()}] *)
Definition dict_map (f : V -> V) (d : dict V) : dict V :=
  map (fun kv => (kv.1, f kv.2)) d.

End Dict.

(** [set(l1) == set(l2)] *)
Definition set_eqb (l1 l2 : list string) : bool :=
  bool_decide (l1 ⊆ l2) && bool_decide (l2 ⊆ l1).

(** Truth value of an optional string: [None] and the empty string are false. *)
Definition truthy_str (s : option string) : bool :=
  match s with
  | Some (String _ _) => true
  | _ => false
  end.

(** ** External collaborators

    What the code asks of libraries that are not part of the repository:
    [datetime.fromisoformat] (after the ["Z"] replacement), bson's
    [ObjectId] constructor ([None]: it raises [InvalidId]), whether
    that exception is caught by [except ValueError], whether pydantic
    lets the keyword [split_amounts] fill the field whose alias is
    [splits] (the model [Expense] sets no [populate_by_name]; a keyword
    that is not accepted is ignored and the field keeps its default),
    and when the store refuses a write. *)
Class External := {
  fromisoformat : string -> option Z;
  ObjectId : string -> option nat;
  InvalidId_is_ValueError : bool;
  populate_by_name : bool;
  (* store faults: [insert_one] into a collection that holds [n] documents,
     and [update_one] of the document [n], raise [PyMongoError] *)
  insert_one_fails : nat -> bool;
  update_one_fails : nat -> bool
}.

Section Engine.
Context {num : Type} `{!Number num} `{!External}.

(** [sum(d.values())] *)
Definition sum_values (d : dict num) : num :=
  fold_left add (dict_values d) zero.

(** ** models.py *)

Record Expense := mkExpense {
  description : string;
  amount : num;
  participants : list string;
  paid_by : string;
  split_method : string;
  split_amounts : option (dict num);     (* alias [splits] *)
  created_at : option Z;
  group_id : option string
}.

(** [amount_positive]: raises when [v <= 0]. *)
Definition amount_positive (v : num) : bool := negb (num_leb v zero).

(** [participants_not_empty]: raises when [not v]. *)
Definition participants_not_empty (v : list string) : bool :=
  match v with [] => false | _ :: _ => true end.

(** [Literal["equal", "custom"]] *)
Definition split_method_literal (s : string) : bool :=
  bool_decide (s = "equal") || bool_decide (s = "custom").

(** Construction of an [Expense] succeeds ([false]: [ValidationError]). *)
Definition Expense_validate (e : Expense) : bool :=
  amount_positive (amount e) && participants_not_empty (participants e)
  && split_method_literal (split_method e).

Record GroupExpense := mkGroupExpense {
  ge_group_id : string;
  ge_expenses : list Expense
}.

(** [expenses_not_empty] *)
Definition GroupExpense_validate (g : GroupExpense) : bool :=
  match ge_expenses g with [] => false | _ :: _ => true end
  && forallb Expense_validate (ge_expenses g).

Record Payment := mkPayment {
  pay_amount : num;
  payer : string;
  payee : string;
  pay_description : string;
  pay_created_at : string;
  pay_group_id : option string
}.

(** [different_users]: raises when payer and payee are the same. *)
Definition Payment_validate (p : Payment) : bool :=
  bool_decide (payer p <> payee p).

(** ** main.py: the split calculator *)

(** [share = round(amount / len(participants), 2)];
    [splits = {p: share for p in participants}] *)
Definition equal_split (amount : num) (participants : list string)
  : result (dict num) :=
  match participants with
  | [] => Raise ZeroDivisionError
  | _ :: _ =>
      let share := round2 (div_len amount (length participants)) in
      Ok (dict_const participants share)
  end.

Definition calculate_split (expense : Expense) : result (dict num) :=
  let amount := amount expense in
  let participants := participants expense in
  if decide (split_method expense = "equal") then
    equal_split amount participants
  else if decide (split_method expense = "custom") then
    match split_amounts expense with
    | Some ((_ :: _) as sa) =>
        if negb (forallb (dict_mem sa) participants) then
          equal_split amount participants
        else
          let splits := sa in
          if negb (num_eqb (round2 (sum_values splits)) (round2 amount)) then
            equal_split amount participants
          else Ok splits
    | _ => equal_split amount participants
    end
  else
    equal_split amount participants.

(** ** main.py: the balance of one expense for one user *)

Definition calculate_user_balance (splits : dict num) (paid_by : string)
    (current_user_email : string) : dict num :=
  if decide (current_user_email = paid_by) then
    fold_left
      (fun balances '(p, amt) =>
         if decide (p <> current_user_email) then dict_set balances p amt
         else balances)
      splits []
  else
    match dict_get splits current_user_email with
    | Some s => dict_set [] paid_by (neg s)
    | None => []
    end.

(** ** database.py: the four collections *)

(** A stored [created_at]: a BSON date or a string. *)
Inductive stamp :=
  | Datetime (t : Z)
  | IsoString (s : string).

(** A document of [expenses_collection].  The fields the code reads with
    [doc[...]] are always there; those it reads with [doc.get(...)] may
    be missing. *)
Record ExpenseDoc := mkExpenseDoc {
  doc_description : string;
  doc_amount : num;
  doc_participants : option (list string);
  doc_paid_by : string;
  doc_split_method : option string;
  doc_splits : option (dict num);
  doc_created_at : stamp;
  doc_group_id : option string;
  doc_unregistered_participants : list string
}.

Record PaymentDoc := mkPaymentDoc {
  pdoc_amount : num;
  pdoc_payer : string;
  pdoc_payee : string;
  pdoc_description : string;
  pdoc_created_at : stamp;
  pdoc_group_id : option string;
  pdoc_unregistered : list string
}.

Record GroupDoc := mkGroupDoc {
  gdoc_name : string;
  gdoc_members : list string;
  gdoc_created_by : string
}.

Record DB := mkDB {
  users_collection : list string;            (* the [email] of each user *)
  expenses_collection : list ExpenseDoc;
  groups_collection : list GroupDoc;
  payments_collection : list PaymentDoc
}.

(** The documents of a collection with their [_id]. *)
Definition enumerate {A} (l : list A) : list (nat * A) :=
  imap (fun i x => (i, x)) l.

(** Running a loop body that may raise over a list. *)
Fixpoint foldM {A S} (f : S -> A -> result S) (l : list A) (s : S)
  : result S :=
  match l with
  | [] => Ok s
  | x :: l' => s' <- f s x ;; foldM f l' s'
  end.

(** ** main.py: the user view *)

Record UserExpense := mkUserExpense {
  ue_id : nat;
  ue_description : string;
  ue_amount : num;
  ue_paid_by : string;
  ue_participants : list string;
  ue_splits : dict num;
  ue_created_at : Z;
  ue_group_id : option string;
  ue_group_name : string
}.

Record UserExpensesResponse := mkUserExpensesResponse {
  expenses : list UserExpense;
  net_balances : dict num;
  group_balances : dict num
}.

(** [created_at], parsed when it is a string ([None]: [ValueError]). *)
Definition parse_created_at (c : stamp) : option Z :=
  match c with
  | Datetime t => Some t
  | IsoString s => fromisoformat s
  end.

(** [str(x) if x else None] *)
Definition str_or_None (s : option string) : option string :=
  if truthy_str s then s else None.

(** [Expense(description=expense["description"], ...)] of the view;
    [None]: [ValidationError]. *)
Definition Expense_of_doc (expense : ExpenseDoc) (created_at : Z)
  : option Expense :=
  let e := {|
    description := doc_description expense;
    amount := doc_amount expense;
    participants := default [] (doc_participants expense);
    paid_by := doc_paid_by expense;
    split_method := default "equal" (doc_split_method expense);
    split_amounts := if populate_by_name then doc_splits expense else None;
    created_at := Some created_at;
    group_id := str_or_None (doc_group_id expense)
  |} in
  if Expense_validate e then Some e else None.

(** [f"{group_name} ({group_id})"] *)
Definition group_key_of (group_name gid : string) : string :=
  group_name +:+ " (" +:+ gid +:+ ")".

(** The name under which a group id is shown; [None]: [ObjectId] raised. *)
Definition group_name_of (db : DB) (gid : string) : option string :=
  match ObjectId gid with
  | Some oid =>
      Some (match groups_collection db !! oid with
            | Some group => gdoc_name group
            | None => "Unknown Group"
            end)
  | None => None
  end.

(** One pass of [for user, amount in user_balances.items()] over a
    balance mapping [bal], accumulating under the key [key user]. *)
Definition accumulate (email paid_by : string) (key : string -> string)
    (user_balances : dict num) (bal : dict num) : dict num :=
  fold_left
    (fun bal '(user, amount) =>
       if decide (user <> email) then
         dict_set bal (key user)
           (add (dict_get_default bal (key user) zero)
                (if decide (paid_by = email) then amount else neg amount))
       else bal)
    user_balances bal.

(** Lines 203-207: the contribution of one expense to [net_balances]. *)
Definition expense_net_step (email paid_by : string)
    (user_balances : dict num) (net_balances : dict num) : dict num :=
  accumulate email paid_by (fun user => user) user_balances net_balances.

(** Lines 190-202: the group part of one expense; the result is the
    group name and the new [group_balances]. *)
Definition expense_group_step (db : DB) (email paid_by : string)
    (group_id : option string) (user_balances : dict num)
    (group_balances : dict num) : result (option string * dict num) :=
  match group_id with
  | Some gid =>
      match group_name_of db gid with
      | Some group_name =>
          Ok (Some group_name,
              accumulate email paid_by
                (fun _ => group_key_of group_name gid)
                user_balances group_balances)
      | None =>
          if InvalidId_is_ValueError
          then Ok (Some "Invalid Group", group_balances)
          else Raise InvalidId
      end
  | None => Ok (None, group_balances)
  end.

(** The state of the two loops: [expense_list], [net_balances],
    [group_balances]. *)
Definition agg_state : Type := list UserExpense * dict num * dict num.

(** The body of [for expense in expenses]. *)
Definition process_expense (db : DB) (email : string) (st : agg_state)
    (ie : nat * ExpenseDoc) : result agg_state :=
  let '(expense_list, net_balances, group_balances) := st in
  let '(id, expense) := ie in
  match parse_created_at (doc_created_at expense) with
  | None => Ok st
  | Some created_at =>
      match Expense_of_doc expense created_at with
      | None => Ok st
      | Some expense_model =>
          splits <- calculate_split expense_model ;;
          let user_balances :=
            calculate_user_balance splits (doc_paid_by expense) email in
          gr <- expense_group_step db email (doc_paid_by expense)
                  (group_id expense_model) user_balances group_balances ;;
          let net_balances :=
            expense_net_step email (doc_paid_by expense) user_balances
              net_balances in
          Ok (expense_list ++ [{|
                ue_id := id;
                ue_description := doc_description expense;
                ue_amount := doc_amount expense;
                ue_paid_by := doc_paid_by expense;
                ue_participants := default [] (doc_participants expense);
                ue_splits := splits;
                ue_created_at := created_at;
                ue_group_id := group_id expense_model;
                ue_group_name :=
                  if truthy_str gr.1 then default "" gr.1 else "Single"
              |}], net_balances, gr.2)
      end
  end.

(** Lines 249-252: the contribution of one payment to [net_balances]. *)
Definition payment_net_step (email payer payee : string) (amount : num)
    (net_balances : dict num) : dict num :=
  if decide (payer = email) then
    dict_set net_balances payee
      (sub (dict_get_default net_balances payee zero) amount)
  else if decide (payee = email) then
    dict_set net_balances payer
      (add (dict_get_default net_balances payer zero) amount)
  else net_balances.

(** Lines 237-248: the group part of one payment. *)
Definition payment_group_step (db : DB) (email payer payee : string)
    (amount : num) (group_id : option string) (group_balances : dict num)
  : result (dict num) :=
  match group_id with
  | Some gid =>
      match group_name_of db gid with
      | Some group_name =>
          let group_key := group_key_of group_name gid in
          Ok (if decide (payer = email) then
                dict_set group_balances group_key
                  (sub (dict_get_default group_balances group_key zero) amount)
              else if decide (payee = email) then
                dict_set group_balances group_key
                  (add (dict_get_default group_balances group_key zero) amount)
              else group_balances)
      | None =>
          if InvalidId_is_ValueError then Ok group_balances
          else Raise InvalidId
      end
  | None => Ok group_balances
  end.

(** The body of [for payment in payments]. *)
Definition process_payment (db : DB) (email : string) (st : agg_state)
    (ip : nat * PaymentDoc) : result agg_state :=
  let '(expense_list, net_balances, group_balances) := st in
  let '(id, payment) := ip in
  match parse_created_at (pdoc_created_at payment) with
  | None => Ok st
  | Some created_at =>
      let amount := pdoc_amount payment in
      let payer := pdoc_payer payment in
      let payee := pdoc_payee payment in
      let group_id := str_or_None (pdoc_group_id payment) in
      group_balances <-
        payment_group_step db email payer payee amount group_id
          group_balances ;;
      Ok (expense_list,
          payment_net_step email payer payee amount net_balances,
          group_balances)
  end.

(** [expenses_collection.find({"participants": email})] *)
Definition find_expenses (db : DB) (email : string)
  : list (nat * ExpenseDoc) :=
  filter (fun ie => email ∈ default [] (doc_participants ie.2))
         (enumerate (expenses_collection db)).

(** [payments_collection.find({"$or": [{"payer": email}, {"payee": email}]})] *)
Definition find_payments (db : DB) (email : string)
  : list (nat * PaymentDoc) :=
  filter (fun ip => pdoc_payer ip.2 = email \/ pdoc_payee ip.2 = email)
         (enumerate (payments_collection db)).

(** The two loops, up to line 255: the balances before the final rounding. *)
Definition aggregate (db : DB) (email : string) : result agg_state :=
  st <- foldM (process_expense db email) (find_expenses db email)
          ([], [], []) ;;
  foldM (process_payment db email) (find_payments db email) st.

Definition get_user_expenses_by_email (db : DB) (email : string)
  : result UserExpensesResponse :=
  st <- aggregate db email ;;
  Ok {| expenses := st.1.1;
        net_balances := dict_map round2 st.1.2;
        group_balances := dict_map round2 st.2 |}.

(** ** main.py: requests that write

    A handler runs against the store and may leave it changed even when
    it raises. *)
Definition M (A : Type) : Type := DB -> result A * DB.

Definition ret {A} (a : A) : M A := fun db => (Ok a, db).
Definition raise {A} (e : exn) : M A := fun db => (Raise e, db).
Definition lift {A} (f : DB -> result A) : M A := fun db => (f db, db).
Definition mbind {A B} (m : M A) (f : A -> M B) : M B :=
  fun db =>
    match m db with
    | (Ok a, db') => f a db'
    | (Raise e, db') => (Raise e, db')
    end.

Notation "x <~ m ;; k" := (mbind m (fun x => k))
  (at level 100, m at next level, right associativity).

Fixpoint forM {A S} (f : S -> A -> M S) (l : list A) (s : S) : M S :=
  match l with
  | [] => ret s
  | x :: l' => s' <~ f s x ;; forM f l' s'
  end.

(** [validate_users]: the addresses among the participants and the payer
    that no user has.  (The source iterates over a [set]; the order of
    the result is not fixed by it.) *)
Definition validate_users (db : DB) (participants : list string)
    (paid_by : string) : list string :=
  filter (fun email => email ∉ users_collection db)
         (remove_dups (participants ++ [paid_by])).

Definition validate_group_members (db : DB) (group_id : string)
    (participants : list string) (paid_by : string) : result GroupDoc :=
  match ObjectId group_id with
  | Some oid =>
      match groups_collection db !! oid with
      | None => Raise (HTTPException 400 "Group not found")
      | Some group =>
          if bool_decide ((participants ++ [paid_by]) ⊆ gdoc_members group)
          then Ok group
          else Raise (HTTPException 400
                 "All participants and paid_by must be group members")
      end
  | None =>
      if InvalidId_is_ValueError
      then Raise (HTTPException 400 "Invalid group_id")
      else Raise InvalidId
  end.

(** Lines 336-340 (and 397-401): the check of a custom split at write
    time. *)
Definition check_custom_split (expense : Expense) : result unit :=
  if decide (split_method expense = "custom") then
    match split_amounts expense with
    | Some ((_ :: _) as sa) =>
        if negb (set_eqb (dict_keys sa) (participants expense)) then
          Raise (HTTPException 400
            "split_amounts must include all participants for custom split")
        else if negb (num_eqb (round2 (sum_values sa))
                              (round2 (amount expense))) then
          Raise (HTTPException 400 "split_amounts must sum to total amount")
        else Ok tt
    | _ =>
        Raise (HTTPException 400
          "split_amounts must include all participants for custom split")
    end
  else Ok tt.

(** [expenses_collection.insert_one(doc)], with the handler's
    [except PyMongoError]; the result is the new [_id].  The read-back
    of lines 359-362 and 413-416 finds the document. *)
Definition insert_expense (doc : ExpenseDoc) : M nat :=
  fun db =>
    let n := length (expenses_collection db) in
    if insert_one_fails n then
      (Raise (HTTPException 500 "Database insertion failed"), db)
    else
      (Ok n, {| users_collection := users_collection db;
                expenses_collection := expenses_collection db ++ [doc];
                groups_collection := groups_collection db;
                payments_collection := payments_collection db |}).

Record ExpenseResponse := mkExpenseResponse {
  er_id : nat;
  er_amount : num;
  er_description : string;
  er_paid_by : string;
  er_splits : dict num;
  er_balances_for_current_user : dict num;
  er_group_id : option string;
  er_group_name : option string
}.

(** [expense.dict(by_alias=True)] with the fields the handler sets. *)
Definition expense_dict (expense : Expense) (now : Z)
    (unregistered : list string) (splits : dict num)
    (group_id : option string) : ExpenseDoc :=
  {| doc_description := description expense;
     doc_amount := amount expense;
     doc_participants := Some (participants expense);
     doc_paid_by := paid_by expense;
     doc_split_method := Some (split_method expense);
     doc_splits := Some splits;
     doc_created_at := Datetime (default now (created_at expense));
     doc_group_id := group_id;
     doc_unregistered_participants := unregistered |}.

(** [POST /expense]; [now] is what [datetime.utcnow()] returns. *)
Definition add_expense (expense : Expense) (current_user : string)
    (now : Z) : M ExpenseResponse :=
  if bool_decide (current_user ∉ participants expense) then
    raise (HTTPException 403 "Current user must be a participant")
  else if bool_decide (paid_by expense ∉ participants expense) then
    raise (HTTPException 400 "paid_by must be one of participants")
  else
    _ <~ lift (fun _ => check_custom_split expense) ;;
    unregistered <~
      lift (fun db => Ok (validate_users db (participants expense)
                            (paid_by expense))) ;;
    group <~
      lift (fun db =>
        match str_or_None (group_id expense) with
        | Some gid =>
            g <- validate_group_members db gid (participants expense)
                   (paid_by expense) ;;
            Ok (Some g)
        | None => Ok None
        end) ;;
    splits <~ lift (fun _ => calculate_split expense) ;;
    id <~ insert_expense
            (expense_dict expense now unregistered splits (group_id expense)) ;;
    let user_balances :=
      calculate_user_balance splits (paid_by expense) current_user in
    ret {| er_id := id;
           er_amount := amount expense;
           er_description := description expense;
           er_paid_by := paid_by expense;
           er_splits := splits;
           er_balances_for_current_user := user_balances;
           er_group_id := group_id expense;
           er_group_name := option_map gdoc_name group |}.

Record BatchExpenseResponse := mkBatchExpenseResponse {
  inserted : list nat;
  details : list ExpenseResponse
}.

(** The body of [for expense in group_expense.expenses]. *)
Definition add_group_expense_body (gid : string) (group : GroupDoc)
    (current_user : string) (now : Z) (acc : BatchExpenseResponse)
    (expense : Expense) : M BatchExpenseResponse :=
  if bool_decide (current_user ∉ participants expense) then
    raise (HTTPException 403
             "Current user must be a participant in all expenses")
  else if bool_decide (paid_by expense ∉ participants expense) then
    raise (HTTPException 400 "paid_by must be one of participants")
  else
    _ <~ lift (fun _ => check_custom_split expense) ;;
    unregistered <~
      lift (fun db => Ok (validate_users db (participants expense)
                            (paid_by expense))) ;;
    _ <~ lift (fun db => validate_group_members db gid
                           (participants expense) (paid_by expense)) ;;
    splits <~ lift (fun _ => calculate_split expense) ;;
    id <~ insert_expense
            (expense_dict expense now unregistered splits (Some gid)) ;;
    let user_balances :=
      calculate_user_balance splits (paid_by expense) current_user in
    ret {| inserted := inserted acc ++ [id];
           details := details acc ++ [{|
             er_id := id;
             er_amount := amount expense;
             er_description := description expense;
             er_paid_by := paid_by expense;
             er_splits := splits;
             er_balances_for_current_user := user_balances;
             er_group_id := Some gid;
             er_group_name := Some (gdoc_name group) |}] |}.

(** [POST /group-expense] *)
Definition add_group_expense (group_expense : GroupExpense)
    (current_user : string) (now : Z) : M BatchExpenseResponse :=
  group <~ lift (fun db => validate_group_members db
                   (ge_group_id group_expense) [] current_user) ;;
  forM (add_group_expense_body (ge_group_id group_expense) group
          current_user now)
       (ge_expenses group_expense)
       {| inserted := []; details := [] |}.

(** [payments_collection.insert_one(doc)], with the handler's
    [except PyMongoError]; the result is the new [_id].  The read-back
    of lines 459-462 finds the document. *)
Definition insert_payment (doc : PaymentDoc) : M nat :=
  fun db =>
    let n := length (payments_collection db) in
    if insert_one_fails n then
      (Raise (HTTPException 500 "Database insertion failed"), db)
    else
      (Ok n, {| users_collection := users_collection db;
                expenses_collection := expenses_collection db;
                groups_collection := groups_collection db;
                payments_collection := payments_collection db ++ [doc] |}).

Record PaymentResponse := mkPaymentResponse {
  pr_id : nat;
  pr_amount : num;
  pr_payer : string;
  pr_payee : string;
  pr_description : string;
  pr_created_at : stamp;
  pr_group_id : option string;
  pr_group_name : option string
}.

(** [payment.created_at or datetime.utcnow()] *)
Definition payment_stamp (payment : Payment) (now : Z) : stamp :=
  match pay_created_at payment with
  | EmptyString => Datetime now
  | s => IsoString s
  end.

(** [payment.dict(by_alias=True)] with the fields the handler sets. *)
Definition payment_dict (payment : Payment) (now : Z)
    (unregistered : list string) : PaymentDoc :=
  {| pdoc_amount := pay_amount payment;
     pdoc_payer := payer payment;
     pdoc_payee := payee payment;
     pdoc_description := pay_description payment;
     pdoc_created_at := payment_stamp payment now;
     pdoc_group_id := pay_group_id payment;
     pdoc_unregistered := unregistered |}.

(** [POST /payment] *)
Definition add_payment (payment : Payment) (current_user : string)
    (now : Z) : M PaymentResponse :=
  if bool_decide (current_user ∉ [payer payment; payee payment]) then
    raise (HTTPException 403 "Current user must be either payer or payee")
  else
    unregistered <~
      lift (fun db => Ok (validate_users db [payer payment; payee payment]
                            (payer payment))) ;;
    group <~
      lift (fun db =>
        match str_or_None (pay_group_id payment) with
        | Some gid =>
            g <- validate_group_members db gid
                   [payer payment; payee payment] (payer payment) ;;
            Ok (Some g)
        | None => Ok None
        end) ;;
    id <~ insert_payment (payment_dict payment now unregistered) ;;
    ret {| pr_id := id;
           pr_amount := pay_amount payment;
           pr_description := pay_description payment;
           pr_payer := payer payment;
           pr_payee := payee payment;
           pr_created_at := payment_stamp payment now;
           pr_group_id := pay_group_id payment;
           pr_group_name := option_map gdoc_name group |}.

(** ** main.py: the repair sweep *)

(** The condition of line 656. *)
Definition needs_fix (expense : ExpenseDoc) : bool :=
  let participants := default [] (doc_participants expense) in
  match doc_splits expense with
  | Some ((_ :: _) as splits) =>
      negb (set_eqb (dict_keys splits) participants)
      || negb (num_eqb (round2 (sum_values splits))
                       (round2 (doc_amount expense)))
  | _ => true
  end.

(** [{"$set": {"splits": new_splits, "split_method": "equal"}}] *)
Definition set_equal_split (new_splits : dict num) (expense : ExpenseDoc)
  : ExpenseDoc :=
  {| doc_description := doc_description expense;
     doc_amount := doc_amount expense;
     doc_participants := doc_participants expense;
     doc_paid_by := doc_paid_by expense;
     doc_split_method := Some "equal";
     doc_splits := Some new_splits;
     doc_created_at := doc_created_at expense;
     doc_group_id := doc_group_id expense;
     doc_unregistered_participants := doc_unregistered_participants expense |}.

(** [expenses_collection.update_one({"_id": id}, {"$set": ...})], with
    the handler's [except PyMongoError]. *)
Definition update_expense (id : nat) (f : ExpenseDoc -> ExpenseDoc) : M unit :=
  fun db =>
    if update_one_fails id then
      (Raise (HTTPException 500 "Database error"), db)
    else
      (Ok tt, {| users_collection := users_collection db;
                 expenses_collection := alter f id (expenses_collection db);
                 groups_collection := groups_collection db;
                 payments_collection := payments_collection db |}).

(** The body of [for expense in expenses]; the state is [fixed_count]. *)
Definition fix_expenses_body (fixed_count : nat) (ie : nat * ExpenseDoc)
  : M nat :=
  let '(expense_id, expense) := ie in
  if needs_fix expense then
    new_splits <~ lift (fun _ =>
      equal_split (doc_amount expense)
                  (default [] (doc_participants expense))) ;;
    _ <~ update_expense expense_id (set_equal_split new_splits) ;;
    ret (S fixed_count)
  else ret fixed_count.

(** [POST /fix-expenses]; the result is [fixed_count]. *)
Definition fix_expenses : M nat :=
  fun db =>
    forM fix_expenses_body
      (filter (fun ie => doc_split_method ie.2 = Some "custom")
              (enumerate (expenses_collection db)))
      0 db.

End Engine.

(** ** Observations used in the statements *)

Section Observations.
Context {num : Type} `{!Number num} `{!External}.
Implicit Types (e : @Expense num).

(** The net balances of a view, when the view was computed. *)
Definition net_of (r : result (@UserExpensesResponse num))
  : option (dict num) :=
  match r with Ok view => Some (net_balances view) | Raise _ => None end.

(** The share of an equal split. *)
Definition share_of e : num :=
  round2 (div_len (amount e) (length (participants e))).

(** The explicit splits pass the checks of [calculate_split] (lines
    112-120): they are present and not empty, every participant is one
    of their keys, and their sum agrees with the amount at two
    decimals. *)
Definition stored_splits_accepted e : bool :=
  match split_amounts e with
  | Some ((_ :: _) as sa) =>
      forallb (dict_mem sa) (participants e)
      && num_eqb (round2 (sum_values sa)) (round2 (amount e))
  | _ => false
  end.

(** The store after a payment document was inserted. *)
Definition record_payment (db : @DB num) (payment : @PaymentDoc num)
  : @DB num :=
  {| users_collection := users_collection db;
     expenses_collection := expenses_collection db;
     groups_collection := groups_collection db;
     payments_collection := payments_collection db ++ [payment] |}.

(** What the repair sweep makes of one stored expense: a custom record
    that fails the check of line 656 gets the equal split and the method
    [equal]; every other record stays as it is. *)
Definition sweep_doc (expense : @ExpenseDoc num) : @ExpenseDoc num :=
  if bool_decide (doc_split_method expense = Some "custom")
     && needs_fix expense
  then
    let participants := default [] (doc_participants expense) in
    set_equal_split
      (dict_const participants
         (round2 (div_len (doc_amount expense) (length participants))))
      expense
  else expense.

(** A record the sweep scans has somebody to split among. *)
Definition scanned_nonempty (expense : @ExpenseDoc num) : Prop :=
  doc_split_method expense = Some "custom" ->
  default [] (doc_participants expense) <> [].

(** The store with another list of expenses. *)
Definition with_expenses (db : @DB num) (l : list (@ExpenseDoc num))
  : @DB num :=
  {| users_collection := users_collection db;
     expenses_collection := l;
     groups_collection := groups_collection db;
     payments_collection := payments_collection db |}.

(** Everything the batch endpoint checks about one sub-expense before it
    writes (lines 393-404); the result is the split to store. *)
Definition sub_expense_checks (db : @DB num) (gid current_user : string)
    (expense : @Expense num) : result (dict num) :=
  if bool_decide (current_user ∉ participants expense) then
    Raise (HTTPException 403
             "Current user must be a participant in all expenses")
  else if bool_decide (paid_by expense ∉ participants expense) then
    Raise (HTTPException 400 "paid_by must be one of participants")
  else
    _ <- check_custom_split expense ;;
    _ <- validate_group_members db gid (participants expense)
           (paid_by expense) ;;
    calculate_split expense.

(** The document the batch endpoint stores for a sub-expense. *)
Definition group_expense_doc (db : @DB num) (gid current_user : string)
    (now : Z) (expense : @Expense num) : @ExpenseDoc num :=
  expense_dict expense now
    (validate_users db (participants expense) (paid_by expense))
    (match sub_expense_checks db gid current_user expense with
     | Ok splits => splits
     | Raise _ => []
     end)
    (Some gid).

(** The three conditions on a custom split at write time: the explicit
    splits are present and not empty, their keys are the participants as
    a set, and their sum agrees with the amount at two decimals. *)
Definition custom_split_valid (e : @Expense num) : bool :=
  match split_amounts e with
  | Some ((_ :: _) as sa) =>
      set_eqb (dict_keys sa) (participants e)
      && num_eqb (round2 (sum_values sa)) (round2 (amount e))
  | _ => false
  end.

(** The group an expense names, checked as [add_expense] checks it. *)
Definition expense_group (db : @DB num) (e : @Expense num)
  : result (option GroupDoc) :=
  match str_or_None (group_id e) with
  | Some gid =>
      g <- validate_group_members db gid (participants e) (paid_by e) ;;
      Ok (Some g)
  | None => Ok None
  end.

(** Every stored payment has a payer different from its payee. *)
Definition payments_distinct (db : @DB num) : Prop :=
  forall p, p ∈ payments_collection db -> pdoc_payer p <> pdoc_payee p.

(** A stored group id that the view can handle: it is absent or empty,
    or [ObjectId] accepts it, or the [InvalidId] it raises is caught. *)
Definition readable_group (gid : option string) : Prop :=
  InvalidId_is_ValueError = true
  \/ forall g, str_or_None gid = Some g -> is_Some (ObjectId g).

End Observations.

(** ** Concrete collaborators and data for the worked examples *)

Definition hex_digit (c : ascii) : option N :=
  let n := N_of_ascii c in
  if ((48 <=? n) && (n <=? 57))%N then Some (n - 48)%N
  else if ((97 <=? n) && (n <=? 102))%N then Some (n - 87)%N
  else if ((65 <=? n) && (n <=? 70))%N then Some (n - 55)%N
  else None.

Fixpoint hex_value (s : string) (acc : N) : option N :=
  match s with
  | EmptyString => Some acc
  | String c s' =>
      match hex_digit c with
      | Some d => hex_value s' (16 * acc + d)%N
      | None => None
      end
  end.

(** An [ObjectId] is written as 24 hexadecimal digits. *)
Definition ObjectId_hex (s : string) : option nat :=
  if (String.length s =? 24)%nat then N.to_nat <$> hex_value s 0%N else None.

(** A store that accepts every write; bson's [InvalidId] is not a
    [ValueError], and pydantic fills an aliased field by its alias only. *)
Definition sound_store : External := {|
  fromisoformat := fun s =>
    if decide (s = "2024-05-01T12:00:00+00:00") then Some 1714564800%Z else None;
  ObjectId := ObjectId_hex;
  InvalidId_is_ValueError := false;
  populate_by_name := false;
  insert_one_fails := fun _ => false;
  update_one_fails := fun _ => false
|}.

(** The same, except that the store refuses the insert of the document
    that would get [_id] 2. *)
Definition faulty_store : External := {|
  fromisoformat := @fromisoformat sound_store;
  ObjectId := ObjectId_hex;
  InvalidId_is_ValueError := false;
  populate_by_name := false;
  insert_one_fails := fun n => bool_decide (n = 2%nat);
  update_one_fails := fun _ => false
|}.

Definition alice : string := "alice@example.com".
Definition bob : string := "bob@example.com".
Definition carol : string := "carol@example.com".
Definition dave : string := "dave@example.com".

(** The expense of the specification's example: 100 split equally among
    three, paid by the first. *)
Definition lunch : @Expense float := {|
  description := "lunch";
  amount := 100%float;
  participants := [alice; bob; carol];
  paid_by := alice;
  split_method := "equal";
  split_amounts := None;
  created_at := Some 1714564800%Z;
  group_id := None
|}.

Definition lunch_doc : @ExpenseDoc float :=
  @expense_dict float lunch 0%Z []
    [(alice, (3333 / 100)%float); (bob, (3333 / 100)%float);
     (carol, (3333 / 100)%float)]
    None.

Definition lunch_db : @DB float := {|
  users_collection := [alice; bob; carol];
  expenses_collection := [lunch_doc];
  groups_collection := [];
  payments_collection := []
|}.

(** The user view as served by a store without faults, in binary64. *)
Definition view (db : @DB float) (email : string)
  : result (@UserExpensesResponse float) :=
  @get_user_expenses_by_email float float_Number sound_store db email.

(** An expense of 100 shared equally by two, paid by the first. *)
Definition dinner_doc : @ExpenseDoc float := {|
  doc_description := "dinner";
  doc_amount := 100%float;
  doc_participants := Some [alice; bob];
  doc_paid_by := alice;
  doc_split_method := Some "equal";
  doc_splits := Some [(alice, 50%float); (bob, 50%float)];
  doc_created_at := Datetime 1714564800;
  doc_group_id := None;
  doc_unregistered_participants := []
|}.

Definition dinner_db : @DB float := {|
  users_collection := [alice; bob];
  expenses_collection := [dinner_doc];
  groups_collection := [];
  payments_collection := []
|}.

(** A custom split whose stored mapping has a key that is no
    participant. *)
Definition potluck : @Expense float := {|
  description := "potluck";
  amount := 100%float;
  participants := [alice; bob];
  paid_by := alice;
  split_method := "custom";
  split_amounts :=
    Some [(alice, 40%float); (bob, 40%float); (carol, 20%float)];
  created_at := Some 1714564800%Z;
  group_id := None
|}.

Definition potluck_doc : @ExpenseDoc float := {|
  doc_description := "potluck";
  doc_amount := 100%float;
  doc_participants := Some [alice; bob];
  doc_paid_by := alice;
  doc_split_method := Some "custom";
  doc_splits :=
    Some [(alice, 40%float); (bob, 40%float); (carol, 20%float)];
  doc_created_at := Datetime 1714564800;
  doc_group_id := None;
  doc_unregistered_participants := []
|}.

Definition potluck_db : @DB float := {|
  users_collection := [alice; bob; carol];
  expenses_collection := [potluck_doc];
  groups_collection := [];
  payments_collection := []
|}.

(** Bob pays Alice back his share of the lunch. *)
Definition repayment : @PaymentDoc float := {|
  pdoc_amount := (3333 / 100)%float;
  pdoc_payer := bob;
  pdoc_payee := alice;
  pdoc_description := "Debt repayment";
  pdoc_created_at := IsoString "2024-05-01T12:00:00+00:00";
  pdoc_group_id := None;
  pdoc_unregistered := []
|}.

Definition settled_db : @DB float := {|
  users_collection := [alice; bob; carol];
  expenses_collection := [lunch_doc];
  groups_collection := [];
  payments_collection := [repayment]
|}.

(** A legacy record whose custom split does not sum to the amount. *)
Definition legacy_doc : @ExpenseDoc float := {|
  doc_description := "taxi";
  doc_amount := 100%float;
  doc_participants := Some [alice; bob];
  doc_paid_by := alice;
  doc_split_method := Some "custom";
  doc_splits := Some [(alice, 60%float); (bob, 41%float)];
  doc_created_at := Datetime 1714564800;
  doc_group_id := None;
  doc_unregistered_participants := []
|}.

(** A custom record that passes the check of the sweep. *)
Definition fair_doc : @ExpenseDoc float := {|
  doc_description := "rent";
  doc_amount := 100%float;
  doc_participants := Some [alice; bob];
  doc_paid_by := bob;
  doc_split_method := Some "custom";
  doc_splits := Some [(alice, 60%float); (bob, 40%float)];
  doc_created_at := Datetime 1714564800;
  doc_group_id := None;
  doc_unregistered_participants := []
|}.

Definition legacy_db : @DB float := {|
  users_collection := [alice; bob];
  expenses_collection := [legacy_doc; lunch_doc; fair_doc];
  groups_collection := [];
  payments_collection := []
|}.

(** A group of three, stored first in its collection. *)
Definition flat : GroupDoc := {|
  gdoc_name := "flat";
  gdoc_members := [alice; bob; carol];
  gdoc_created_by := alice
|}.

Definition flat_id : string := "000000000000000000000000".

Definition flat_db : @DB float := {|
  users_collection := [alice; bob; carol];
  expenses_collection := [lunch_doc];
  groups_collection := [flat];
  payments_collection := []
|}.

Definition groceries : @Expense float := {|
  description := "groceries";
  amount := 60%float;
  participants := [alice; bob];
  paid_by := alice;
  split_method := "equal";
  split_amounts := None;
  created_at := Some 1714564800%Z;
  group_id := None
|}.

(** A sub-expense whose payer is none of its participants. *)
Definition stray : @Expense float := {|
  description := "stray";
  amount := 30%float;
  participants := [alice; bob];
  paid_by := carol;
  split_method := "equal";
  split_amounts := None;
  created_at := Some 1714564800%Z;
  group_id := None
|}.

Definition cleaning : @Expense float := {|
  description := "cleaning";
  amount := 45%float;
  participants := [alice; bob; carol];
  paid_by := alice;
  split_method := "equal";
  split_amounts := None;
  created_at := Some 1714564800%Z;
  group_id := None
|}.

Definition flat_batch : @GroupExpense float := {|
  ge_group_id := flat_id;
  ge_expenses := [groceries; stray; cleaning]
|}.

Definition flat_batch_valid : @GroupExpense float := {|
  ge_group_id := flat_id;
  ge_expenses := [groceries; cleaning]
|}.



(** The custom split of the specification's example, 60 + 41 for an
    amount of 100. *)
Definition taxi : @Expense float := {|
  description := "taxi";
  amount := 100%float;
  participants := [alice; bob];
  paid_by := alice;
  split_method := "custom";
  split_amounts := Some [(alice, 60%float); (bob, 41%float)];
  created_at := Some 1714564800%Z;
  group_id := None
|}.

(** A custom split that satisfies the three conditions. *)
Definition rent : @Expense float := {|
  description := "rent";
  amount := 100%float;
  participants := [alice; bob];
  paid_by := bob;
  split_method := "custom";
  split_amounts := Some [(bob, 40%float); (alice, 60%float)];
  created_at := Some 1714564800%Z;
  group_id := None
|}.

(** The sound store with a pydantic that accepts the field name too. *)
Definition by_name_store : External := {|
  fromisoformat := @fromisoformat sound_store;
  ObjectId := ObjectId_hex;
  InvalidId_is_ValueError := false;
  populate_by_name := true;
  insert_one_fails := fun _ => false;
  update_one_fails := fun _ => false
|}.

(** Bob's repayment as a request. *)
Definition repayment_request : @Payment float := {|
  pay_amount := (3333 / 100)%float;
  payer := bob;
  payee := alice;
  pay_description := "Debt repayment";
  pay_created_at := "2024-05-01T12:00:00+00:00";
  pay_group_id := None
|}.

(** ** models.py and main.py: groups

    A group document is kept as [GroupDoc] keeps it: by its name, its
    members and its creator.  Its [created_at] and the
    [unregistered_members] that [create_group] adds are stored and
    echoed and no check reads them; they are left out of the request,
    of the document and of the response alike. *)

Record Group := mkGroup {
  grp_name : string;
  grp_members : list string;
  grp_created_by : string
}.

(** [members_not_empty]: raises when [not v]. *)
Definition members_not_empty (v : list string) : bool :=
  match v with [] => false | _ :: _ => true end.

Record GroupResponse := mkGroupResponse {
  gres_id : nat;
  gres_name : string;
  gres_members : list string;
  gres_created_by : string
}.

Section Groups.
Context {num : Type} `{!External}.

(** [groups_collection.insert_one(doc)], with the handler's
    [except PyMongoError]; the result is the new [_id]. *)
Definition insert_group (doc : GroupDoc) : @M num nat :=
  fun db =>
    let n := length (groups_collection db) in
    if insert_one_fails n then
      (Raise (HTTPException 500 "Database insertion failed"), db)
    else
      (Ok n, {| users_collection := users_collection db;
                expenses_collection := expenses_collection db;
                groups_collection := groups_collection db ++ [doc];
                payments_collection := payments_collection db |}).

(** [POST /group] *)
Definition create_group (group : Group) (current_user : string)
  : @M num GroupResponse :=
  fun db =>
    if bool_decide
         (Exists (fun g => gdoc_name g = grp_name group
                           /\ gdoc_created_by g = current_user)
                 (groups_collection db))
    then
      (Raise (HTTPException 400 "Group name already exists for this user"),
       db)
    else
      mbind
        (insert_group {| gdoc_name := grp_name group;
                         gdoc_members := grp_members group;
                         gdoc_created_by := grp_created_by group |})
        (fun id =>
           ret {| gres_id := id;
                  gres_name := grp_name group;
                  gres_members := grp_members group;
                  gres_created_by := grp_created_by group |})
        db.

(** [GET /groups] *)
Definition get_groups (db : @DB num) (current_user : string)
  : list GroupResponse :=
  map (fun ig : nat * GroupDoc =>
         {| gres_id := ig.1;
            gres_name := gdoc_name ig.2;
            gres_members := gdoc_members ig.2;
            gres_created_by := gdoc_created_by ig.2 |})
      (filter (fun ig : nat * GroupDoc =>
                 gdoc_created_by ig.2 = current_user
                 \/ current_user ∈ gdoc_members ig.2)
              (enumerate (groups_collection db))).

End Groups.

(** ** Further observations *)

Section StoreObservations.
Context {num : Type} `{!Number num} `{!External}.

(** A stored expense that the view goes through with: its timestamp
    parses and the [Expense] built from it validates. *)
Definition shown (expense : @ExpenseDoc num) : bool :=
  match parse_created_at (doc_created_at expense) with
  | Some t =>
      match Expense_of_doc expense t with
      | Some _ => true
      | None => false
      end
  | None => false
  end.

(** An entry of the view lists a stored expense: it carries its [_id],
    description, amount, payer, participants and group id, and its
    parsed timestamp, and the viewer is one of the participants. *)
Definition lists (email : string) (ue : @UserExpense num)
    (ie : nat * @ExpenseDoc num) : Prop :=
  ue_id ue = ie.1
  /\ ue_description ue = doc_description ie.2
  /\ ue_amount ue = doc_amount ie.2
  /\ ue_paid_by ue = doc_paid_by ie.2
  /\ ue_participants ue = default [] (doc_participants ie.2)
  /\ email ∈ ue_participants ue
  /\ parse_created_at (doc_created_at ie.2) = Some (ue_created_at ue)
  /\ ue_group_id ue = str_or_None (doc_group_id ie.2).

(** The entry under which the view lists an expense that was just
    posted and answered with [resp]. *)
Definition listed_entry (e : @Expense num) (now : Z)
    (resp : @ExpenseResponse num) : @UserExpense num :=
  {| ue_id := er_id resp;
     ue_description := description e;
     ue_amount := amount e;
     ue_paid_by := paid_by e;
     ue_participants := participants e;
     ue_splits := er_splits resp;
     ue_created_at := default now (created_at e);
     ue_group_id := str_or_None (group_id e);
     ue_group_name :=
       if truthy_str (er_group_name resp)
       then default "" (er_group_name resp) else "Single" |}.

(** The sweep rewrites this record: it is custom and fails the check of
    line 656. *)
Definition repaired (expense : @ExpenseDoc num) : bool :=
  bool_decide (doc_split_method expense = Some "custom")
  && needs_fix expense.

(** The sweep finds nothing to rewrite in the store. *)
Definition no_repair_needed (db : @DB num) : Prop :=
  forall d, d ∈ expenses_collection db -> repaired d = false.

(** Every group id in the store is one the view can handle. *)
Definition store_readable (db : @DB num) : Prop :=
  (forall d, d ∈ expenses_collection db -> readable_group (doc_group_id d))
  /\ (forall p, p ∈ payments_collection db ->
        readable_group (pdoc_group_id p)).

(** The store after an expense document was inserted. *)
Definition record_expense (db : @DB num) (expense : @ExpenseDoc num)
  : @DB num :=
  with_expenses db (expenses_collection db ++ [expense]).

(** The store after a group document was inserted. *)
Definition record_group (db : @DB num) (group : GroupDoc) : @DB num :=
  {| users_collection := users_collection db;
     expenses_collection := expenses_collection db;
     groups_collection := groups_collection db ++ [group];
     payments_collection := payments_collection db |}.

(** The key under which a record of the viewer is added to the group
    balances: the label of a group id that [ObjectId] accepts, carried
    by a stored expense in which the viewer takes part or by a stored
    payment that the viewer made or received. *)
Definition group_label_of (db : @DB num) (email k : string) : Prop :=
  exists gid group_name,
    group_name_of db gid = Some group_name
    /\ k = group_key_of group_name gid
    /\ ((exists i d,
           expenses_collection db !! i = Some d
           /\ email ∈ default [] (doc_participants d)
           /\ str_or_None (doc_group_id d) = Some gid)
        \/ (exists i p,
              payments_collection db !! i = Some p
              /\ (pdoc_payer p = email \/ pdoc_payee p = email)
              /\ str_or_None (pdoc_group_id p) = Some gid)).

(** The group that a record names exists and has these people among its
    members; a record that names no group asks for nothing. *)
Definition in_group (db : @DB num) (gid : option string)
    (people : list string) : Prop :=
  forall g, str_or_None gid = Some g ->
    exists oid group,
      ObjectId g = Some oid
      /\ groups_collection db !! oid = Some group
      /\ people ⊆ gdoc_members group.

(** Every stored expense that names a group has its participants and its
    payer among the members of that group, and every stored payment that
    names a group its payer and its payee. *)
Definition groups_respected (db : @DB num) : Prop :=
  (forall d, d ∈ expenses_collection db ->
     in_group db (doc_group_id d)
       (default [] (doc_participants d) ++ [doc_paid_by d]))
  /\ (forall p, p ∈ payments_collection db ->
        in_group db (pdoc_group_id p) [pdoc_payer p; pdoc_payee p]).

End StoreObservations.

(** *** Data for the further examples *)

(** An expense of the flat, shared equally by alice and bob. *)
Definition shopping : @Expense float := {|
  description := "shopping";
  amount := 60%float;
  participants := [alice; bob];
  paid_by := alice;
  split_method := "equal";
  split_amounts := None;
  created_at := Some 1714564800%Z;
  group_id := Some flat_id
|}.

(** The answer to [shopping], posted by alice on [flat_db], and the
    store the request leaves. *)
Definition shopping_response : @ExpenseResponse float := {|
  er_id := 1;
  er_amount := 60%float;
  er_description := "shopping";
  er_paid_by := alice;
  er_splits := [(alice, 30%float); (bob, 30%float)];
  er_balances_for_current_user := [(bob, 30%float)];
  er_group_id := Some flat_id;
  er_group_name := Some "flat"
|}.

Definition shopping_db : @DB float :=
  record_expense flat_db
    (@expense_dict float shopping 0%Z []
       [(alice, 30%float); (bob, 30%float)] (Some flat_id)).

(** The view of bob on [flat_db], and on [shopping_db]. *)
Definition flat_view_of_bob : @UserExpensesResponse float := {|
  expenses :=
    [{| ue_id := 0;
        ue_description := "lunch";
        ue_amount := 100%float;
        ue_paid_by := alice;
        ue_participants := [alice; bob; carol];
        ue_splits :=
          [(alice, (3333 / 100)%float); (bob, (3333 / 100)%float);
           (carol, (3333 / 100)%float)];
        ue_created_at := 1714564800%Z;
        ue_group_id := None;
        ue_group_name := "Single" |}];
  net_balances := [(alice, (3333 / 100)%float)];
  group_balances := []
|}.

Definition shopping_view_of_bob : @UserExpensesResponse float := {|
  expenses :=
    expenses flat_view_of_bob
    ++ [{| ue_id := 1;
           ue_description := "shopping";
           ue_amount := 60%float;
           ue_paid_by := alice;
           ue_participants := [alice; bob];
           ue_splits := [(alice, 30%float); (bob, 30%float)];
           ue_created_at := 1714564800%Z;
           ue_group_id := Some flat_id;
           ue_group_name := "flat" |}];
  net_balances := [(alice, (3333 / 100 + 30)%float)];
  group_balances := [("flat (000000000000000000000000)", 30%float)]
|}.

(** A record whose group id is no [ObjectId]. *)
Definition museum_doc : @ExpenseDoc float := {|
  doc_description := "museum";
  doc_amount := 40%float;
  doc_participants := Some [alice; bob];
  doc_paid_by := alice;
  doc_split_method := Some "equal";
  doc_splits := Some [(alice, 20%float); (bob, 20%float)];
  doc_created_at := Datetime 1714564800;
  doc_group_id := Some "holiday";
  doc_unregistered_participants := []
|}.

Definition museum_db : @DB float := {|
  users_collection := [alice; bob];
  expenses_collection := [dinner_doc; museum_doc];
  groups_collection := [];
  payments_collection := []
|}.

(** Bob pays alice within the flat. *)
Definition flat_repayment : @Payment float := {|
  pay_amount := 30%float;
  payer := bob;
  payee := alice;
  pay_description := "Debt repayment";
  pay_created_at := "2024-05-01T12:00:00+00:00";
  pay_group_id := Some flat_id
|}.

Definition flat_repayment_response : @PaymentResponse float := {|
  pr_id := 0;
  pr_amount := 30%float;
  pr_payer := bob;
  pr_payee := alice;
  pr_description := "Debt repayment";
  pr_created_at := IsoString "2024-05-01T12:00:00+00:00";
  pr_group_id := Some flat_id;
  pr_group_name := Some "flat"
|}.



(** [legacy_db] after the sweep. *)
Definition legacy_swept_db : @DB float :=
  with_expenses legacy_db
    [set_equal_split [(alice, 50%float); (bob, 50%float)] legacy_doc;
     lunch_doc; fair_doc].

(** A custom record that lost its participants, between two others. *)
Definition orphan_doc : @ExpenseDoc float := {|
  doc_description := "orphan";
  doc_amount := 10%float;
  doc_participants := None;
  doc_paid_by := alice;
  doc_split_method := Some "custom";
  doc_splits := None;
  doc_created_at := Datetime 1714564800;
  doc_group_id := None;
  doc_unregistered_participants := []
|}.

Definition orphan_db : @DB float := {|
  users_collection := [alice; bob];
  expenses_collection := [legacy_doc; orphan_doc; fair_doc];
  groups_collection := [];
  payments_collection := []
|}.

(** A second group, created by alice for herself and dave. *)
Definition trip : Group := {|
  grp_name := "trip";
  grp_members := [alice; dave];
  grp_created_by := alice
|}.

Definition trip_doc : GroupDoc := {|
  gdoc_name := "trip";
  gdoc_members := [alice; dave];
  gdoc_created_by := alice
|}.

Definition trip_response : GroupResponse := {|
  gres_id := 1;
  gres_name := "trip";
  gres_members := [alice; dave];
  gres_created_by := alice
|}.







(** CPython's [round(x, 2)] on binary64: 2.675 is stored just below
    the tie and goes down, 0.125 is an exact tie and goes to the even
    0.12, 100/3 gives 33.33. *)
Example float_round2_samples :
  float_round2 (2675 / 1000) = (267 / 100)%float
  /\ float_round2 (125 / 1000) = (12 / 100)%float
  /\ float_round2 (100 / 3) = (3333 / 100)%float.
Proof. repeat split; vm_compute; reflexivity. Qed.

(** ** Facts about dictionaries *)

Section DictFacts.
Context {V : Type}.
Implicit Types (d : dict V) (k p : string) (v : V).

Lemma dict_get_set_eq d k v : dict_get (dict_set d k v) k = Some v.
Proof.
  induction d as [|[k' v'] d IH]; simpl.
  - by rewrite decide_True.
  - destruct (decide (k' = k)) as [->|Hne]; simpl.
    + by rewrite decide_True.
    + by rewrite decide_False.
Qed.

Lemma dict_get_set_ne d k k' v :
  k <> k' -> dict_get (dict_set d k v) k' = dict_get d k'.
Proof.
  intros Hne. induction d as [|[k0 v0] d IH]; simpl.
  - by rewrite decide_False.
  - destruct (decide (k0 = k)) as [->|Hk]; simpl.
    + by rewrite !decide_False.
    + by rewrite IH.
Qed.

Lemma dict_get_set d k k' v :
  dict_get (dict_set d k v) k' =
  if decide (k = k') then Some v else dict_get d k'.
Proof.
  destruct (decide (k = k')) as [->|Hne].
  - apply dict_get_set_eq.
  - by apply dict_get_set_ne.
Qed.

Lemma dict_get_is_Some d k : is_Some (dict_get d k) <-> k ∈ dict_keys d.
Proof.
  induction d as [|[k' v'] d IH]; simpl.
  - split; [intros [? [=]] | by intros ?%elem_of_nil].
  - destruct (decide (k' = k)) as [->|Hne].
    + split; [intros _; left | by eauto].
    + rewrite IH. split; [by right|].
      intros [?|?]%elem_of_cons; [congruence | done].
Qed.

Lemma dict_get_None d k : dict_get d k = None <-> k ∉ dict_keys d.
Proof.
  rewrite <- dict_get_is_Some, eq_None_not_Some. done.
Qed.

Lemma dict_mem_true d k : dict_mem d k = true <-> k ∈ dict_keys d.
Proof.
  rewrite <- dict_get_is_Some. unfold dict_mem.
  destruct (dict_get d k); split; eauto; try done.
  all: try by intros [? [=]].
Qed.

Lemma dict_keys_set d k v k' :
  k' ∈ dict_keys (dict_set d k v) <-> k' = k \/ k' ∈ dict_keys d.
Proof.
  rewrite <- !dict_get_is_Some, dict_get_set.
  destruct (decide (k = k')) as [->|Hne].
  - split; eauto.
  - split; [by right | intros [->|?]; done].
Qed.

Lemma dict_get_default_set_eq d k v v0 :
  dict_get_default (dict_set d k v) k v0 = v.
Proof. unfold dict_get_default. by rewrite dict_get_set_eq. Qed.

Lemma dict_get_default_set_ne d k k' v v0 :
  k <> k' -> dict_get_default (dict_set d k v) k' v0 = dict_get_default d k' v0.
Proof. intros. unfold dict_get_default. by rewrite dict_get_set_ne. Qed.

(** A dictionary comprehension with a constant value, read back. *)
Lemma dict_get_fold_const (l : list string) v d p :
  dict_get (fold_left (fun d p => dict_set d p v) l d) p =
  if decide (p ∈ l) then Some v else dict_get d p.
Proof.
  revert d. induction l as [|q l IH]; intros d; simpl.
  - by destruct (decide (p ∈ [])) as [?%elem_of_nil|].
  - rewrite IH. destruct (decide (p ∈ l)) as [Hin|Hnin].
    + rewrite decide_True; [done | by right].
    + rewrite dict_get_set. destruct (decide (q = p)) as [->|Hne].
      * rewrite decide_True; [done | by left].
      * rewrite decide_False; [done|].
        intros [?|?]%elem_of_cons; congruence.
Qed.

Lemma dict_get_const (l : list string) v p :
  dict_get (dict_const l v) p = if decide (p ∈ l) then Some v else None.
Proof. unfold dict_const. by rewrite dict_get_fold_const. Qed.

Lemma dict_keys_const (l : list string) v p :
  p ∈ dict_keys (dict_const l v) <-> p ∈ l.
Proof.
  rewrite <- dict_get_is_Some, dict_get_const.
  destruct (decide (p ∈ l)); split; eauto; try done.
  all: try by intros [? [=]].
Qed.

Lemma dict_keys_map (f : V -> V) d : dict_keys (dict_map f d) = dict_keys d.
Proof.
  unfold dict_keys, dict_map. rewrite map_map. by apply map_ext.
Qed.

Lemma dict_get_map (f : V -> V) d k :
  dict_get (dict_map f d) k = f <$> dict_get d k.
Proof.
  induction d as [|[k' v'] d IH]; simpl; [done|].
  by destruct (decide (k' = k)).
Qed.

End DictFacts.

Lemma set_eqb_true (l1 l2 : list string) :
  set_eqb l1 l2 = true <-> (forall x, x ∈ l1 <-> x ∈ l2).
Proof.
  unfold set_eqb. rewrite andb_true_iff, !bool_decide_eq_true.
  split.
  - intros [H1 H2] x. split; [apply H1 | apply H2].
  - intros H. split; intros x; apply H.
Qed.

(** ** The split calculator *)

Section SplitCalculator.
Context {num : Type} `{!Number num}.
Implicit Types (e : @Expense num).

Lemma equal_split_Ok (amt : num) (ps : list string) :
  ps <> [] ->
  equal_split amt ps = Ok (dict_const ps (round2 (div_len amt (length ps)))).
Proof. by destruct ps. Qed.

Lemma equal_split_empty (amt : num) :
  equal_split amt [] = Raise ZeroDivisionError.
Proof. done. Qed.

(** C9: for an expense with method [equal] and a non-empty list of N
    participants, the split calculator returns a mapping in which every
    participant has the share [round(amount / N, 2)], and whose keys are
    exactly the participants. *)
Theorem equal_split_identical_shares e :
  split_method e = "equal" ->
  participants e <> [] ->
  exists splits,
    calculate_split e = Ok splits
    /\ (forall p, p ∈ participants e -> dict_get splits p = Some (share_of e))
    /\ (forall p, p ∈ dict_keys splits <-> p ∈ participants e).
Proof.
  intros Hm Hne. exists (dict_const (participants e) (share_of e)).
  split; [|split].
  - unfold calculate_split. rewrite decide_True by done.
    by apply equal_split_Ok.
  - intros p Hp. rewrite dict_get_const. by rewrite decide_True.
  - intros p. apply dict_keys_const.
Qed.

(** What [calculate_split] does with a custom split: the explicit
    splits when they pass its checks, the equal split otherwise. *)
Lemma calculate_split_custom e :
  split_method e = "custom" ->
  calculate_split e =
    if stored_splits_accepted e
    then Ok (default [] (split_amounts e))
    else equal_split (amount e) (participants e).
Proof.
  intros Hm. unfold calculate_split, stored_splits_accepted.
  rewrite Hm. simpl.
  destruct (split_amounts e) as [[|kv sa]|]; try done.
  destruct (forallb _ _); simpl; [|done].
  by destruct (num_eqb _ _).
Qed.

(** The calculator asks only that the participants are among the
    keys. *)
Lemma stored_splits_accepted_spec e :
  stored_splits_accepted e = true <->
  exists sa,
    split_amounts e = Some sa /\ sa <> []
    /\ (forall p, p ∈ participants e -> p ∈ dict_keys sa)
    /\ num_eqb (round2 (sum_values sa)) (round2 (amount e)) = true.
Proof.
  unfold stored_splits_accepted.
  destruct (split_amounts e) as [[|kv sa]|].
  - split; [done | intros (sa & [= <-] & ? & _); done].
  - rewrite andb_true_iff, forallb_forall. split.
    + intros [Hall Hsum]. exists (kv :: sa). repeat split; try done.
      intros p Hp. apply dict_mem_true, Hall. by apply list_elem_of_In.
    + intros (sa' & [= <-] & _ & Hall & Hsum). split; [|done].
      intros p Hp. apply dict_mem_true, Hall. by apply list_elem_of_In.
  - split; [done | intros (sa & [=] & _)].
Qed.

End SplitCalculator.

Lemma equal_split_identical_shares_witness :
  exists splits,
    calculate_split lunch = Ok splits
    /\ (forall p, p ∈ participants lunch ->
          dict_get splits p = Some (share_of lunch))
    /\ (forall p, p ∈ dict_keys splits <-> p ∈ participants lunch).
Proof.
  apply (equal_split_identical_shares lunch); [reflexivity | discriminate].
Defined.

(** The share of the specification's example is 33.33, in binary64. *)
Example lunch_share : share_of lunch = (3333 / 100)%float.
Proof. vm_compute. reflexivity. Qed.

(** C3: the specification has the calculator keep a custom split only
    when the keys of the stored splits are exactly the participants, and
    fall back to the equal split otherwise.  On the potluck record (participants alice and bob, stored splits for alice,
    bob and carol, summing to the amount) [calculate_split] keeps the
    stored splits, carol's share included, although the key sets differ;
    the write-time check and the repair sweep both refuse the same
    record. *)
Theorem potluck_extra_key_kept :
  calculate_split potluck
    = Ok [(alice, 40%float); (bob, 40%float); (carol, 20%float)]
  /\ set_eqb [alice; bob; carol] (participants potluck) = false
  /\ check_custom_split potluck
     = Raise (HTTPException 400
         "split_amounts must include all participants for custom split")
  /\ needs_fix potluck_doc = true.
Proof. repeat split; vm_compute; reflexivity. Qed.

(** The potluck record in a view.  When the view's [Expense] is built
    without its stored splits it is split equally; when the stored
    splits reach the calculator, the payer is owed a share by carol, who
    takes no part in the expense. *)
Example potluck_view :
  net_of (@get_user_expenses_by_email float float_Number sound_store
            potluck_db alice)
  = Some [(bob, 50%float)]
  /\ net_of (@get_user_expenses_by_email float float_Number by_name_store
               potluck_db alice)
     = Some [(bob, 40%float); (carol, 20%float)].
Proof. split; vm_compute; reflexivity. Qed.

(** ** The user view *)

Section UserView.
Context {num : Type} `{!Number num} `{!External}.
Implicit Types (db : @DB num) (net bal : dict num) (st : @agg_state num).

(** A property kept by every pass of a loop holds when the loop ends. *)
Lemma foldM_invariant {A S} (P : S -> Prop) (f : S -> A -> result S)
    (l : list A) :
  (forall s x s', x ∈ l -> P s -> f s x = Ok s' -> P s') ->
  forall s s', P s -> foldM f l s = Ok s' -> P s'.
Proof.
  induction l as [|x l IH]; simpl; intros Hf s s' Hs Hfold.
  - by injection Hfold as <-.
  - destruct (f s x) as [s1|err] eqn:Hx; simpl in Hfold; [|done].
    eapply IH; [| |exact Hfold].
    + intros s0 y s0' Hy. apply Hf. by right.
    + eapply Hf; [|exact Hs|exact Hx]. by left.
Qed.

Lemma foldM_app {A S} (f : S -> A -> result S) (l1 l2 : list A) (s : S) :
  foldM f (l1 ++ l2) s = (s' <- foldM f l1 s ;; foldM f l2 s').
Proof.
  revert s. induction l1 as [|x l1 IH]; intros s; simpl; [done|].
  destruct (f s x); simpl; [apply IH | done].
Qed.

(** The keys of a balance mapping after one pass of [accumulate]. *)
Lemma accumulate_keys email paid_by key (ub : dict num) bal k :
  k ∈ dict_keys (accumulate email paid_by key ub bal) ->
  k ∈ dict_keys bal
  \/ exists user, user ∈ dict_keys ub /\ user <> email /\ k = key user.
Proof.
  unfold accumulate. revert bal.
  induction ub as [|[user amt] ub IH]; intros bal; simpl; [by left|].
  intros Hk. apply IH in Hk as [Hk|(u & Hu & Hne & ->)].
  - destruct (decide (user <> email)) as [Hne|_]; [|by left].
    apply dict_keys_set in Hk as [->|Hk]; [|by left].
    right. exists user. split; [by left | done].
  - right. exists u. split; [by right | done].
Qed.

(** The contribution of an expense never writes the viewer's own key. *)
Lemma expense_net_step_excludes_viewer email paid_by (ub : dict num) net :
  email ∉ dict_keys net ->
  email ∉ dict_keys (expense_net_step email paid_by ub net).
Proof.
  intros Hnet Hin. apply accumulate_keys in Hin as [?|(u & _ & Hne & ->)]; done.
Qed.

Lemma process_expense_excludes_viewer db email st ie st' :
  email ∉ dict_keys st.1.2 ->
  process_expense db email st ie = Ok st' ->
  email ∉ dict_keys st'.1.2.
Proof.
  destruct st as [[el net] gb], ie as [id expense]. simpl.
  intros Hnet. unfold process_expense.
  destruct (parse_created_at _) as [t|]; [|by intros [= <-]].
  destruct (Expense_of_doc _ _) as [em|]; [|by intros [= <-]].
  destruct (calculate_split em) as [splits|]; simpl; [|done].
  destruct (expense_group_step _ _ _ _ _ _) as [gr|]; simpl; [|done].
  intros [= <-]. simpl. by apply expense_net_step_excludes_viewer.
Qed.

(** The balances after the loop over the expenses have no entry for the
    viewer. *)
Lemma expenses_exclude_viewer db email st :
  foldM (process_expense db email) (find_expenses db email) ([], [], [])
    = Ok st ->
  email ∉ dict_keys st.1.2.
Proof.
  apply (foldM_invariant (fun st => email ∉ dict_keys st.1.2)).
  - intros s x s' _. apply (process_expense_excludes_viewer db).
  - simpl. apply not_elem_of_nil.
Qed.

Lemma payment_net_step_keys email payer payee (amount : num) net k :
  k ∈ dict_keys (payment_net_step email payer payee amount net) ->
  k ∈ dict_keys net
  \/ (payer = email /\ k = payee) \/ (payee = email /\ k = payer).
Proof.
  unfold payment_net_step.
  destruct (decide (payer = email)) as [Hp|Hp].
  - intros [->|?]%dict_keys_set; [right; by left | by left].
  - destruct (decide (payee = email)) as [Hq|Hq]; [|by left].
    intros [->|?]%dict_keys_set; [right; by right | by left].
Qed.

Lemma process_payment_excludes_viewer db email st ip st' :
  pdoc_payer ip.2 <> pdoc_payee ip.2 ->
  email ∉ dict_keys st.1.2 ->
  process_payment db email st ip = Ok st' ->
  email ∉ dict_keys st'.1.2.
Proof.
  destruct st as [[el net] gb], ip as [id payment]. simpl.
  intros Hne Hnet. unfold process_payment.
  destruct (parse_created_at _) as [t|]; [|by intros [= <-]].
  destruct (payment_group_step _ _ _ _ _ _ _) as [gb'|]; simpl; [|done].
  intros [= <-]. simpl. intros Hin.
  apply payment_net_step_keys in Hin as [?|[[? ?]|[? ?]]]; [done| |];
    congruence.
Qed.

Lemma elem_of_enumerate {A} (l : list A) i x :
  (i, x) ∈ enumerate l <-> l !! i = Some x.
Proof.
  unfold enumerate. rewrite elem_of_lookup_imap. split.
  - by intros (j & y & [= -> ->] & Hj).
  - intros Hi. by exists i, x.
Qed.

Lemma find_payments_stored db email ip :
  ip ∈ find_payments db email -> ip.2 ∈ payments_collection db.
Proof.
  unfold find_payments. intros [_ Hin]%list_elem_of_filter.
  destruct ip as [i p]. apply elem_of_enumerate in Hin.
  by eapply list_elem_of_lookup_2.
Qed.

(** C10: when every stored payment has a payer different from its payee,
    the [net_balances] of a user view never have the viewing email as a
    key; and the balances built from the expenses alone have no such key
    whatever the payments are. *)
Theorem net_balances_exclude_viewer db email :
  (forall p, p ∈ payments_collection db -> pdoc_payer p <> pdoc_payee p) ->
  (forall view, get_user_expenses_by_email db email = Ok view ->
     email ∉ dict_keys (net_balances view))
  /\ (forall st,
        foldM (process_expense db email) (find_expenses db email)
          ([], [], []) = Ok st ->
        email ∉ dict_keys st.1.2).
Proof.
  intros Hpay. split; [|apply expenses_exclude_viewer].
  intros view. unfold get_user_expenses_by_email, aggregate.
  destruct (foldM (process_expense db email) _ _) as [st1|] eqn:H1;
    simpl; [|done].
  destruct (foldM (process_payment db email) _ _) as [st2|] eqn:H2;
    simpl; [|done].
  intros [= <-]. simpl. rewrite dict_keys_map.
  revert H2.
  apply (foldM_invariant (fun st => email ∉ dict_keys st.1.2)).
  - intros s ip s' Hip. apply (process_payment_excludes_viewer db).
    by apply Hpay, (find_payments_stored db email).
  - by apply (expenses_exclude_viewer db).
Qed.

End UserView.

Lemma net_balances_exclude_viewer_witness :
  (forall v, view settled_db bob = Ok v -> bob ∉ dict_keys (net_balances v))
  /\ (forall st,
        foldM (@process_expense float float_Number sound_store settled_db bob)
              (find_expenses settled_db bob) ([], [], []) = Ok st ->
        bob ∉ dict_keys st.1.2).
Proof.
  apply (@net_balances_exclude_viewer float float_Number sound_store
           settled_db bob).
  intros p Hp. apply list_elem_of_singleton in Hp. subst p. discriminate.
Defined.

(** The view of the witness is computed, and owes nothing to itself. *)
Example settled_view_of_bob :
  net_of (view settled_db bob) = Some [(alice, 0%float)].
Proof. vm_compute. reflexivity. Qed.

Section Payments.
Context {num : Type} `{!Number num} `{!External}.
Implicit Types (db : @DB num) (net : dict num).

Lemma find_payments_record db payment email :
  find_payments (record_payment db payment) email =
  find_payments db email ++
    (if decide (pdoc_payer payment = email \/ pdoc_payee payment = email)
     then [(length (payments_collection db), payment)] else []).
Proof.
  unfold find_payments, record_payment, enumerate. simpl.
  rewrite imap_app, filter_app. f_equal. simpl.
  rewrite Nat.add_0_r.
  unfold filter, list_filter. simpl.
  by destruct (decide _).
Qed.

(** X3: recording a payment that the view processes (its timestamp
    parses and it carries no group) changes the balances of a party,
    before the final rounding, by exactly the contribution of that
    payment, and leaves the view of everybody else as it was. *)
Lemma aggregate_record_payment db payment email :
  is_Some (parse_created_at (pdoc_created_at payment)) ->
  str_or_None (pdoc_group_id payment) = None ->
  aggregate (record_payment db payment) email =
    if decide (pdoc_payer payment = email \/ pdoc_payee payment = email)
    then
      st <- aggregate db email ;;
      Ok (st.1.1,
          payment_net_step email (pdoc_payer payment) (pdoc_payee payment)
            (pdoc_amount payment) st.1.2,
          st.2)
    else aggregate db email.
Proof.
  intros [t Ht] Hg. unfold aggregate.
  rewrite find_payments_record.
  change (find_expenses (record_payment db payment) email)
    with (find_expenses db email).
  change (process_expense (record_payment db payment))
    with (process_expense db).
  change (process_payment (record_payment db payment))
    with (process_payment db).
  destruct (foldM (process_expense db email) _ _) as [st1|]; simpl;
    [|by destruct (decide _)].
  rewrite foldM_app.
  destruct (decide _) as [Hsel|Hsel]; simpl.
  - destruct (foldM (process_payment db email) _ st1) as [[[el net] gb]|];
      simpl; [|done].
    by rewrite Ht, Hg.
  - by destruct (foldM (process_payment db email) _ st1).
Qed.

End Payments.

(** ** A payment in the views *)

Section PaymentInView.
Context {num : Type} `{!Number num} `{!External}.
Implicit Types (db : @DB num) (net : dict num).







End PaymentInView.



(** ** The sign of an expense in the view of a participant *)

Section ExpenseSign.
Context {num : Type} `{!Number num}.
Implicit Types (splits net : dict num).

(** [calculate_user_balance] gives a participant who did not pay the
    entry [-splits[email]] under the payer. *)
Lemma calculate_user_balance_participant splits paid_by email s :
  email <> paid_by ->
  dict_get splits email = Some s ->
  calculate_user_balance splits paid_by email = [(paid_by, neg s)].
Proof.
  intros Hne Hs. unfold calculate_user_balance.
  rewrite decide_False by done. by rewrite Hs.
Qed.

(** X2: for a participant who did not pay, the view then adds the
    opposite of that entry to the balance with the payer: the share
    itself, negated twice. *)
Lemma expense_net_step_participant splits paid_by email s net :
  email <> paid_by ->
  dict_get splits email = Some s ->
  expense_net_step email paid_by
    (calculate_user_balance splits paid_by email) net
  = dict_set net paid_by
      (add (dict_get_default net paid_by zero) (neg (neg s))).
Proof.
  intros Hne Hs.
  rewrite (calculate_user_balance_participant _ _ _ s) by done.
  unfold expense_net_step, accumulate. simpl.
  rewrite decide_True by done. by rewrite decide_False.
Qed.

End ExpenseSign.

(** C1: for the expense of 100 shared equally by alice, bob and carol
    and paid by alice, the specification gives bob's view the net
    balances [{alice: -33.33}] (a participant who did not pay owes the
    payer [splits[email]]).  The balance of the expense itself is
    [{alice: -33.33}], but the view negates it once more and reports
    [{alice: 33.33}]; alice's view is [{bob: 33.33, carol: 33.33}]. *)
Theorem lunch_view_of_participant :
  calculate_user_balance
    [(alice, (3333 / 100)%float); (bob, (3333 / 100)%float);
     (carol, (3333 / 100)%float)] alice bob
    = [(alice, (- (3333 / 100))%float)]
  /\ net_of (view lunch_db bob) = Some [(alice, (3333 / 100)%float)]
  /\ net_of (view lunch_db alice)
     = Some [(bob, (3333 / 100)%float); (carol, (3333 / 100)%float)].
Proof. repeat split; vm_compute; reflexivity. Qed.

(** C2: alice paid a dinner of 100 shared with bob, outside any group.
    Symmetry asks that what alice's view reports for bob is the opposite
    of what bob's view reports for alice; both views report 50. *)
Theorem dinner_views_not_opposite :
  net_of (view dinner_db alice) = Some [(bob, 50%float)]
  /\ net_of (view dinner_db bob) = Some [(alice, 50%float)]
  /\ num_eqb 50%float (neg 50%float) = false.
Proof. repeat split; vm_compute; reflexivity. Qed.

(** ** The repair sweep *)

Section RepairSweep.
Context {num : Type} `{!Number num} `{!External}.
Implicit Types (db : @DB num) (d : @ExpenseDoc num).

(** The loop does nothing over records that pass the check. *)
Lemma fix_loop_noop (items : list (nat * @ExpenseDoc num)) c db :
  (forall ie, ie ∈ items -> needs_fix ie.2 = false) ->
  forM fix_expenses_body items c db = (Ok c, db).
Proof.
  revert c db. induction items as [|[i d] items IH]; intros c db Hok;
    simpl; [done|].
  pose proof (Hok (i, d) ltac:(left)) as Hd. simpl in Hd.
  unfold mbind at 1. unfold fix_expenses_body at 1. rewrite Hd.
  unfold ret at 1. apply IH.
  intros ie Hie. apply Hok. by right.
Qed.

(** A record left custom by the sweep passes the check. *)
Lemma sweep_doc_custom_ok d :
  doc_split_method (sweep_doc d) = Some "custom" ->
  needs_fix (sweep_doc d) = false.
Proof.
  unfold sweep_doc.
  destruct (bool_decide _) eqn:Hc; simpl.
  - destruct (needs_fix d) eqn:Hn; simpl; [done|]. by rewrite Hn.
  - intros Hcust. apply bool_decide_eq_false in Hc. done.
Qed.

(** The loop over the records from position [length pre] on: it either
    stops at a write the store refuses, or ends with every record swept. *)
Lemma fix_loop_result (docs pre : list (@ExpenseDoc num)) c db :
  Forall scanned_nonempty docs ->
  expenses_collection db = pre ++ docs ->
  let items :=
    filter (fun ie : nat * @ExpenseDoc num =>
              doc_split_method ie.2 = Some "custom")
           (imap (fun i x => (length pre + i, x)) docs) in
  (exists c' db',
      forM fix_expenses_body items c db = (Ok c', db')
      /\ expenses_collection db' = pre ++ map sweep_doc docs
      /\ users_collection db' = users_collection db
      /\ groups_collection db' = groups_collection db
      /\ payments_collection db' = payments_collection db)
  \/ (exists err db' i,
        forM fix_expenses_body items c db = (Raise err, db')
        /\ update_one_fails i = true).
Proof.
  revert pre c db.
  induction docs as [|d docs IH]; intros pre c db Hne Hdb; simpl.
  - left. exists c, db. by rewrite Hdb.
  - apply Forall_cons in Hne as [Hd Hne].
    rewrite filter_cons. simpl.
    assert (Hshift :
      imap ((fun i x => (length pre + i, x)) ∘ S) docs
      = imap (fun i (x : @ExpenseDoc num) =>
                (length (pre ++ [sweep_doc d]) + i, x)) docs).
    { apply imap_ext. intros i x _. simpl. rewrite length_app. simpl.
      f_equal. lia. }
    assert (Hshift' :
      imap ((fun i x => (length pre + i, x)) ∘ S) docs
      = imap (fun i (x : @ExpenseDoc num) =>
                (length (pre ++ [d]) + i, x)) docs).
    { apply imap_ext. intros i x _. simpl. rewrite length_app. simpl.
      f_equal. lia. }
    destruct (decide (doc_split_method d = Some "custom")) as [Hc|Hc].
    + simpl. unfold mbind at 1. unfold fix_expenses_body at 1.
      destruct (needs_fix d) eqn:Hn.
      * specialize (Hd Hc).
        unfold mbind, lift, update_expense, ret.
        rewrite equal_split_Ok by done.
        rewrite Nat.add_0_r.
        destruct (update_one_fails (length pre)) eqn:Hf.
        { right. by exists (HTTPException 500 "Database error"), db, (length pre). }
        set (db2 := {| users_collection := users_collection db;
                       expenses_collection := _ |}).
        assert (Hsw : sweep_doc d
                      = set_equal_split
                          (dict_const (default [] (doc_participants d))
                             (round2 (div_len (doc_amount d)
                                (length (default [] (doc_participants d))))))
                          d).
        { unfold sweep_doc. rewrite bool_decide_eq_true_2 by done.
          by rewrite Hn. }
        assert (Hdb2 : expenses_collection db2 = (pre ++ [sweep_doc d]) ++ docs).
        { subst db2. simpl. rewrite Hdb.
          rewrite <- (Nat.add_0_r (length pre)).
          rewrite alter_app_r. simpl. rewrite Hsw.
          by rewrite <- app_assoc. }
        rewrite Hshift.
        destruct (IH (pre ++ [sweep_doc d]) (S c) db2 Hne Hdb2)
          as [(c' & db' & Hrun & He & Hu & Hg & Hp)|(err & db' & i & Hrun & Hi)].
        { left. exists c', db'. split; [exact Hrun|].
          rewrite He, <- app_assoc. done. }
        { right. by exists err, db', i. }
      * unfold ret. rewrite Hshift'.
        assert (Hsw : sweep_doc d = d).
        { unfold sweep_doc. rewrite Hn. by rewrite andb_false_r. }
        assert (Hdb2 : expenses_collection db = (pre ++ [d]) ++ docs).
        { by rewrite Hdb, <- app_assoc. }
        destruct (IH (pre ++ [d]) c db Hne Hdb2)
          as [(c' & db' & Hrun & He & Hu & Hg & Hp)|(err & db' & i & Hrun & Hi)].
        { left. exists c', db'. split; [exact Hrun|].
          rewrite He, Hsw, <- app_assoc. done. }
        { right. by exists err, db', i. }
    + rewrite Hshift'.
      assert (Hsw : sweep_doc d = d).
      { unfold sweep_doc. by rewrite bool_decide_eq_false_2. }
      assert (Hdb2 : expenses_collection db = (pre ++ [d]) ++ docs).
      { by rewrite Hdb, <- app_assoc. }
      destruct (IH (pre ++ [d]) c db Hne Hdb2)
        as [(c' & db' & Hrun & He & Hu & Hg & Hp)|(err & db' & i & Hrun & Hi)].
      { left. exists c', db'. split; [exact Hrun|].
        rewrite He, Hsw, <- app_assoc. done. }
      { right. by exists err, db', i. }
Qed.

End RepairSweep.

Section RepairSweepIdempotent.
Context {num : Type} `{!Number num} `{!External}.
Implicit Types (db : @DB num) (d : @ExpenseDoc num).

Lemma fix_expenses_result db :
  Forall scanned_nonempty (expenses_collection db) ->
  (exists n db1,
      fix_expenses db = (Ok n, db1)
      /\ expenses_collection db1 = map sweep_doc (expenses_collection db)
      /\ users_collection db1 = users_collection db
      /\ groups_collection db1 = groups_collection db
      /\ payments_collection db1 = payments_collection db)
  \/ (exists err db1 i,
        fix_expenses db = (Raise err, db1) /\ update_one_fails i = true).
Proof.
  intros Hne.
  exact (fix_loop_result (expenses_collection db) [] 0 db Hne eq_refl).
Qed.

(** After a sweep that ended, nothing is left to repair. *)
Lemma fix_expenses_swept db1 (docs : list (@ExpenseDoc num)) :
  expenses_collection db1 = map sweep_doc docs ->
  fix_expenses db1 = (Ok 0, db1).
Proof.
  intros He. unfold fix_expenses. apply fix_loop_noop.
  intros [i d'] [Hc Hin]%list_elem_of_filter. simpl in *.
  apply elem_of_enumerate in Hin. rewrite He in Hin.
  apply list_lookup_fmap_Some in Hin as (d & -> & _).
  by apply sweep_doc_custom_ok.
Qed.

(** C7: on a store whose custom expenses all have participants, a run
    of the repair sweep that ended leaves a store on which a second run
    rewrites no record, reports 0 and changes nothing; and the first run
    does end when the store refuses no update. *)
Theorem fix_expenses_idempotent db :
  (forall d, d ∈ expenses_collection db -> scanned_nonempty d) ->
  (forall n db1,
     fix_expenses db = (Ok n, db1) -> fix_expenses db1 = (Ok 0, db1))
  /\ ((forall i, update_one_fails i = false) ->
      exists n db1,
        fix_expenses db = (Ok n, db1)
        /\ expenses_collection db1 = map sweep_doc (expenses_collection db)
        /\ fix_expenses db1 = (Ok 0, db1)).
Proof.
  intros Hne. apply Forall_forall in Hne.
  destruct (fix_expenses_result db Hne)
    as [(n & db1 & Hrun & He & _)|(err & db1 & i & Hrun & Hi)].
  - split.
    + intros n' db1' Hrun'. rewrite Hrun in Hrun'.
      injection Hrun' as _ <-. by eapply fix_expenses_swept.
    + intros _. exists n, db1. repeat split; [done..|].
      by eapply fix_expenses_swept.
  - split.
    + intros n' db1' Hrun'. by rewrite Hrun in Hrun'.
    + intros Hnf. by rewrite Hnf in Hi.
Qed.

End RepairSweepIdempotent.

Lemma fix_expenses_idempotent_witness :
  (forall n db1,
     @fix_expenses float float_Number sound_store legacy_db = (Ok n, db1) ->
     @fix_expenses float float_Number sound_store db1 = (Ok 0, db1))
  /\ ((forall i, @update_one_fails sound_store i = false) ->
      exists n db1,
        @fix_expenses float float_Number sound_store legacy_db = (Ok n, db1)
        /\ expenses_collection db1
           = map sweep_doc (expenses_collection legacy_db)
        /\ @fix_expenses float float_Number sound_store db1 = (Ok 0, db1)).
Proof.
  apply (@fix_expenses_idempotent float float_Number sound_store legacy_db).
  intros d Hd _.
  repeat (apply elem_of_cons in Hd as [->|Hd]; [discriminate|]).
  by apply elem_of_nil in Hd.
Defined.

(** The sweep on the witness store: one record is rewritten, and a
    second run finds nothing. *)
Example legacy_sweep :
  (@fix_expenses float float_Number sound_store legacy_db).1 = Ok 1
  /\ expenses_collection
       (@fix_expenses float float_Number sound_store legacy_db).2
     = [set_equal_split [(alice, 50%float); (bob, 50%float)] legacy_doc;
        lunch_doc; fair_doc]
  /\ (@fix_expenses float float_Number sound_store
        (@fix_expenses float float_Number sound_store legacy_db).2).1
     = Ok 0.
Proof. repeat split; vm_compute; reflexivity. Qed.

(** ** The batch endpoint *)

Section GroupExpense.
Context {num : Type} `{!Number num} `{!External}.
Implicit Types (db cur : @DB num) (e : @Expense num).

(** One pass of the loop: the checks, then one insert.  A pass that
    raises leaves the store as it found it. *)
Lemma add_group_expense_body_unfold gid group current_user now acc e cur :
  add_group_expense_body gid group current_user now acc e cur =
  match sub_expense_checks cur gid current_user e with
  | Raise err => (Raise err, cur)
  | Ok splits =>
      if insert_one_fails (length (expenses_collection cur)) then
        (Raise (HTTPException 500 "Database insertion failed"), cur)
      else
        (Ok {| inserted := inserted acc ++ [length (expenses_collection cur)];
               details := details acc ++ [{|
                 er_id := length (expenses_collection cur);
                 er_amount := amount e;
                 er_description := description e;
                 er_paid_by := paid_by e;
                 er_splits := splits;
                 er_balances_for_current_user :=
                   calculate_user_balance splits (paid_by e) current_user;
                 er_group_id := Some gid;
                 er_group_name := Some (gdoc_name group) |}] |},
         with_expenses cur
           (expenses_collection cur
              ++ [group_expense_doc cur gid current_user now e]))
  end.
Proof.
  unfold add_group_expense_body, group_expense_doc, sub_expense_checks.
  destruct (bool_decide (current_user ∉ participants e)); [done|].
  destruct (bool_decide (paid_by e ∉ participants e)); [done|].
  unfold mbind, lift, raise, ret, insert_expense. simpl.
  destruct (check_custom_split e); simpl; [|done].
  destruct (validate_group_members _ _ _ _); simpl; [|done].
  destruct (calculate_split e); simpl; [|done].
  by destruct (insert_one_fails _).
Qed.

(** The checks and the stored document do not look at the expenses
    already in the store. *)
Lemma sub_expense_checks_with_expenses db l gid current_user e :
  sub_expense_checks (with_expenses db l) gid current_user e
  = sub_expense_checks db gid current_user e.
Proof. done. Qed.

Lemma group_expense_doc_with_expenses db l gid current_user now e :
  group_expense_doc (with_expenses db l) gid current_user now e
  = group_expense_doc db gid current_user now e.
Proof. done. Qed.

(** The loop over a prefix of sub-expenses that all pass: each one is
    inserted, in order, and the loop goes on with the rest. *)
Lemma add_group_expense_prefix gid group current_user now db
    (pre rest : list (@Expense num)) :
  forall acc l,
  (forall j e, pre !! j = Some e ->
     is_Ok (sub_expense_checks db gid current_user e) = true
     /\ insert_one_fails (length l + j) = false) ->
  exists acc',
    forM (add_group_expense_body gid group current_user now)
      (pre ++ rest) acc (with_expenses db l)
    = forM (add_group_expense_body gid group current_user now)
        rest acc'
        (with_expenses db
           (l ++ map (group_expense_doc db gid current_user now) pre))
    /\ inserted acc' = inserted acc ++ seq (length l) (length pre).
Proof.
  induction pre as [|e pre IH]; intros acc l Hpre; simpl.
  - exists acc. by rewrite !app_nil_r.
  - destruct (Hpre 0%nat e eq_refl) as [Hok Hins].
    rewrite Nat.add_0_r in Hins.
    unfold mbind at 1. rewrite add_group_expense_body_unfold.
    rewrite sub_expense_checks_with_expenses.
    destruct (sub_expense_checks db gid current_user e) as [splits|] eqn:Hc;
      [|done].
    simpl. rewrite Hins.
    rewrite group_expense_doc_with_expenses.
    match goal with
    | |- context [forM _ (pre ++ rest) ?a _] =>
        destruct (IH a (l ++ [group_expense_doc db gid current_user now e]))
          as (acc' & Hrun & Hids)
    end.
    { intros j e' Hj. destruct (Hpre (S j) e' Hj) as [? Hf].
      split; [done|]. rewrite length_app. simpl.
      by replace (length l + 1 + j) with (length l + S j) by lia. }
    exists acc'. split.
    + unfold with_expenses at 1. simpl.
      unfold with_expenses in Hrun at 1. rewrite Hrun.
      by rewrite <- app_assoc.
    + rewrite Hids. simpl. rewrite length_app. simpl.
      rewrite <- app_assoc. simpl. do 3 f_equal. lia.
Qed.

(** C8: the sub-expenses of a batch are handled in order, each checked
    against the users and the groups only.  When the first [k] of them
    pass their checks and are inserted, and sub-expense [k] fails a
    check or its insert, the request raises; the store then holds the
    documents of sub-expenses [0..k-1] after those it held before, and
    nothing of sub-expense [k] or of a later one. *)
Theorem add_group_expense_partial db group_expense current_user now
    group pre e post :
  validate_group_members db (ge_group_id group_expense) [] current_user
    = Ok group ->
  ge_expenses group_expense = pre ++ e :: post ->
  (forall j e', pre !! j = Some e' ->
     is_Ok (sub_expense_checks db (ge_group_id group_expense)
              current_user e') = true
     /\ insert_one_fails (length (expenses_collection db) + j) = false) ->
  is_Ok (sub_expense_checks db (ge_group_id group_expense)
           current_user e) = false
  \/ insert_one_fails (length (expenses_collection db) + length pre) = true ->
  exists err,
    add_group_expense group_expense current_user now db
    = (Raise err,
       with_expenses db
         (expenses_collection db
            ++ map (group_expense_doc db (ge_group_id group_expense)
                      current_user now) pre)).
Proof.
  intros Hgroup Hes Hpre Hfail.
  unfold add_group_expense. unfold mbind at 1, lift at 1.
  rewrite Hgroup, Hes.
  destruct (add_group_expense_prefix (ge_group_id group_expense) group
              current_user now db pre (e :: post)
              {| inserted := []; details := [] |}
              (expenses_collection db) Hpre) as (acc' & Hrun & _).
  assert (Hdb : with_expenses db (expenses_collection db) = db)
    by by destruct db.
  rewrite Hdb in Hrun. rewrite Hrun. simpl.
  unfold mbind at 1. rewrite add_group_expense_body_unfold.
  rewrite sub_expense_checks_with_expenses.
  destruct (sub_expense_checks db _ current_user e) as [splits|err] eqn:Hc.
  - destruct Hfail as [Hfail|Hfail]; [done|].
    simpl. rewrite length_app, length_map, Hfail. by eexists.
  - by exists err.
Qed.

(** X4: a batch whose sub-expenses all pass their checks and their
    inserts is stored whole, in order, and the response lists the new
    ids. *)
Lemma add_group_expense_complete db group_expense current_user now group :
  validate_group_members db (ge_group_id group_expense) [] current_user
    = Ok group ->
  (forall j e', ge_expenses group_expense !! j = Some e' ->
     is_Ok (sub_expense_checks db (ge_group_id group_expense)
              current_user e') = true
     /\ insert_one_fails (length (expenses_collection db) + j) = false) ->
  exists response,
    add_group_expense group_expense current_user now db
    = (Ok response,
       with_expenses db
         (expenses_collection db
            ++ map (group_expense_doc db (ge_group_id group_expense)
                      current_user now) (ge_expenses group_expense)))
    /\ inserted response
       = seq (length (expenses_collection db))
             (length (ge_expenses group_expense)).
Proof.
  intros Hgroup Hall.
  unfold add_group_expense. unfold mbind at 1, lift at 1. rewrite Hgroup.
  destruct (add_group_expense_prefix (ge_group_id group_expense) group
              current_user now db (ge_expenses group_expense) []
              {| inserted := []; details := [] |}
              (expenses_collection db) Hall) as (acc' & Hrun & Hids).
  assert (Hdb : with_expenses db (expenses_collection db) = db)
    by by destruct db.
  rewrite Hdb, app_nil_r in Hrun. rewrite Hrun. simpl.
  by exists acc'.
Qed.

End GroupExpense.

Lemma add_group_expense_partial_witness :
  exists err,
    @add_group_expense float float_Number sound_store flat_batch alice 0%Z
      flat_db
    = (Raise err,
       with_expenses flat_db
         (expenses_collection flat_db
            ++ map (@group_expense_doc float float_Number sound_store
                      flat_db flat_id alice 0%Z) [groceries])).
Proof.
  apply (@add_group_expense_partial float float_Number sound_store flat_db
           flat_batch alice 0%Z flat [groceries] stray [cleaning]).
  - vm_compute. reflexivity.
  - reflexivity.
  - intros [|[|j]] e' Hj; [|discriminate..].
    injection Hj as <-. split; vm_compute; reflexivity.
  - left. vm_compute. reflexivity.
Defined.

(** The batch of the witness, run: the second sub-expense is refused
    with status 400, the first one stays in the store and the third one
    is never inserted. *)
Example flat_batch_run :
  (@add_group_expense float float_Number sound_store flat_batch alice 0%Z
     flat_db).1
  = Raise (HTTPException 400 "paid_by must be one of participants")
  /\ map doc_description
       (expenses_collection
          (@add_group_expense float float_Number sound_store flat_batch
             alice 0%Z flat_db).2)
     = ["lunch"; "groceries"].
Proof. split; vm_compute; reflexivity. Qed.

(** A store error in the middle of a batch whose sub-expenses are all
    valid: the first one stays in the store. *)
Example flat_batch_store_error :
  (@add_group_expense float float_Number faulty_store flat_batch_valid
     alice 0%Z flat_db).1
  = Raise (HTTPException 500 "Database insertion failed")
  /\ map doc_description
       (expenses_collection
          (@add_group_expense float float_Number faulty_store
             flat_batch_valid alice 0%Z flat_db).2)
     = ["lunch"; "groceries"].
Proof. split; vm_compute; reflexivity. Qed.

(** ** The sum of an equal split *)

Section EqualSplitSum.
Context {V : Type}.
Implicit Types (d : dict V) (k p : string) (v : V).






End EqualSplitSum.


Section EqualSplitTotal.
Context {num : Type} `{!Number num}.
Implicit Types (e : @Expense num).


End EqualSplitTotal.


(** ** Custom splits at write time *)

Section WriteTime.
Context {num : Type} `{!Number num} `{!External}.
Implicit Types (db : @DB num) (e : @Expense num).

Lemma check_custom_split_invalid e :
  split_method e = "custom" ->
  custom_split_valid e = false ->
  exists detail, check_custom_split e = Raise (HTTPException 400 detail).
Proof.
  intros Hm. unfold custom_split_valid, check_custom_split.
  rewrite decide_True by done.
  destruct (split_amounts e) as [[|kv sa]|]; [by eexists| |by eexists].
  destruct (set_eqb _ _); simpl; [|by eexists].
  intros ->. simpl. by eexists.
Qed.

Lemma check_custom_split_valid e :
  custom_split_valid e = true -> check_custom_split e = Ok tt.
Proof.
  unfold custom_split_valid, check_custom_split.
  destruct (decide _); [|done].
  destruct (split_amounts e) as [[|kv sa]|]; [done| |done].
  intros [-> ->]%andb_true_iff. done.
Qed.

(** Splits that pass the check of the endpoint pass the checks of the
    calculator, so they are the splits that get stored. *)
Lemma custom_split_valid_stored e :
  split_method e = "custom" ->
  custom_split_valid e = true ->
  exists sa, split_amounts e = Some sa /\ calculate_split e = Ok sa.
Proof.
  intros Hm Hv. exists (default [] (split_amounts e)).
  rewrite calculate_split_custom by done.
  unfold custom_split_valid in Hv. unfold stored_splits_accepted.
  destruct (split_amounts e) as [[|kv sa]|]; [done| |done].
  apply andb_true_iff in Hv as [Hk Hs]. rewrite Hs, andb_true_r.
  split; [done|].
  assert (Hall : forallb (dict_mem (kv :: sa)) (participants e) = true).
  { apply forallb_forall. intros p Hp. apply dict_mem_true.
    apply (proj1 (set_eqb_true _ _) Hk). by apply list_elem_of_In. }
  by rewrite Hall.
Qed.

(** C4, amended: for a caller who is one of the participants,
    [POST /expense] with method [custom] is refused with status 400 and
    the store is left as it was whenever the explicit splits are missing
    or empty, their keys are not the participants, or their sum does not
    agree with the amount at two decimals.  When the three conditions
    hold and the payer is a participant too, creation goes on: the group
    is checked, and unless that check or the insert raises, the expense
    is stored with the explicit splits. *)
Theorem add_expense_custom_split db e current_user now :
  split_method e = "custom" ->
  current_user ∈ participants e ->
  (custom_split_valid e = false ->
   exists detail,
     add_expense e current_user now db
     = (Raise (HTTPException 400 detail), db))
  /\ (custom_split_valid e = true ->
      paid_by e ∈ participants e ->
      exists sa,
        split_amounts e = Some sa
        /\ add_expense e current_user now db
           = match expense_group db e with
             | Raise err => (Raise err, db)
             | Ok group =>
                 if insert_one_fails (length (expenses_collection db)) then
                   (Raise (HTTPException 500 "Database insertion failed"), db)
                 else
                   (Ok {| er_id := length (expenses_collection db);
                          er_amount := amount e;
                          er_description := description e;
                          er_paid_by := paid_by e;
                          er_splits := sa;
                          er_balances_for_current_user :=
                            calculate_user_balance sa (paid_by e) current_user;
                          er_group_id := group_id e;
                          er_group_name := option_map gdoc_name group |},
                    with_expenses db
                      (expenses_collection db
                         ++ [expense_dict e now
                               (validate_users db (participants e) (paid_by e))
                               sa (group_id e)]))
             end).
Proof.
  intros Hm Hu. unfold add_expense.
  rewrite bool_decide_eq_false_2 by (by intros Hn; apply Hn).
  split.
  - intros Hv. destruct (bool_decide (paid_by e ∉ participants e));
      [by eexists|].
    destruct (check_custom_split_invalid e Hm Hv) as [detail Hd].
    exists detail. unfold mbind at 1, lift at 1. by rewrite Hd.
  - intros Hv Hp.
    rewrite bool_decide_eq_false_2 by (by intros Hn; apply Hn).
    destruct (custom_split_valid_stored e Hm Hv) as (sa & Hsa & Hcalc).
    exists sa. split; [done|].
    unfold mbind, lift, ret, insert_expense, expense_group.
    rewrite (check_custom_split_valid e Hv), Hcalc.
    destruct (str_or_None (group_id e)) as [gid|]; simpl.
    + destruct (validate_group_members db gid _ _); simpl; [|done].
      by destruct (insert_one_fails _).
    + by destruct (insert_one_fails _).
Qed.

End WriteTime.

(** C4 without a condition on the caller fails: an invalid custom split
    posted by a user who is not a participant is refused with status
    403, not 400. *)
Lemma taxi_posted_by_outsider :
  split_method taxi = "custom"
  /\ @custom_split_valid float float_Number taxi = false
  /\ @add_expense float float_Number sound_store taxi carol 0%Z lunch_db
     = (Raise (HTTPException 403 "Current user must be a participant"),
        lunch_db).
Proof. repeat split; vm_compute; reflexivity. Qed.

Lemma add_expense_custom_split_witness :
  (@custom_split_valid float float_Number rent = false ->
   exists detail,
     @add_expense float float_Number sound_store rent alice 0%Z lunch_db
     = (Raise (HTTPException 400 detail), lunch_db))
  /\ (@custom_split_valid float float_Number rent = true ->
      paid_by rent ∈ participants rent ->
      exists sa,
        split_amounts rent = Some sa
        /\ @add_expense float float_Number sound_store rent alice 0%Z lunch_db
           = match @expense_group float sound_store lunch_db rent with
             | Raise err => (Raise err, lunch_db)
             | Ok group =>
                 if @insert_one_fails sound_store
                      (length (expenses_collection lunch_db)) then
                   (Raise (HTTPException 500 "Database insertion failed"),
                    lunch_db)
                 else
                   (Ok {| er_id := length (expenses_collection lunch_db);
                          er_amount := amount rent;
                          er_description := description rent;
                          er_paid_by := paid_by rent;
                          er_splits := sa;
                          er_balances_for_current_user :=
                            calculate_user_balance sa (paid_by rent) alice;
                          er_group_id := group_id rent;
                          er_group_name := option_map gdoc_name group |},
                    with_expenses lunch_db
                      (expenses_collection lunch_db
                         ++ [expense_dict rent 0%Z
                               (@validate_users float lunch_db
                                  (participants rent) (paid_by rent))
                               sa (group_id rent)]))
             end).
Proof.
  apply (@add_expense_custom_split float float_Number sound_store lunch_db
           rent alice 0%Z).
  - reflexivity.
  - apply (bool_decide_unpack _). vm_compute. exact I.
Defined.

(** The two custom splits of the examples, posted by a participant: the
    first is refused and nothing is stored, the second is stored with
    its explicit splits. *)
Example taxi_and_rent_posted :
  @add_expense float float_Number sound_store taxi alice 0%Z lunch_db
  = (Raise (HTTPException 400 "split_amounts must sum to total amount"),
     lunch_db)
  /\ map doc_splits
       (expenses_collection
          (@add_expense float float_Number sound_store rent alice 0%Z
             lunch_db).2)
     = [doc_splits lunch_doc;
        Some [(bob, 40%float); (alice, 60%float)]].
Proof. split; vm_compute; reflexivity. Qed.

(** ** Further properties of the code *)

Section Further.
Context {num : Type} `{!Number num} `{!External}.
Implicit Types (db : @DB num) (e : @Expense num).

(** X1: with somebody to split among, the split calculator returns a
    mapping whatever the method and the explicit splits are, and every
    participant has an entry in it.  The mapping is the explicit one
    only when the method is [custom] and the explicit splits pass the
    checks of lines 112-120; in every other case (the method [equal],
    an unknown method, explicit splits that are refused) its keys are
    exactly the participants and each has the share
    [round(amount / N, 2)]. *)
Theorem calculate_split_shares e :
  participants e <> [] ->
  exists splits,
    calculate_split e = Ok splits
    /\ (forall p, p ∈ participants e -> p ∈ dict_keys splits)
    /\ (if bool_decide (split_method e = "custom")
           && stored_splits_accepted e
        then split_amounts e = Some splits
        else (forall p, p ∈ dict_keys splits <-> p ∈ participants e)
             /\ forall p, p ∈ participants e ->
                  dict_get splits p = Some (share_of e)).
Proof.
  intros Hne.
  assert (Hequal :
    forall p, (p ∈ participants e ->
               p ∈ dict_keys (dict_const (participants e) (share_of e)))
      /\ (p ∈ dict_keys (dict_const (participants e) (share_of e))
            <-> p ∈ participants e)
      /\ (p ∈ participants e ->
            dict_get (dict_const (participants e) (share_of e)) p
            = Some (share_of e))).
  { intros p. rewrite dict_keys_const, dict_get_const.
    repeat split; try done. intros Hp. by rewrite decide_True. }
  destruct (bool_decide (split_method e = "custom")) eqn:Hm; simpl.
  - apply bool_decide_eq_true in Hm.
    rewrite calculate_split_custom by done.
    destruct (stored_splits_accepted e) eqn:Ha.
    + apply stored_splits_accepted_spec in Ha as (sa & Hsa & _ & Hk & _).
      exists sa. by rewrite Hsa.
    + rewrite equal_split_Ok by done. eexists. split; [done|].
      split; [apply Hequal | split; intros p; apply Hequal].
  - apply bool_decide_eq_false in Hm.
    exists (dict_const (participants e) (share_of e)). split.
    + unfold calculate_split.
      rewrite (decide_False (P := split_method e = "custom")) by done.
      rewrite equal_split_Ok by done. by destruct (decide _).
    + split; [apply Hequal | split; intros p; apply Hequal].
Qed.

(** X5: writing a validated payment keeps every stored payment between
    two different users, whether the request succeeds or not. *)
Theorem add_payment_keeps_distinct (payment : @Payment num) current_user
    now db :
  Payment_validate payment = true ->
  payments_distinct db ->
  payments_distinct (add_payment payment current_user now db).2.
Proof.
  intros Hv Hdb. apply bool_decide_eq_true in Hv.
  unfold add_payment.
  destruct (bool_decide _); [done|].
  unfold mbind, lift, ret, insert_payment. simpl.
  destruct (match str_or_None (pay_group_id payment) with
            | Some gid => _ | None => _ end); simpl; [|done].
  destruct (insert_one_fails _); simpl; [done|].
  intros p [Hp|Hp]%elem_of_app; [by apply Hdb|].
  apply list_elem_of_singleton in Hp. by subst p.
Qed.

End Further.

Lemma calculate_split_shares_witness :
  exists splits,
    calculate_split taxi = Ok splits
    /\ (forall p, p ∈ participants taxi -> p ∈ dict_keys splits)
    /\ (if bool_decide (split_method taxi = "custom")
           && stored_splits_accepted taxi
        then split_amounts taxi = Some splits
        else (forall p, p ∈ dict_keys splits <-> p ∈ participants taxi)
             /\ forall p, p ∈ participants taxi ->
                  dict_get splits p = Some (share_of taxi)).
Proof. apply (calculate_split_shares taxi). discriminate. Defined.

(** The explicit splits of [taxi], 60 + 41 for an amount of 100, are
    refused, and the two share the amount equally; those of [potluck]
    are kept, with a share for carol, who takes no part. *)
Example taxi_and_potluck_split :
  calculate_split taxi = Ok [(alice, 50%float); (bob, 50%float)]
  /\ stored_splits_accepted potluck = true
  /\ calculate_split potluck
     = Ok [(alice, 40%float); (bob, 40%float); (carol, 20%float)].
Proof. repeat split; vm_compute; reflexivity. Qed.

Lemma expense_net_step_participant_witness :
  expense_net_step bob alice
    (calculate_user_balance
       [(alice, (3333 / 100)%float); (bob, (3333 / 100)%float);
        (carol, (3333 / 100)%float)] alice bob) []
  = dict_set [] alice
      (add (dict_get_default [] alice zero)
           (neg (neg (3333 / 100)%float))).
Proof.
  apply (@expense_net_step_participant float float_Number
           [(alice, (3333 / 100)%float); (bob, (3333 / 100)%float);
            (carol, (3333 / 100)%float)] alice bob (3333 / 100)%float []).
  - discriminate.
  - reflexivity.
Defined.

Lemma aggregate_record_payment_witness :
  @aggregate float float_Number sound_store
    (record_payment lunch_db repayment) bob
  = if decide (pdoc_payer repayment = bob \/ pdoc_payee repayment = bob)
    then
      st <- @aggregate float float_Number sound_store lunch_db bob ;;
      Ok (st.1.1,
          payment_net_step bob (pdoc_payer repayment) (pdoc_payee repayment)
            (pdoc_amount repayment) st.1.2,
          st.2)
    else @aggregate float float_Number sound_store lunch_db bob.
Proof.
  apply (@aggregate_record_payment float float_Number sound_store lunch_db
           repayment bob).
  - vm_compute. by eexists.
  - reflexivity.
Defined.

Lemma add_group_expense_complete_witness :
  exists response,
    @add_group_expense float float_Number sound_store flat_batch_valid
      alice 0%Z flat_db
    = (Ok response,
       with_expenses flat_db
         (expenses_collection flat_db
            ++ map (@group_expense_doc float float_Number sound_store
                      flat_db (ge_group_id flat_batch_valid) alice 0%Z)
                   (ge_expenses flat_batch_valid)))
    /\ inserted response
       = seq (length (expenses_collection flat_db))
             (length (ge_expenses flat_batch_valid)).
Proof.
  apply (@add_group_expense_complete float float_Number sound_store flat_db
           flat_batch_valid alice 0%Z flat).
  - vm_compute. reflexivity.
  - intros [|[|[|j]]] e' Hj; [| |discriminate..];
      injection Hj as <-; split; vm_compute; reflexivity.
Defined.

Lemma add_payment_keeps_distinct_witness :
  payments_distinct
    (@add_payment float sound_store repayment_request bob 0%Z
       settled_db).2.
Proof.
  apply (@add_payment_keeps_distinct float sound_store
           repayment_request bob 0%Z settled_db).
  - vm_compute. reflexivity.
  - intros p Hp. apply list_elem_of_singleton in Hp. subst p. discriminate.
Defined.

(** The request of the witness is stored, as the second payment. *)
Example repayment_stored :
  map pdoc_payer
    (payments_collection
       (@add_payment float sound_store repayment_request bob
          0%Z settled_db).2)
  = [bob; bob].
Proof. vm_compute. reflexivity. Qed.

(** ** The view is computed *)

Section ViewComputed.
Context {num : Type} `{!Number num} `{!External}.
Implicit Types (db : @DB num) (e : @Expense num).

Lemma foldM_total {A S} (f : S -> A -> result S) (l : list A) :
  (forall s x, x ∈ l -> exists s', f s x = Ok s') ->
  forall s, exists s', foldM f l s = Ok s'.
Proof.
  induction l as [|x l IH]; intros Hf s; simpl; [by eexists|].
  destruct (Hf s x) as [s1 Hs1]; [by left|]. rewrite Hs1. simpl.
  apply IH. intros s0 y Hy. apply Hf. by right.
Qed.

(** With somebody to split among, the calculator returns a split. *)
Lemma calculate_split_total e :
  participants e <> [] -> exists splits, calculate_split e = Ok splits.
Proof.
  intros Hne. unfold calculate_split.
  rewrite !(equal_split_Ok _ _ Hne).
  repeat (case_match; try by eexists).
Qed.

Lemma Expense_of_doc_participants (d : @ExpenseDoc num) t e :
  Expense_of_doc d t = Some e -> participants e <> [].
Proof.
  unfold Expense_of_doc. destruct (Expense_validate _) eqn:Hv; [|done].
  intros [= <-]. simpl.
  unfold Expense_validate in Hv. simpl in Hv.
  destruct (default [] (doc_participants d)); [|done].
  by destruct (amount_positive _).
Qed.

Lemma group_name_of_readable db gid g :
  readable_group gid -> str_or_None gid = Some g ->
  InvalidId_is_ValueError = true \/ is_Some (group_name_of db g).
Proof.
  intros [Hc|Hok] Hg; [by left|]. right.
  unfold group_name_of. destruct (Hok g Hg) as [oid ->]. by eexists.
Qed.

Lemma process_expense_total db email st i (d : @ExpenseDoc num) :
  readable_group (doc_group_id d) ->
  exists st', process_expense db email st (i, d) = Ok st'.
Proof.
  intros Hg. destruct st as [[el net] gb]. unfold process_expense.
  destruct (parse_created_at _) as [t|]; [|by eexists].
  destruct (Expense_of_doc d t) as [em|] eqn:Hem; [|by eexists].
  destruct (calculate_split_total em) as [splits ->];
    [by eapply Expense_of_doc_participants|].
  simpl.
  assert (Hgid : group_id em = str_or_None (doc_group_id d)).
  { unfold Expense_of_doc in Hem. destruct (Expense_validate _); [|done].
    by injection Hem as <-. }
  unfold expense_group_step. rewrite Hgid.
  destruct (str_or_None (doc_group_id d)) as [g|] eqn:Hs; simpl;
    [|by eexists].
  destruct (group_name_of_readable db _ g Hg Hs) as [Hc|[name Hn]].
  - destruct (group_name_of db g); simpl; [by eexists|].
    rewrite Hc. simpl. by eexists.
  - rewrite Hn. simpl. by eexists.
Qed.

Lemma process_payment_total db email st i (p : @PaymentDoc num) :
  readable_group (pdoc_group_id p) ->
  exists st', process_payment db email st (i, p) = Ok st'.
Proof.
  intros Hg. destruct st as [[el net] gb]. unfold process_payment.
  destruct (parse_created_at _) as [t|]; [|by eexists].
  unfold payment_group_step.
  destruct (str_or_None (pdoc_group_id p)) as [g|] eqn:Hs; simpl;
    [|by eexists].
  destruct (group_name_of_readable db _ g Hg Hs) as [Hc|[name Hn]].
  - destruct (group_name_of db g); simpl; [by eexists|].
    rewrite Hc. simpl. by eexists.
  - rewrite Hn. simpl. by eexists.
Qed.

Lemma find_expenses_stored db email ie :
  ie ∈ find_expenses db email -> ie.2 ∈ expenses_collection db.
Proof.
  unfold find_expenses. intros [_ Hin]%list_elem_of_filter.
  destruct ie as [i d]. apply elem_of_enumerate in Hin.
  by eapply list_elem_of_lookup_2.
Qed.

(** X6: the user view is computed, for every viewer, on a store whose
    expenses and payments carry only group ids the view can handle. *)
Theorem user_view_computed db email :
  (forall d, d ∈ expenses_collection db -> readable_group (doc_group_id d)) ->
  (forall p, p ∈ payments_collection db -> readable_group (pdoc_group_id p)) ->
  exists view, get_user_expenses_by_email db email = Ok view.
Proof.
  intros He Hp. unfold get_user_expenses_by_email, aggregate.
  destruct (foldM_total (process_expense db email) (find_expenses db email))
    with (s := ([], [], []) : @agg_state num) as [st1 ->].
  { intros s [i d] Hin. apply process_expense_total.
    by apply He, (find_expenses_stored db email (i, d)). }
  simpl.
  destruct (foldM_total (process_payment db email) (find_payments db email))
    with (s := st1) as [st2 ->].
  { intros s [i p] Hin. apply process_payment_total.
    by apply Hp, (find_payments_stored db email (i, p)). }
  simpl. by eexists.
Qed.

End ViewComputed.

Lemma user_view_computed_witness :
  exists v,
    @get_user_expenses_by_email float float_Number sound_store settled_db bob
    = Ok v.
Proof.
  apply (@user_view_computed float float_Number sound_store settled_db bob).
  - intros d Hd. right. apply list_elem_of_singleton in Hd. subst d.
    intros g Hg. discriminate Hg.
  - intros p Hp. right. apply list_elem_of_singleton in Hp. subst p.
    intros g Hg. discriminate Hg.
Defined.

(** ** Further properties of the endpoints *)

(** A decidable statement about concrete data, settled by
    computation. *)
Ltac by_computation := apply (bool_decide_unpack _); vm_compute; exact I.

(** ** The balance of one expense, entry by entry *)

Section BalanceLookup.
Context {num : Type} `{!Number num}.
Implicit Types (splits net bal : dict num).

Lemma dict_set_NoDup {V} (d : dict V) k v :
  NoDup (dict_keys d) -> NoDup (dict_keys (dict_set d k v)).
Proof.
  induction d as [|[k' v'] d IH]; simpl.
  - intros _. apply NoDup_singleton.
  - intros [Hk Hd]%NoDup_cons.
    destruct (decide (k' = k)) as [->|Hne]; simpl.
    + by apply NoDup_cons.
    + apply NoDup_cons. split; [|by apply IH].
      intros [->|Hin]%dict_keys_set; done.
Qed.

(** The loop of lines 131-133, read back key by key. *)
Lemma payer_balance_get splits email acc p :
  NoDup (dict_keys splits) ->
  dict_get
    (fold_left
       (fun balances '(q, amt) =>
          if decide (q <> email) then dict_set balances q amt else balances)
       splits acc) p
  = if decide (p <> email /\ p ∈ dict_keys splits)
    then dict_get splits p else dict_get acc p.
Proof.
  revert acc. induction splits as [|[k v] splits IH]; intros acc Hnd; simpl.
  - rewrite decide_False; [done|]. intros [_ ?%elem_of_nil]. done.
  - apply NoDup_cons in Hnd as [Hk Hnd]. rewrite IH by done.
    destruct (decide (k = p)) as [->|Hne].
    + rewrite (decide_False (P := _ /\ p ∈ dict_keys splits)) by (by intros [_ ?]).
      destruct (decide (p <> email)) as [Hp|Hp].
      * rewrite dict_get_set_eq. rewrite decide_True; [done|].
        split; [done | by left].
      * rewrite decide_False; [done|]. by intros [? _].
    + assert (Hacc : dict_get (if decide (k <> email) then dict_set acc k v
                               else acc) p = dict_get acc p).
      { destruct (decide (k <> email)); [|done]. by apply dict_get_set_ne. }
      rewrite Hacc.
      destruct (decide (p <> email /\ p ∈ dict_keys splits)) as [[H1 H2]|Hn].
      * rewrite decide_True; [done|]. split; [done | by right].
      * rewrite decide_False; [done|].
        intros [H1 [?|H2]%elem_of_cons]; [congruence|]. by apply Hn.
Qed.

Lemma payer_balance_NoDup splits email acc :
  NoDup (dict_keys acc) ->
  NoDup (dict_keys
    (fold_left
       (fun balances '(q, amt) =>
          if decide (q <> email) then dict_set balances q amt else balances)
       splits acc)).
Proof.
  revert acc. induction splits as [|[k v] splits IH]; intros acc Hnd; simpl;
    [done|].
  apply IH. destruct (decide (k <> email)); [|done]. by apply dict_set_NoDup.
Qed.

Lemma calculate_user_balance_NoDup splits paid_by email :
  NoDup (dict_keys (calculate_user_balance splits paid_by email)).
Proof.
  unfold calculate_user_balance. destruct (decide _).
  - apply payer_balance_NoDup. apply NoDup_nil_2.
  - destruct (dict_get splits email); simpl.
    + apply NoDup_singleton.
    + apply NoDup_nil_2.
Qed.

(** X7: [calculate_user_balance] entry by entry, for splits with distinct
    keys.  For the payer the balance has, under every other key of the
    splits, the share of that key, and nothing under the payer; for a
    participant who did not pay it has one entry, under the payer, the
    opposite of the participant's share; for anybody else it is empty. *)
Theorem calculate_user_balance_lookup splits paid_by other :
  NoDup (dict_keys splits) ->
  other <> paid_by ->
  (forall p,
     dict_get (calculate_user_balance splits paid_by paid_by) p
     = if decide (p = paid_by) then None else dict_get splits p)
  /\ calculate_user_balance splits paid_by other
     = match dict_get splits other with
       | Some s => [(paid_by, neg s)]
       | None => []
       end.
Proof.
  intros Hnd Hne. unfold calculate_user_balance. split.
  - intros p. rewrite decide_True by done.
    rewrite payer_balance_get by done. simpl.
    destruct (decide (p = paid_by)) as [->|Hp].
    + rewrite decide_False; [done|]. by intros [? _].
    + destruct (decide (p ∈ dict_keys splits)) as [Hin|Hin].
      * rewrite decide_True by (by split). done.
      * rewrite decide_False by (by intros [_ ?]).
        symmetry. by apply dict_get_None.
  - rewrite decide_False by done. by destruct (dict_get splits other).
Qed.

(** One pass of lines 203-207 over a balance mapping with distinct keys,
    read back key by key. *)
Lemma accumulate_get email paid_by (ub : dict num) bal p :
  NoDup (dict_keys ub) ->
  dict_get (accumulate email paid_by (fun user => user) ub bal) p
  = match (if decide (p = email) then None else dict_get ub p) with
    | Some a =>
        Some (add (dict_get_default bal p zero)
                  (if decide (paid_by = email) then a else neg a))
    | None => dict_get bal p
    end.
Proof.
  unfold accumulate. revert bal.
  induction ub as [|[k a] ub IH]; intros bal Hnd; simpl.
  - by destruct (decide (p = email)).
  - apply NoDup_cons in Hnd as [Hk Hnd]. rewrite IH by done.
    destruct (decide (p = email)) as [->|Hp].
    + destruct (decide (k <> email)) as [Hke|Hke]; [|done].
      by apply dict_get_set_ne.
    + destruct (decide (k = p)) as [->|Hkp].
      * assert (Hnone : dict_get ub p = None) by by apply dict_get_None.
        rewrite Hnone. rewrite decide_True by done.
        by rewrite dict_get_set_eq.
      * assert (Hbal : forall v,
                  dict_get (if decide (k <> email) then dict_set bal k v
                            else bal) p = dict_get bal p).
        { intros v. destruct (decide (k <> email)); [|done].
          by apply dict_get_set_ne. }
        destruct (dict_get ub p) as [a'|]; [|apply Hbal].
        f_equal. f_equal. unfold dict_get_default. by rewrite Hbal.
Qed.

(** X8: in the view of the payer, an expense adds to the balance with
    every other key of the splits the share of that key, and leaves
    every other balance, the payer's own included, as it was. *)
Theorem expense_net_step_payer splits email net p :
  NoDup (dict_keys splits) ->
  dict_get
    (expense_net_step email email
       (calculate_user_balance splits email email) net) p
  = match (if decide (p = email) then None else dict_get splits p) with
    | Some s => Some (add (dict_get_default net p zero) s)
    | None => dict_get net p
    end.
Proof.
  intros Hnd. unfold expense_net_step.
  rewrite accumulate_get by apply calculate_user_balance_NoDup.
  unfold calculate_user_balance.
  destruct (decide (email = email)); [|done].
  rewrite payer_balance_get by done. simpl.
  destruct (decide (p = email)) as [Hp|Hp]; [done|].
  destruct (decide (p ∈ dict_keys splits)) as [Hin|Hin].
  - rewrite decide_True by (by split). done.
  - rewrite decide_False by (by intros [_ ?]).
    apply dict_get_None in Hin. by rewrite Hin.
Qed.

End BalanceLookup.

Lemma calculate_user_balance_lookup_witness :
  (forall p,
     dict_get
       (calculate_user_balance
          [(alice, (3333 / 100)%float); (bob, (3333 / 100)%float);
           (carol, (3333 / 100)%float)] alice alice) p
     = if decide (p = alice) then None
       else dict_get
              [(alice, (3333 / 100)%float); (bob, (3333 / 100)%float);
               (carol, (3333 / 100)%float)] p)
  /\ calculate_user_balance
       [(alice, (3333 / 100)%float); (bob, (3333 / 100)%float);
        (carol, (3333 / 100)%float)] alice bob
     = match dict_get
               [(alice, (3333 / 100)%float); (bob, (3333 / 100)%float);
                (carol, (3333 / 100)%float)] bob with
       | Some s => [(alice, neg s)]
       | None => []
       end.
Proof.
  apply (@calculate_user_balance_lookup float float_Number
           [(alice, (3333 / 100)%float); (bob, (3333 / 100)%float);
            (carol, (3333 / 100)%float)] alice bob).
  - by_computation.
  - discriminate.
Defined.

Lemma expense_net_step_payer_witness :
  dict_get
    (expense_net_step alice alice
       (calculate_user_balance
          [(alice, (3333 / 100)%float); (bob, (3333 / 100)%float);
           (carol, (3333 / 100)%float)] alice alice) []) bob
  = match (if decide (bob = alice) then None
           else dict_get
                  [(alice, (3333 / 100)%float); (bob, (3333 / 100)%float);
                   (carol, (3333 / 100)%float)] bob) with
    | Some s => Some (add (dict_get_default [] bob zero) s)
    | None => dict_get [] bob
    end.
Proof.
  apply (@expense_net_step_payer float float_Number
           [(alice, (3333 / 100)%float); (bob, (3333 / 100)%float);
            (carol, (3333 / 100)%float)] alice [] bob).
  by_computation.
Defined.

(** ** What a request leaves in the store *)

Section Writes.
Context {num : Type} `{!Number num} `{!External}.
Implicit Types (db cur : @DB num) (e : @Expense num) (st : @agg_state num).

(** [POST /expense] step by step: the two membership checks, the check
    of a custom split, the group, the split, one insert. *)
Lemma add_expense_unfold e current_user now db :
  add_expense e current_user now db =
  if bool_decide (current_user ∉ participants e) then
    (Raise (HTTPException 403 "Current user must be a participant"), db)
  else if bool_decide (paid_by e ∉ participants e) then
    (Raise (HTTPException 400 "paid_by must be one of participants"), db)
  else
    match check_custom_split e with
    | Raise err => (Raise err, db)
    | Ok _ =>
        match expense_group db e with
        | Raise err => (Raise err, db)
        | Ok group =>
            match calculate_split e with
            | Raise err => (Raise err, db)
            | Ok splits =>
                if insert_one_fails (length (expenses_collection db)) then
                  (Raise (HTTPException 500 "Database insertion failed"), db)
                else
                  (Ok {| er_id := length (expenses_collection db);
                         er_amount := amount e;
                         er_description := description e;
                         er_paid_by := paid_by e;
                         er_splits := splits;
                         er_balances_for_current_user :=
                           calculate_user_balance splits (paid_by e)
                             current_user;
                         er_group_id := group_id e;
                         er_group_name := option_map gdoc_name group |},
                   record_expense db
                     (expense_dict e now
                        (validate_users db (participants e) (paid_by e))
                        splits (group_id e)))
            end
        end
    end.
Proof.
  unfold add_expense, expense_group, record_expense.
  destruct (bool_decide (current_user ∉ participants e)); [done|].
  destruct (bool_decide (paid_by e ∉ participants e)); [done|].
  unfold mbind, lift, raise, ret, insert_expense. simpl.
  destruct (check_custom_split e); simpl; [|done].
  destruct (str_or_None (group_id e)) as [gid|]; simpl.
  - destruct (validate_group_members _ _ _ _); simpl; [|done].
    destruct (calculate_split e); simpl; [|done].
    by destruct (insert_one_fails _).
  - destruct (calculate_split e); simpl; [|done].
    by destruct (insert_one_fails _).
Qed.

(** A request that is answered went through every check. *)
Lemma add_expense_Ok e current_user now db resp db' :
  add_expense e current_user now db = (Ok resp, db') ->
  current_user ∈ participants e
  /\ paid_by e ∈ participants e
  /\ check_custom_split e = Ok tt
  /\ exists group splits,
       expense_group db e = Ok group
       /\ calculate_split e = Ok splits
       /\ resp = {| er_id := length (expenses_collection db);
                    er_amount := amount e;
                    er_description := description e;
                    er_paid_by := paid_by e;
                    er_splits := splits;
                    er_balances_for_current_user :=
                      calculate_user_balance splits (paid_by e) current_user;
                    er_group_id := group_id e;
                    er_group_name := option_map gdoc_name group |}
       /\ db' = record_expense db
                  (expense_dict e now
                     (validate_users db (participants e) (paid_by e))
                     splits (group_id e)).
Proof.
  rewrite add_expense_unfold.
  destruct (bool_decide _) eqn:Hu; [done|].
  destruct (bool_decide (paid_by e ∉ _)) eqn:Hp; [done|].
  apply bool_decide_eq_false in Hu, Hp.
  destruct (check_custom_split e) as [[]|]; [|done].
  destruct (expense_group db e) as [group|]; [|done].
  destruct (calculate_split e) as [splits|]; [|done].
  destruct (insert_one_fails _); [done|].
  intros [= <- <-]. repeat split.
  - by destruct (decide (current_user ∈ participants e)).
  - by destruct (decide (paid_by e ∈ participants e)).
  - by exists group, splits.
Qed.

(** A request that raises leaves the store as it was. *)
Lemma add_expense_Raise e current_user now db err db' :
  add_expense e current_user now db = (Raise err, db') -> db' = db.
Proof.
  rewrite add_expense_unfold.
  repeat (case_match; try by intros [= _ <-]).
  all: by intros [=].
Qed.

(** Whatever the outcome, the store is the old one or the old one with
    the document of the expense. *)
Lemma add_expense_store e current_user now db :
  (add_expense e current_user now db).2 = db
  \/ exists splits,
       check_custom_split e = Ok tt
       /\ is_Ok (expense_group db e) = true
       /\ calculate_split e = Ok splits
       /\ (add_expense e current_user now db).2
          = record_expense db
              (expense_dict e now
                 (validate_users db (participants e) (paid_by e))
                 splits (group_id e)).
Proof.
  destruct (add_expense e current_user now db) as [[resp|err] db'] eqn:Hrun.
  - apply add_expense_Ok in Hrun
      as (_ & _ & Hc & group & splits & Hg & Hs & _ & ->).
    right. exists splits. by rewrite Hg.
  - left. by apply add_expense_Raise in Hrun.
Qed.

(** A property of the store kept by every pass of a loop is kept by the
    loop. *)
Lemma forM_store_invariant {A S} (P : @DB num -> Prop)
    (f : S -> A -> @M num S) (l : list A) :
  (forall s x cur, x ∈ l -> P cur -> P (f s x cur).2) ->
  forall s cur, P cur -> P (forM f l s cur).2.
Proof.
  induction l as [|x l IH]; intros Hf s cur Hcur; simpl; [done|].
  unfold mbind.
  pose proof (Hf s x cur ltac:(left) Hcur) as Hx.
  destruct (f s x cur) as [[s1|err] cur1]; simpl in *; [|done].
  apply IH; [|done]. intros s0 y cur0 Hy. apply Hf. by right.
Qed.

(** The same for the batch: each pass leaves the store as it was or adds
    the document of its sub-expense. *)
Lemma add_group_expense_body_store gid group current_user now acc e cur :
  (add_group_expense_body gid group current_user now acc e cur).2 = cur
  \/ exists splits,
       check_custom_split e = Ok tt
       /\ is_Ok (validate_group_members cur gid (participants e) (paid_by e))
          = true
       /\ calculate_split e = Ok splits
       /\ (add_group_expense_body gid group current_user now acc e cur).2
          = record_expense cur
              (expense_dict e now
                 (validate_users cur (participants e) (paid_by e))
                 splits (Some gid)).
Proof.
  rewrite add_group_expense_body_unfold.
  unfold group_expense_doc.
  destruct (sub_expense_checks cur gid current_user e) as [splits|] eqn:Hc;
    [|by left].
  destruct (insert_one_fails _); [by left|].
  right. exists splits.
  unfold sub_expense_checks in Hc.
  destruct (bool_decide _); [done|].
  destruct (bool_decide _); [done|].
  destruct (check_custom_split e) as [[]|]; [|done]. simpl in Hc.
  destruct (validate_group_members _ _ _ _); [|done]. simpl in Hc.
  done.
Qed.

Lemma add_group_expense_store_invariant (P : @DB num -> Prop)
    group_expense current_user now db :
  (forall acc group e cur,
     e ∈ ge_expenses group_expense -> P cur ->
     P (add_group_expense_body (ge_group_id group_expense) group
          current_user now acc e cur).2) ->
  P db -> P (add_group_expense group_expense current_user now db).2.
Proof.
  intros Hbody Hdb. unfold add_group_expense, mbind at 1, lift at 1.
  destruct (validate_group_members _ _ _ _) as [group|]; [|done].
  apply forM_store_invariant; [|done].
  intros s x cur Hx. by apply Hbody.
Qed.

End Writes.

(** ** What [POST /expense] checks and stores *)

Section WriteProperties.
Context {num : Type} `{!Number num} `{!External}.
Implicit Types (db cur : @DB num) (e : @Expense num) (st : @agg_state num).

(** X9: what [POST /expense] leaves in the store.  A request that is
    answered has appended exactly one document, whose [_id] is the [id]
    of the response and whose splits are the [splits] of the response,
    and has changed nothing else.  A request that is refused with a
    status other than 500, or by an exception that is no
    [HTTPException], has stored nothing: every check comes before the
    insert. *)
Theorem add_expense_store_effect e current_user now db r db' :
  add_expense e current_user now db = (r, db') ->
  match r with
  | Ok resp =>
      let doc :=
        expense_dict e now
          (validate_users db (participants e) (paid_by e))
          (er_splits resp) (group_id e) in
      db' = record_expense db doc
      /\ er_id resp = length (expenses_collection db)
      /\ expenses_collection db' !! er_id resp = Some doc
  | Raise (HTTPException status_code _) => status_code <> 500 -> db' = db
  | Raise _ => db' = db
  end.
Proof.
  destruct r as [resp|err]; intros Hrun.
  - apply add_expense_Ok in Hrun
      as (_ & _ & _ & group & splits & _ & _ & -> & ->).
    simpl. repeat split.
    by rewrite list_lookup_middle.
  - apply add_expense_Raise in Hrun. by destruct err.
Qed.

Lemma validate_group_members_Ok db gid ps pb group :
  validate_group_members db gid ps pb = Ok group ->
  exists oid,
    ObjectId gid = Some oid
    /\ groups_collection db !! oid = Some group
    /\ (forall p, p ∈ ps -> p ∈ gdoc_members group)
    /\ pb ∈ gdoc_members group.
Proof.
  unfold validate_group_members.
  destruct (ObjectId gid) as [oid|]; [|by destruct InvalidId_is_ValueError].
  destruct (groups_collection db !! oid) as [g|] eqn:Hl; [|done].
  destruct (bool_decide _) eqn:Hsub; [|done].
  apply bool_decide_eq_true in Hsub.
  intros [= <-]. exists oid. repeat split; try done.
  - intros p Hp. apply Hsub, elem_of_app. by left.
  - apply Hsub, elem_of_app. right. by left.
Qed.

(** The keys of a split are the participants when the split is the
    equal one, and when it passed the write-time check. *)
Lemma equal_split_keys (amt : num) ps splits p :
  equal_split amt ps = Ok splits -> p ∈ dict_keys splits <-> p ∈ ps.
Proof.
  destruct ps as [|q ps]; [done|]. intros [= <-]. apply dict_keys_const.
Qed.

Lemma check_custom_split_Ok e :
  check_custom_split e = Ok tt ->
  split_method e = "custom" ->
  custom_split_valid e = true.
Proof.
  intros Hc Hm. destruct (custom_split_valid e) eqn:Hv; [done|].
  destruct (check_custom_split_invalid e Hm Hv) as [detail Hd].
  by rewrite Hd in Hc.
Qed.

Lemma checked_split_keys e splits p :
  check_custom_split e = Ok tt ->
  calculate_split e = Ok splits ->
  p ∈ dict_keys splits <-> p ∈ participants e.
Proof.
  intros Hc Hs.
  destruct (decide (split_method e = "custom")) as [Hm|Hm].
  - pose proof (check_custom_split_Ok e Hc Hm) as Hv.
    destruct (custom_split_valid_stored e Hm Hv) as (sa & Hsa & Hcalc).
    rewrite Hcalc in Hs. injection Hs as <-.
    unfold custom_split_valid in Hv. rewrite Hsa in Hv.
    destruct sa as [|kv sa]; [done|].
    apply andb_true_iff in Hv as [Hk _].
    by apply set_eqb_true.
  - unfold calculate_split in Hs.
    rewrite (decide_False (P := split_method e = "custom")) in Hs by done.
    destruct (decide (split_method e = "equal"));
      by eapply equal_split_keys.
Qed.

(** X10: what an answered [POST /expense] has checked: the caller and
    the payer are participants, the keys of the stored splits are
    exactly the participants, and a group that the expense names exists
    and has every participant among its members; its name is the
    [group_name] of the response. *)
Theorem add_expense_checked e current_user now db resp db' :
  add_expense e current_user now db = (Ok resp, db') ->
  current_user ∈ participants e
  /\ paid_by e ∈ participants e
  /\ (forall p, p ∈ dict_keys (er_splits resp) <-> p ∈ participants e)
  /\ (forall gid, str_or_None (group_id e) = Some gid ->
        exists oid group,
          ObjectId gid = Some oid
          /\ groups_collection db !! oid = Some group
          /\ (forall p, p ∈ participants e -> p ∈ gdoc_members group)
          /\ er_group_name resp = Some (gdoc_name group)).
Proof.
  intros Hrun. apply add_expense_Ok in Hrun
    as (Hu & Hp & Hc & group & splits & Hg & Hs & -> & _).
  repeat split; try done; simpl.
  - by apply checked_split_keys.
  - by apply checked_split_keys.
  - intros gid Hgid. unfold expense_group in Hg. rewrite Hgid in Hg.
    destruct (validate_group_members db gid _ _) as [g|] eqn:Hv; [|done].
    injection Hg as <-.
    apply validate_group_members_Ok in Hv as (oid & Ho & Hl & Hm & _).
    by exists oid, g.
Qed.

(** A document written after the checks is one the sweep leaves alone. *)
Lemma posted_doc_not_repaired e now unregistered splits gid :
  check_custom_split e = Ok tt ->
  calculate_split e = Ok splits ->
  repaired (expense_dict e now unregistered splits gid) = false.
Proof.
  intros Hc Hs. unfold repaired, needs_fix, expense_dict.
  cbn [doc_split_method doc_splits doc_participants doc_amount].
  change (default [] (Some (participants e))) with (participants e).
  destruct (decide (split_method e = "custom")) as [Hm|Hm].
  - pose proof (check_custom_split_Ok e Hc Hm) as Hv.
    destruct (custom_split_valid_stored e Hm Hv) as (sa & Hsa & Hcalc).
    rewrite Hcalc in Hs. injection Hs as <-.
    unfold custom_split_valid in Hv. rewrite Hsa in Hv.
    destruct sa as [|kv sa]; [done|].
    apply andb_true_iff in Hv as [Hk Hsum].
    rewrite Hk, Hsum. simpl.
    by rewrite andb_false_r.
  - rewrite bool_decide_eq_false_2; [done|]. by intros [=].
Qed.

Lemma no_repair_needed_record db (d : @ExpenseDoc num) :
  no_repair_needed db -> repaired d = false ->
  no_repair_needed (record_expense db d).
Proof.
  intros Hdb Hd d' [Hin|Hin]%elem_of_app; [by apply Hdb|].
  apply list_elem_of_singleton in Hin. by subst.
Qed.

Lemma no_repair_needed_sweep db :
  no_repair_needed db -> fix_expenses db = (Ok 0, db).
Proof.
  intros Hdb. unfold fix_expenses. apply fix_loop_noop.
  intros [i d] [Hc Hin]%list_elem_of_filter. simpl in *.
  apply elem_of_enumerate, list_elem_of_lookup_2, Hdb in Hin.
  unfold repaired in Hin. by rewrite bool_decide_eq_true_2 in Hin.
Qed.

Lemma add_expense_no_repair e current_user now db :
  no_repair_needed db ->
  no_repair_needed (add_expense e current_user now db).2.
Proof.
  intros Hdb.
  destruct (add_expense_store e current_user now db)
    as [->|(splits & Hc & _ & Hs & ->)]; [done|].
  apply no_repair_needed_record; [done|].
  by apply posted_doc_not_repaired.
Qed.

Lemma add_group_expense_no_repair group_expense current_user now db :
  no_repair_needed db ->
  no_repair_needed (add_group_expense group_expense current_user now db).2.
Proof.
  apply (add_group_expense_store_invariant no_repair_needed).
  intros acc group e cur _ Hcur.
  destruct (add_group_expense_body_store (ge_group_id group_expense) group
              current_user now acc e cur)
    as [->|(splits & Hc & _ & Hs & ->)]; [done|].
  apply no_repair_needed_record; [done|].
  by apply posted_doc_not_repaired.
Qed.

(** X11: neither [POST /expense] nor [POST /group-expense] stores a
    record that the repair sweep would rewrite.  On a store in which the
    sweep finds nothing to repair it still finds nothing after either
    request, answered or refused: it reports 0 and leaves the store as
    it is. *)
Theorem writes_need_no_repair db current_user now :
  no_repair_needed db ->
  (forall e,
     let db' := (add_expense e current_user now db).2 in
     no_repair_needed db' /\ fix_expenses db' = (Ok 0, db'))
  /\ (forall group_expense,
        let db' :=
          (add_group_expense group_expense current_user now db).2 in
        no_repair_needed db' /\ fix_expenses db' = (Ok 0, db')).
Proof.
  intros Hdb. split.
  - intros e db'.
    assert (no_repair_needed db') by by apply add_expense_no_repair.
    split; [done | by apply no_repair_needed_sweep].
  - intros ge db'.
    assert (no_repair_needed db') by by apply add_group_expense_no_repair.
    split; [done | by apply no_repair_needed_sweep].
Qed.

End WriteProperties.

Lemma add_expense_store_effect_witness :
  let doc :=
    expense_dict shopping 0%Z
      (validate_users flat_db (participants shopping) (paid_by shopping))
      (er_splits shopping_response) (group_id shopping) in
  shopping_db = record_expense flat_db doc
  /\ er_id shopping_response = length (expenses_collection flat_db)
  /\ expenses_collection shopping_db !! er_id shopping_response = Some doc.
Proof.
  apply (@add_expense_store_effect float float_Number sound_store
           shopping alice 0%Z flat_db (Ok shopping_response) shopping_db).
  vm_compute. reflexivity.
Defined.

Lemma add_expense_checked_witness :
  alice ∈ participants shopping
  /\ paid_by shopping ∈ participants shopping
  /\ (forall p, p ∈ dict_keys (er_splits shopping_response)
                <-> p ∈ participants shopping)
  /\ (forall gid, str_or_None (group_id shopping) = Some gid ->
        exists oid group,
          @ObjectId sound_store gid = Some oid
          /\ groups_collection flat_db !! oid = Some group
          /\ (forall p, p ∈ participants shopping -> p ∈ gdoc_members group)
          /\ er_group_name shopping_response = Some (gdoc_name group)).
Proof.
  apply (@add_expense_checked float float_Number sound_store
           shopping alice 0%Z flat_db shopping_response shopping_db).
  vm_compute. reflexivity.
Defined.

Lemma writes_need_no_repair_witness :
  (forall e,
     let db' :=
       (@add_expense float float_Number sound_store e alice 0%Z flat_db).2 in
     no_repair_needed db'
     /\ @fix_expenses float float_Number sound_store db' = (Ok 0, db'))
  /\ (forall group_expense,
        let db' :=
          (@add_group_expense float float_Number sound_store group_expense
             alice 0%Z flat_db).2 in
        no_repair_needed db'
        /\ @fix_expenses float float_Number sound_store db' = (Ok 0, db')).
Proof.
  apply (@writes_need_no_repair float float_Number sound_store flat_db
           alice 0%Z).
  intros d Hd. apply list_elem_of_singleton in Hd. subst d.
  vm_compute. reflexivity.
Defined.

(** ** The view after an expense was posted *)

Section ViewAfterWrite.
Context {num : Type} `{!Number num} `{!External}.
Implicit Types (db cur : @DB num) (e : @Expense num) (st : @agg_state num).

Lemma find_expenses_record db (d : @ExpenseDoc num) email :
  find_expenses (record_expense db d) email =
  find_expenses db email ++
    (if decide (email ∈ default [] (doc_participants d))
     then [(length (expenses_collection db), d)] else []).
Proof.
  unfold find_expenses, record_expense, with_expenses, enumerate. simpl.
  rewrite imap_app, filter_app. f_equal. simpl.
  rewrite Nat.add_0_r.
  unfold filter, list_filter. simpl.
  by destruct (decide _).
Qed.

(** An expense document in which the viewer takes no part does not
    reach the view. *)
Lemma aggregate_record_other db (d : @ExpenseDoc num) email :
  email ∉ default [] (doc_participants d) ->
  aggregate (record_expense db d) email = aggregate db email.
Proof.
  intros Hout. unfold aggregate. rewrite find_expenses_record.
  rewrite decide_False by done. by rewrite app_nil_r.
Qed.

Lemma view_record_other db (d : @ExpenseDoc num) email :
  email ∉ default [] (doc_participants d) ->
  get_user_expenses_by_email (record_expense db d) email
  = get_user_expenses_by_email db email.
Proof.
  intros Hout. unfold get_user_expenses_by_email.
  by rewrite aggregate_record_other.
Qed.

(** X12: an expense, or a batch of expenses, among other people does
    not change the view of somebody who takes part in none of them,
    whether the request is answered or refused. *)
Theorem expense_unseen_by_others db current_user now email :
  (forall e,
     email ∉ participants e ->
     get_user_expenses_by_email (add_expense e current_user now db).2 email
     = get_user_expenses_by_email db email)
  /\ (forall group_expense,
        (forall e, e ∈ ge_expenses group_expense ->
           email ∉ participants e) ->
        get_user_expenses_by_email
          (add_group_expense group_expense current_user now db).2 email
        = get_user_expenses_by_email db email).
Proof.
  split.
  - intros e Hout.
    destruct (add_expense_store e current_user now db)
      as [->|(splits & _ & _ & _ & ->)]; [done|].
    by apply view_record_other.
  - intros ge Hout.
    apply (add_group_expense_store_invariant
             (fun cur => get_user_expenses_by_email cur email
                         = get_user_expenses_by_email db email));
      [|done].
    intros acc group e cur He Hcur.
    destruct (add_group_expense_body_store (ge_group_id ge) group
                current_user now acc e cur)
      as [->|(splits & _ & _ & _ & ->)]; [done|].
    rewrite view_record_other; [done|]. by apply Hout.
Qed.

(** The loop over the payments leaves the list of expenses alone, and
    whether it raises does not depend on the balances it starts from. *)
Lemma process_payment_expense_list db email st ip st' :
  process_payment db email st ip = Ok st' -> st'.1.1 = st.1.1.
Proof.
  destruct st as [[el net] gb], ip as [id payment]. unfold process_payment.
  destruct (parse_created_at _); [|by intros [= <-]].
  destruct (payment_group_step _ _ _ _ _ _ _); simpl; [|done].
  by intros [= <-].
Qed.

Lemma payments_expense_list db email l st st' :
  foldM (process_payment db email) l st = Ok st' -> st'.1.1 = st.1.1.
Proof.
  apply (foldM_invariant (fun s => s.1.1 = st.1.1)); [|done].
  intros s x s' _ Hs Hx. apply process_payment_expense_list in Hx.
  congruence.
Qed.

Lemma process_payment_Ok_any db email st ip st' st2 :
  process_payment db email st ip = Ok st' ->
  exists st2', process_payment db email st2 ip = Ok st2'.
Proof.
  destruct st as [[el net] gb], st2 as [[el2 net2] gb2], ip as [id payment].
  unfold process_payment.
  destruct (parse_created_at _); [|by eexists].
  unfold payment_group_step.
  destruct (str_or_None _); simpl; [|by eexists].
  destruct (group_name_of _ _); simpl; [by eexists|].
  destruct InvalidId_is_ValueError; simpl; [by eexists | done].
Qed.

Lemma payments_Ok_any db email l st st' st2 :
  foldM (process_payment db email) l st = Ok st' ->
  exists st2', foldM (process_payment db email) l st2 = Ok st2'.
Proof.
  revert st st2. induction l as [|ip l IH]; intros st st2; simpl;
    [by eexists|].
  destruct (process_payment db email st ip) as [s1|] eqn:H1; simpl; [|done].
  destruct (process_payment_Ok_any db email st ip s1 st2 H1) as [s2 ->].
  simpl. apply IH.
Qed.

(** The pass of the first loop over the document of an expense that was
    just written. *)
Lemma process_posted_expense db email e now unregistered splits group el
    net gb id :
  Expense_validate e = true ->
  populate_by_name = true \/ split_method e = "equal" ->
  check_custom_split e = Ok tt ->
  expense_group db e = Ok group ->
  calculate_split e = Ok splits ->
  exists net' gb',
    process_expense db email (el, net, gb)
      (id, expense_dict e now unregistered splits (group_id e))
    = Ok (el ++ [{| ue_id := id;
                    ue_description := description e;
                    ue_amount := amount e;
                    ue_paid_by := paid_by e;
                    ue_participants := participants e;
                    ue_splits := splits;
                    ue_created_at := default now (created_at e);
                    ue_group_id := str_or_None (group_id e);
                    ue_group_name :=
                      if truthy_str (option_map gdoc_name group)
                      then default "" (option_map gdoc_name group)
                      else "Single" |}], net', gb').
Proof.
  intros Hv Hpop Hc Hg Hs.
  unfold process_expense, expense_dict.
  cbn [doc_created_at parse_created_at].
  unfold Expense_of_doc.
  cbn [doc_description doc_amount doc_participants doc_paid_by
       doc_split_method doc_splits doc_group_id].
  change (default [] (Some (participants e))) with (participants e).
  change (default "equal" (Some (split_method e))) with (split_method e).
  set (em := {| description := description e; amount := amount e;
                participants := participants e; paid_by := paid_by e;
                split_method := split_method e;
                split_amounts := _; created_at := _;
                group_id := str_or_None (group_id e) |}).
  assert (Hvm : Expense_validate em = true) by exact Hv.
  rewrite Hvm.
  assert (Hsm : calculate_split em = Ok splits).
  { destruct (decide (split_method e = "equal")) as [Heq|Hne].
    - unfold calculate_split in *. cbn [split_method amount participants] in *.
      subst em. cbn [split_method amount participants].
      by rewrite decide_True in * by done.
    - destruct Hpop as [Hpop|Hpop]; [|done].
      assert (Hm : split_method e = "custom").
      { unfold Expense_validate, split_method_literal in Hv.
        apply andb_true_iff in Hv as [_ Hv].
        apply orb_true_iff in Hv as [Hv|Hv];
          apply bool_decide_eq_true in Hv; done. }
      pose proof (check_custom_split_Ok e Hc Hm) as Hval.
      destruct (custom_split_valid_stored e Hm Hval) as (sa & Hsa & Hcalc).
      rewrite Hcalc in Hs. injection Hs as <-.
      assert (Hvalm : custom_split_valid em = true).
      { unfold custom_split_valid in *. subst em.
        cbn [split_amounts participants amount]. rewrite Hpop.
        by rewrite Hsa in Hval. }
      destruct (custom_split_valid_stored em Hm Hvalm) as (sa' & Hsa' & ->).
      subst em. cbn [split_amounts] in Hsa'. rewrite Hpop in Hsa'.
      by injection Hsa' as <-. }
  rewrite Hsm. simpl bind.
  assert (Hgs : forall ub,
    exists gb',
      expense_group_step db email (paid_by e) (str_or_None (group_id e))
        ub gb
      = Ok (option_map gdoc_name group, gb')).
  { intros ub. unfold expense_group_step.
    unfold expense_group in Hg.
    destruct (str_or_None (group_id e)) as [gid|].
    - destruct (validate_group_members db gid _ _) as [g|] eqn:Hval;
        [|done].
      injection Hg as <-.
      apply validate_group_members_Ok in Hval as (oid & Ho & Hl & _).
      unfold group_name_of. rewrite Ho, Hl. by eexists.
    - injection Hg as <-. by eexists. }
  destruct (Hgs (calculate_user_balance splits (paid_by e) email))
    as [gb' ->].
  simpl. by eexists _, _.
Qed.

Lemma aggregate_record_own db (d : @ExpenseDoc num) email :
  email ∈ default [] (doc_participants d) ->
  aggregate (record_expense db d) email =
  (st1 <- foldM (process_expense db email) (find_expenses db email)
            ([], [], []) ;;
   st2 <- process_expense db email st1
            (length (expenses_collection db), d) ;;
   foldM (process_payment db email) (find_payments db email) st2).
Proof.
  intros Hin. unfold aggregate. rewrite find_expenses_record.
  rewrite decide_True by done.
  change (process_expense (record_expense db d)) with (process_expense db).
  change (process_payment (record_expense db d)) with (process_payment db).
  change (find_payments (record_expense db d) email)
    with (find_payments db email).
  rewrite foldM_app.
  destruct (foldM (process_expense db email) _ _) as [st1|]; [|done].
  cbv [bind foldM].
  by destruct (process_expense db email st1 _).
Qed.

(** X13: an expense that was posted is listed.  When [POST /expense]
    answers a validated expense that is split equally (or whose stored
    splits reach the split calculator), the view of every participant,
    if it was computed before, is computed afterwards and lists one more
    expense, the last one: it has the [id] and the [splits] of the
    response, the description, amount, payer and participants of the
    request, and the name of its group, or [Single]. *)
Theorem add_expense_then_listed e current_user now db resp db' email view :
  Expense_validate e = true ->
  populate_by_name = true \/ split_method e = "equal" ->
  add_expense e current_user now db = (Ok resp, db') ->
  email ∈ participants e ->
  get_user_expenses_by_email db email = Ok view ->
  exists view',
    get_user_expenses_by_email db' email = Ok view'
    /\ expenses view' = expenses view ++ [listed_entry e now resp].
Proof.
  intros Hv Hpop Hrun Hin Hview.
  apply add_expense_Ok in Hrun
    as (_ & _ & Hc & group & splits & Hg & Hs & -> & ->).
  unfold get_user_expenses_by_email in *.
  rewrite aggregate_record_own by exact Hin.
  unfold aggregate in Hview.
  destruct (foldM (process_expense db email) _ _) as [[[el net] gb]|];
    [|done].
  destruct (process_posted_expense db email e now
              (validate_users db (participants e) (paid_by e))
              splits group el net gb (length (expenses_collection db))
              Hv Hpop Hc Hg Hs) as (net' & gb' & Hpe).
  cbv [bind] in Hview |- *. rewrite Hpe.
  destruct (foldM (process_payment db email) _ (el, net, gb))
    as [st2|] eqn:H2; [|done].
  injection Hview as <-.
  match goal with
  | |- context [foldM _ _ ?s] =>
      destruct (payments_Ok_any db email _ _ st2 s H2) as [st3 H3]
  end.
  rewrite H3. eexists. split; [done|]. simpl.
  apply payments_expense_list in H2, H3. rewrite H3, H2. done.
Qed.

End ViewAfterWrite.

Lemma expense_unseen_by_others_witness :
  view (@add_expense float float_Number sound_store shopping alice 0%Z
          flat_db).2 carol
  = view flat_db carol
  /\ view (@add_group_expense float float_Number sound_store
             {| ge_group_id := flat_id; ge_expenses := [groceries; shopping] |}
             alice 0%Z flat_db).2 carol
     = view flat_db carol.
Proof.
  destruct (@expense_unseen_by_others float float_Number sound_store
              flat_db alice 0%Z carol) as [Hone Hbatch].
  split.
  - apply Hone. by_computation.
  - apply Hbatch. intros e He.
    repeat (apply elem_of_cons in He as [->|He]; [by_computation|]).
    by apply elem_of_nil in He.
Defined.

Lemma add_expense_then_listed_witness :
  exists view',
    view shopping_db bob = Ok view'
    /\ expenses view'
       = expenses flat_view_of_bob
         ++ [listed_entry shopping 0%Z shopping_response].
Proof.
  apply (@add_expense_then_listed float float_Number sound_store
           shopping alice 0%Z flat_db shopping_response shopping_db bob
           flat_view_of_bob).
  - vm_compute. reflexivity.
  - right. reflexivity.
  - vm_compute. reflexivity.
  - by_computation.
  - vm_compute. reflexivity.
Defined.

(** ** What a view lists, when it fails, and what the payments add *)

Section ViewContents.
Context {num : Type} `{!Number num} `{!External}.
Implicit Types (db cur : @DB num) (e : @Expense num) (st : @agg_state num).

(** Every participant has a share in what the calculator returns. *)
Lemma calculate_split_covers e splits p :
  calculate_split e = Ok splits ->
  p ∈ participants e -> p ∈ dict_keys splits.
Proof.
  intros Hs Hp.
  destruct (decide (split_method e = "custom")) as [Hm|Hm].
  - rewrite calculate_split_custom in Hs by done.
    destruct (stored_splits_accepted e) eqn:Ha.
    + apply stored_splits_accepted_spec in Ha as (sa & Hsa & _ & Hk & _).
      rewrite Hsa in Hs. injection Hs as <-. by apply Hk.
    + by eapply equal_split_keys.
  - unfold calculate_split in Hs.
    rewrite (decide_False (P := split_method e = "custom")) in Hs by done.
    destruct (decide (split_method e = "equal"));
      by eapply equal_split_keys.
Qed.

Lemma Expense_of_doc_fields (d : @ExpenseDoc num) t e :
  Expense_of_doc d t = Some e ->
  participants e = default [] (doc_participants d)
  /\ group_id e = str_or_None (doc_group_id d).
Proof.
  unfold Expense_of_doc. destruct (Expense_validate _); [|done].
  by intros [= <-].
Qed.

(** One pass of the first loop: a document that is not shown is
    skipped, a document that is shown adds one entry that lists it. *)
Lemma process_expense_lists db email st i (d : @ExpenseDoc num) st' :
  email ∈ default [] (doc_participants d) ->
  process_expense db email st (i, d) = Ok st' ->
  if shown d
  then exists ue, st'.1.1 = st.1.1 ++ [ue] /\ lists email ue (i, d)
  else st'.1.1 = st.1.1.
Proof.
  intros Hin. destruct st as [[el net] gb].
  unfold process_expense, shown.
  destruct (parse_created_at _) as [t|] eqn:Ht; [|by intros [= <-]].
  destruct (Expense_of_doc d t) as [em|] eqn:Hem; [|by intros [= <-]].
  destruct (Expense_of_doc_fields d t em Hem) as [Hps Hgid].
  destruct (calculate_split em) as [splits|] eqn:Hs; simpl; [|done].
  destruct (expense_group_step _ _ _ _ _ _) as [gr|]; simpl; [|done].
  intros [= <-]. simpl. eexists. split; [done|].
  unfold lists. simpl. by repeat split.
Qed.

Lemma expenses_loop_lists db email (l : list (nat * @ExpenseDoc num)) :
  (forall ie, ie ∈ l -> email ∈ default [] (doc_participants ie.2)) ->
  forall st st',
    foldM (process_expense db email) l st = Ok st' ->
    exists new,
      st'.1.1 = st.1.1 ++ new
      /\ Forall2 (lists email) new (filter (fun ie => shown ie.2) l).
Proof.
  induction l as [|[i d] l IH]; intros Hl st st'; simpl.
  - intros [= <-]. exists []. by rewrite app_nil_r.
  - destruct (process_expense db email st (i, d)) as [s1|] eqn:H1;
      simpl; [|done].
    intros Hrest.
    apply process_expense_lists in H1; [|by apply (Hl (i, d)); left].
    destruct (IH (fun ie Hie => Hl ie ltac:(by right)) s1 st' Hrest)
      as (new & Hnew & Hall).
    rewrite filter_cons. simpl.
    destruct (shown d).
    + destruct H1 as (ue & Hue & Hlists).
      rewrite decide_True by exact I.
      exists (ue :: new). split.
      * rewrite Hnew, Hue, <- app_assoc. done.
      * by constructor.
    + rewrite decide_False by (by intros []).
      exists new. split; [congruence | done].
Qed.

(** X14: a view lists stored expenses only.  Its entries are, in the
    order of the store and each document at most once, stored expenses
    in which the viewer takes part, whose timestamp parses and which
    pass the checks of amount, participants and method; each entry
    carries the [_id], description, amount, payer, participants and
    group id of its document, and its parsed timestamp. *)
Theorem view_lists_stored_expenses db email view :
  get_user_expenses_by_email db email = Ok view ->
  exists docs,
    sublist docs (find_expenses db email)
    /\ Forall2 (lists email) (expenses view) docs
    /\ (forall ie, ie ∈ docs ->
          shown ie.2 = true
          /\ expenses_collection db !! ie.1 = Some ie.2).
Proof.
  intros Hview.
  exists (filter (fun ie => shown ie.2) (find_expenses db email)).
  split; [apply sublist_filter | split].
  - unfold get_user_expenses_by_email, aggregate in Hview.
    destruct (foldM (process_expense db email) _ _) as [st1|] eqn:H1;
      simpl in Hview; [|done].
    destruct (foldM (process_payment db email) _ _) as [st2|] eqn:H2;
      simpl in Hview; [|done].
    injection Hview as <-. simpl.
    apply payments_expense_list in H2. rewrite H2.
    apply expenses_loop_lists in H1 as (new & -> & Hall); [done|].
    intros ie [Hin _]%list_elem_of_filter. done.
  - intros [i d] [Hshown Hin]%list_elem_of_filter. simpl in *.
    split; [by destruct (shown d)|].
    apply list_elem_of_filter in Hin as [_ Hin].
    by apply elem_of_enumerate in Hin.
Qed.

(** *** A group id that [ObjectId] refuses *)

Lemma process_expense_Raise db email st ie err :
  process_expense db email st ie = Raise err ->
  err = InvalidId /\ InvalidId_is_ValueError = false.
Proof.
  destruct st as [[el net] gb], ie as [i d]. unfold process_expense.
  destruct (parse_created_at _) as [t|]; [|done].
  destruct (Expense_of_doc d t) as [em|] eqn:Hem; [|done].
  destruct (calculate_split_total em) as [splits ->];
    [by eapply Expense_of_doc_participants|].
  simpl. unfold expense_group_step.
  destruct (group_id em); simpl; [|done].
  destruct (group_name_of _ _); simpl; [done|].
  destruct InvalidId_is_ValueError; simpl; [done|].
  by intros [= <-].
Qed.

Lemma process_payment_Raise db email st ip err :
  process_payment db email st ip = Raise err ->
  err = InvalidId /\ InvalidId_is_ValueError = false.
Proof.
  destruct st as [[el net] gb], ip as [i p]. unfold process_payment.
  destruct (parse_created_at _) as [t|]; [|done].
  unfold payment_group_step.
  destruct (str_or_None _); simpl; [|done].
  destruct (group_name_of _ _); simpl; [done|].
  destruct InvalidId_is_ValueError; simpl; [done|].
  by intros [= <-].
Qed.

(** A loop that can only raise [E], and does so on one of its items
    whatever the state, raises [E]. *)
Lemma foldM_raises {A S} (f : S -> A -> result S) (l : list A) (E : exn)
    (x0 : A) :
  (forall s x err, f s x = Raise err -> err = E) ->
  x0 ∈ l -> (forall s, exists err, f s x0 = Raise err) ->
  forall s, foldM f l s = Raise E.
Proof.
  intros Honly Hin Hx0. induction l as [|x l IH]; intros s; simpl.
  - by apply elem_of_nil in Hin.
  - destruct (f s x) as [s1|err] eqn:Hx; simpl.
    + apply IH. apply elem_of_cons in Hin as [->|Hin]; [|done].
      destruct (Hx0 s) as [err Herr]. congruence.
    + f_equal. by eapply Honly.
Qed.

Lemma foldM_raises_only {A S} (f : S -> A -> result S) (l : list A)
    (E : exn) s err :
  (forall s x err, f s x = Raise err -> err = E) ->
  foldM f l s = Raise err -> err = E.
Proof.
  intros Honly. revert s. induction l as [|x l IH]; intros s; simpl;
    [done|].
  destruct (f s x) as [s1|err'] eqn:Hx; simpl.
  - apply IH.
  - intros [= <-]. by eapply Honly.
Qed.

(** X15: where bson's [InvalidId] is not a [ValueError], one stored
    group id that [ObjectId] refuses makes the whole view fail: the view
    of a user raises [InvalidId] as soon as an expense in which the user
    takes part and that the view would show, or a payment of the user
    whose timestamp parses, carries such a group id. *)
Theorem malformed_group_id_fails_view db email :
  InvalidId_is_ValueError = false ->
  (exists i d gid,
     expenses_collection db !! i = Some d
     /\ email ∈ default [] (doc_participants d)
     /\ shown d = true
     /\ str_or_None (doc_group_id d) = Some gid
     /\ ObjectId gid = None)
  \/ (exists i p gid,
        payments_collection db !! i = Some p
        /\ (pdoc_payer p = email \/ pdoc_payee p = email)
        /\ is_Some (parse_created_at (pdoc_created_at p))
        /\ str_or_None (pdoc_group_id p) = Some gid
        /\ ObjectId gid = None) ->
  get_user_expenses_by_email db email = Raise InvalidId.
Proof.
  intros Hnv Hbad. unfold get_user_expenses_by_email, aggregate.
  assert (He : forall s x err,
            process_expense db email s x = Raise err -> err = InvalidId).
  { intros s x err Hr. by apply process_expense_Raise in Hr as [-> _]. }
  assert (Hp : forall s x err,
            process_payment db email s x = Raise err -> err = InvalidId).
  { intros s x err Hr. by apply process_payment_Raise in Hr as [-> _]. }
  destruct Hbad as [(i & d & gid & Hl & Hin & Hsh & Hg & Ho)
                   |(i & p & gid & Hl & Hin & [t Ht] & Hg & Ho)].
  - rewrite (foldM_raises _ _ InvalidId (i, d) He); [done| |].
    + apply list_elem_of_filter. split; [done|].
      by apply elem_of_enumerate.
    + intros [[el net] gb]. unfold process_expense, shown in *.
      destruct (parse_created_at _) as [t|]; [|done].
      destruct (Expense_of_doc d t) as [em|] eqn:Hem; [|done].
      destruct (calculate_split_total em) as [splits ->];
        [by eapply Expense_of_doc_participants|].
      destruct (Expense_of_doc_fields d t em Hem) as [_ ->].
      simpl. unfold expense_group_step, group_name_of.
      rewrite Hg, Ho, Hnv. by eexists.
  - destruct (foldM (process_expense db email) _ _) as [st1|err] eqn:H1;
      simpl.
    + rewrite (foldM_raises _ _ InvalidId (i, p) Hp); [done| |].
      * apply list_elem_of_filter. split; [done|].
        by apply elem_of_enumerate.
      * intros [[el net] gb]. unfold process_payment.
        rewrite Ht. unfold payment_group_step, group_name_of.
        rewrite Hg, Ho, Hnv. by eexists.
    + f_equal. exact (foldM_raises_only _ _ _ _ _ He H1).
Qed.

(** *** Group ids the view can handle *)

Lemma store_readable_record_expense db (d : @ExpenseDoc num) :
  store_readable db -> readable_group (doc_group_id d) ->
  store_readable (record_expense db d).
Proof.
  intros [He Hp] Hd. split; [|done].
  intros d' [Hin|Hin]%elem_of_app; [by apply He|].
  apply list_elem_of_singleton in Hin. by subst.
Qed.

Lemma store_readable_record_payment db (p : @PaymentDoc num) :
  store_readable db -> readable_group (pdoc_group_id p) ->
  store_readable (record_payment db p).
Proof.
  intros [He Hp] Hd. split; [done|].
  intros p' [Hin|Hin]%elem_of_app; [by apply Hp|].
  apply list_elem_of_singleton in Hin. by subst.
Qed.

Lemma validate_group_members_readable db gid ps pb :
  is_Ok (validate_group_members db gid ps pb) = true ->
  readable_group (Some gid).
Proof.
  destruct (validate_group_members db gid ps pb) as [g|] eqn:Hv; [|done].
  intros _. apply validate_group_members_Ok in Hv as (oid & Ho & _).
  right. intros g'. unfold str_or_None.
  destruct (truthy_str (Some gid)); [|done].
  intros [= <-]. by rewrite Ho.
Qed.

Lemma expense_group_readable db e :
  is_Ok (expense_group db e) = true -> readable_group (group_id e).
Proof.
  unfold expense_group. intros Hg.
  right. intros g Hs. rewrite Hs in Hg.
  destruct (validate_group_members db g _ _) as [grp|] eqn:Hv; [|done].
  apply validate_group_members_Ok in Hv as (oid & Ho & _). by rewrite Ho.
Qed.

(** [POST /payment] step by step. *)
Lemma add_payment_unfold (payment : @Payment num) current_user now db :
  add_payment payment current_user now db =
  if bool_decide (current_user ∉ [payer payment; payee payment]) then
    (Raise (HTTPException 403 "Current user must be either payer or payee"),
     db)
  else
    match
      match str_or_None (pay_group_id payment) with
      | Some gid =>
          g <- validate_group_members db gid
                 [payer payment; payee payment] (payer payment) ;;
          Ok (Some g)
      | None => Ok None
      end
    with
    | Raise err => (Raise err, db)
    | Ok group =>
        if insert_one_fails (length (payments_collection db)) then
          (Raise (HTTPException 500 "Database insertion failed"), db)
        else
          (Ok {| pr_id := length (payments_collection db);
                 pr_amount := pay_amount payment;
                 pr_payer := payer payment;
                 pr_payee := payee payment;
                 pr_description := pay_description payment;
                 pr_created_at := payment_stamp payment now;
                 pr_group_id := pay_group_id payment;
                 pr_group_name := option_map gdoc_name group |},
           record_payment db
             (payment_dict payment now
                (validate_users db [payer payment; payee payment]
                   (payer payment))))
    end.
Proof.
  unfold add_payment, record_payment.
  destruct (bool_decide _); [done|].
  unfold mbind, lift, raise, ret, insert_payment. simpl.
  destruct (match str_or_None (pay_group_id payment) with
            | Some gid => _ | None => _ end); simpl; [|done].
  by destruct (insert_one_fails _).
Qed.

Lemma add_payment_store (payment : @Payment num) current_user now db :
  (add_payment payment current_user now db).2 = db
  \/ readable_group (pay_group_id payment)
     /\ (add_payment payment current_user now db).2
        = record_payment db
            (payment_dict payment now
               (validate_users db [payer payment; payee payment]
                  (payer payment))).
Proof.
  rewrite add_payment_unfold.
  destruct (bool_decide _); [by left|].
  destruct (str_or_None (pay_group_id payment)) as [gid|] eqn:Hs.
  - destruct (validate_group_members db gid _ _) as [g|] eqn:Hv; simpl;
      [|by left].
    destruct (insert_one_fails _); [by left|]. right. split; [|done].
    right. intros g' Hg'. rewrite Hs in Hg'. injection Hg' as <-.
    apply validate_group_members_Ok in Hv as (oid & -> & _). by eexists.
  - simpl. destruct (insert_one_fails _); [by left|]. right. split; [|done].
    right. intros g' Hg'. by rewrite Hs in Hg'.
Qed.

(** X16: the write endpoints store only group ids that the view can
    handle.  On a store all of whose group ids are readable, they all
    still are after [POST /expense], [POST /group-expense] or
    [POST /payment], answered or refused. *)
Theorem writes_keep_readable db current_user now :
  store_readable db ->
  (forall e, store_readable (add_expense e current_user now db).2)
  /\ (forall group_expense,
        store_readable
          (add_group_expense group_expense current_user now db).2)
  /\ (forall payment : @Payment num,
        store_readable (add_payment payment current_user now db).2).
Proof.
  intros Hdb. split; [|split].
  - intros e.
    destruct (add_expense_store e current_user now db)
      as [->|(splits & _ & Hg & _ & ->)]; [done|].
    apply store_readable_record_expense; [done|].
    by apply (expense_group_readable db).
  - intros ge.
    apply (add_group_expense_store_invariant store_readable); [|done].
    intros acc group e cur _ Hcur.
    destruct (add_group_expense_body_store (ge_group_id ge) group
                current_user now acc e cur)
      as [->|(splits & _ & Hg & _ & ->)]; [done|].
    apply store_readable_record_expense; [done|].
    by eapply validate_group_members_readable.
  - intros payment.
    destruct (add_payment_store payment current_user now db)
      as [->|[Hg ->]]; [done|].
    by apply store_readable_record_payment.
Qed.

(** X17: what [POST /payment] leaves in the store.  A request that is
    answered comes from the payer or the payee and has appended exactly
    one document, whose [_id] is the [id] of the response; when the
    payment names a group, that group exists and has the payer and the
    payee among its members.  A request that is refused with a status
    other than 500, or by an exception that is no [HTTPException], has
    stored nothing. *)
Theorem add_payment_store_effect (payment : @Payment num) current_user
    now db r db' :
  add_payment payment current_user now db = (r, db') ->
  match r with
  | Ok resp =>
      (current_user = payer payment \/ current_user = payee payment)
      /\ db' = record_payment db
                 (payment_dict payment now
                    (validate_users db [payer payment; payee payment]
                       (payer payment)))
      /\ pr_id resp = length (payments_collection db)
      /\ (forall gid, str_or_None (pay_group_id payment) = Some gid ->
            exists oid group,
              ObjectId gid = Some oid
              /\ groups_collection db !! oid = Some group
              /\ payer payment ∈ gdoc_members group
              /\ payee payment ∈ gdoc_members group
              /\ pr_group_name resp = Some (gdoc_name group))
  | Raise (HTTPException status_code _) => status_code <> 500 -> db' = db
  | Raise _ => db' = db
  end.
Proof.
  rewrite add_payment_unfold.
  destruct (bool_decide _) eqn:Hu; [by intros [= <- <-]|].
  apply bool_decide_eq_false in Hu.
  destruct (str_or_None (pay_group_id payment)) as [gid|] eqn:Hs.
  - destruct (validate_group_members db gid _ _) as [g|err] eqn:Hv; simpl;
      [|intros [= <- <-]; by destruct err].
    destruct (insert_one_fails _); [by intros [= <- <-] []|].
    intros [= <- <-]. simpl. repeat split.
    + destruct (decide (current_user ∈ [payer payment; payee payment]))
        as [Hin|Hin]; [|done].
      apply elem_of_cons in Hin as [->|Hin]; [by left|].
      apply list_elem_of_singleton in Hin. by right.
    + intros g' [= <-].
      apply validate_group_members_Ok in Hv as (oid & Ho & Hl & Hm & Hp).
      exists oid, g. repeat split; try done.
      apply Hm. right. by left.
  - simpl. destruct (insert_one_fails _); [by intros [= <- <-] []|].
    intros [= <- <-]. simpl. repeat split; [|done].
    destruct (decide (current_user ∈ [payer payment; payee payment]))
      as [Hin|Hin]; [|done].
    apply elem_of_cons in Hin as [->|Hin]; [by left|].
    apply list_elem_of_singleton in Hin. by right.
Qed.



End ViewContents.

Lemma view_lists_stored_expenses_witness :
  exists docs,
    sublist docs (find_expenses shopping_db bob)
    /\ Forall2 (@lists float sound_store bob)
         (expenses shopping_view_of_bob) docs
    /\ (forall ie, ie ∈ docs ->
          @shown float float_Number sound_store ie.2 = true
          /\ expenses_collection shopping_db !! ie.1 = Some ie.2).
Proof.
  apply (@view_lists_stored_expenses float float_Number sound_store
           shopping_db bob shopping_view_of_bob).
  vm_compute. reflexivity.
Defined.

Lemma malformed_group_id_fails_view_witness :
  view museum_db bob = Raise InvalidId.
Proof.
  apply (@malformed_group_id_fails_view float float_Number sound_store
           museum_db bob).
  - reflexivity.
  - left. exists 1, museum_doc, "holiday".
    repeat split; try reflexivity. by_computation.
Defined.

Lemma writes_keep_readable_witness :
  (forall e,
     @store_readable float sound_store
       (@add_expense float float_Number sound_store e alice 0%Z flat_db).2)
  /\ (forall group_expense,
        @store_readable float sound_store
          (@add_group_expense float float_Number sound_store group_expense
             alice 0%Z flat_db).2)
  /\ (forall payment : @Payment float,
        @store_readable float sound_store
          (@add_payment float sound_store payment alice 0%Z flat_db).2).
Proof.
  apply (@writes_keep_readable float float_Number sound_store flat_db
           alice 0%Z).
  split.
  - intros d Hd. apply list_elem_of_singleton in Hd. subst d.
    right. intros g Hg. discriminate Hg.
  - intros p Hp. by apply elem_of_nil in Hp.
Defined.

Lemma add_payment_store_effect_witness :
  (bob = payer flat_repayment \/ bob = payee flat_repayment)
  /\ record_payment flat_db (payment_dict flat_repayment 0%Z [])
     = record_payment flat_db
         (payment_dict flat_repayment 0%Z
            (validate_users flat_db
               [payer flat_repayment; payee flat_repayment]
               (payer flat_repayment)))
  /\ pr_id flat_repayment_response = length (payments_collection flat_db)
  /\ (forall gid, str_or_None (pay_group_id flat_repayment) = Some gid ->
        exists oid group,
          @ObjectId sound_store gid = Some oid
          /\ groups_collection flat_db !! oid = Some group
          /\ payer flat_repayment ∈ gdoc_members group
          /\ payee flat_repayment ∈ gdoc_members group
          /\ pr_group_name flat_repayment_response
             = Some (gdoc_name group)).
Proof.
  apply (@add_payment_store_effect float sound_store flat_repayment bob
           0%Z flat_db (Ok flat_repayment_response)
           (record_payment flat_db (payment_dict flat_repayment 0%Z []))).
  vm_compute. reflexivity.
Defined.


(** ** What the repair sweep reports, and where it stops *)

Section SweepReport.
Context {num : Type} `{!Number num} `{!External}.
Implicit Types (db : @DB num) (d : @ExpenseDoc num).

(** One pass of the sweep. *)
Lemma fix_expenses_body_unfold c i d db :
  fix_expenses_body c (i, d) db =
  if needs_fix d then
    match default [] (doc_participants d) with
    | [] => (Raise ZeroDivisionError, db)
    | _ :: _ =>
        if update_one_fails i then
          (Raise (HTTPException 500 "Database error"), db)
        else
          (Ok (S c),
           with_expenses db
             (alter
                (set_equal_split
                   (dict_const (default [] (doc_participants d))
                      (round2 (div_len (doc_amount d)
                         (length (default [] (doc_participants d)))))))
                i (expenses_collection db)))
    end
  else (Ok c, db).
Proof.
  unfold fix_expenses_body. destruct (needs_fix d); [|done].
  unfold mbind, lift, update_expense, ret.
  destruct (default [] (doc_participants d)) as [|p ps] eqn:Hps; [done|].
  rewrite equal_split_Ok by done.
  by destruct (update_one_fails i).
Qed.

(** The records the sweep scans, from position [length pre] on. *)
Lemma scan_cons (pre : list (@ExpenseDoc num)) d docs x :
  filter (fun ie : nat * @ExpenseDoc num =>
            doc_split_method ie.2 = Some "custom")
         (imap (fun i y => (length pre + i, y)) (d :: docs))
  = (if decide (doc_split_method d = Some "custom")
     then [(length pre, d)] else [])
    ++ filter (fun ie : nat * @ExpenseDoc num =>
                 doc_split_method ie.2 = Some "custom")
              (imap (fun i y => (length (pre ++ [x]) + i, y)) docs).
Proof.
  simpl. rewrite filter_cons. simpl. rewrite Nat.add_0_r.
  assert (Hshift :
    imap ((fun i y => (length pre + i, y)) ∘ S) docs
    = imap (fun i (y : @ExpenseDoc num) => (length (pre ++ [x]) + i, y))
        docs).
  { apply imap_ext. intros i y _. simpl. rewrite length_app. simpl.
    f_equal. lia. }
  rewrite Hshift. by destruct (decide _).
Qed.

Lemma sweep_doc_repaired d :
  repaired d = true ->
  sweep_doc d
  = set_equal_split
      (dict_const (default [] (doc_participants d))
         (round2 (div_len (doc_amount d)
            (length (default [] (doc_participants d))))))
      d.
Proof. unfold repaired, sweep_doc. by intros ->. Qed.

Lemma sweep_doc_untouched d : repaired d = false -> sweep_doc d = d.
Proof. unfold repaired, sweep_doc. by intros ->. Qed.

Lemma with_expenses_same db l :
  expenses_collection db = l -> with_expenses db l = db.
Proof. intros <-. by destruct db. Qed.

(** A sweep that ends has rewritten exactly the records that failed the
    check. *)
Lemma fix_loop_report (docs pre rest : list (@ExpenseDoc num)) c db c' db' :
  expenses_collection db = pre ++ docs ++ rest ->
  forM fix_expenses_body
    (filter (fun ie : nat * @ExpenseDoc num =>
               doc_split_method ie.2 = Some "custom")
            (imap (fun i y => (length pre + i, y)) docs)) c db
  = (Ok c', db') ->
  c' = c + length (filter (fun d => repaired d = true) docs)
  /\ db' = with_expenses db (pre ++ map sweep_doc docs ++ rest).
Proof.
  revert pre c db.
  induction docs as [|d docs IH]; intros pre c db Hdb.
  - simpl. intros [= <- <-]. split; [lia|].
    symmetry. by apply with_expenses_same.
  - rewrite (scan_cons pre d docs (sweep_doc d)).
    rewrite filter_cons.
    destruct (repaired d) eqn:Hrep.
    + pose proof Hrep as Hrep'. unfold repaired in Hrep'.
      apply andb_true_iff in Hrep' as [Hc%bool_decide_eq_true Hn].
      rewrite !decide_True by done. cbn [app forM length map].
      unfold mbind at 1. rewrite fix_expenses_body_unfold, Hn.
      destruct (default [] (doc_participants d)) as [|p ps] eqn:Hps;
        [done|].
      destruct (update_one_fails (length pre)); [done|].
      intros Hrun. apply IH in Hrun as [-> ->].
      * split; [lia|]. unfold with_expenses. simpl. f_equal.
        by rewrite <- app_assoc.
      * simpl. rewrite Hdb.
        rewrite <- (Nat.add_0_r (length pre)) at 1.
        rewrite alter_app_r. simpl.
        rewrite (sweep_doc_repaired d Hrep), Hps.
        by rewrite <- app_assoc.
    + rewrite (decide_False (P := false = true)) by done.
      rewrite (sweep_doc_untouched d Hrep).
      assert (Hstep :
        forM fix_expenses_body
          ((if decide (doc_split_method d = Some "custom")
            then [(length pre, d)] else [])
           ++ filter (fun ie : nat * @ExpenseDoc num =>
                        doc_split_method ie.2 = Some "custom")
                (imap (fun i y => (length (pre ++ [d]) + i, y)) docs))
          c db
        = forM fix_expenses_body
            (filter (fun ie : nat * @ExpenseDoc num =>
                       doc_split_method ie.2 = Some "custom")
               (imap (fun i y => (length (pre ++ [d]) + i, y)) docs))
            c db).
      { destruct (decide _) as [Hc|Hc]; [|done]. cbn [app forM].
        unfold mbind at 1. rewrite fix_expenses_body_unfold.
        unfold repaired in Hrep. rewrite bool_decide_eq_true_2 in Hrep by done.
        simpl in Hrep. by rewrite Hrep. }
      rewrite Hstep. intros Hrun. apply IH in Hrun as [-> ->].
      * split; [done|]. cbn [map].
        by rewrite (sweep_doc_untouched d Hrep), <- app_assoc.
      * by rewrite Hdb, <- app_assoc.
Qed.

(** X19: a repair sweep that ends reports the number of custom records
    that failed the check of line 656, has rewritten those records and
    no other, and leaves a store in which it finds nothing more to
    repair. *)
Theorem fix_expenses_report db n db1 :
  fix_expenses db = (Ok n, db1) ->
  n = length (filter (fun d => repaired d = true) (expenses_collection db))
  /\ db1 = with_expenses db (map sweep_doc (expenses_collection db))
  /\ no_repair_needed db1.
Proof.
  intros Hrun.
  apply (fix_loop_report (expenses_collection db) [] [] 0 db) in Hrun
    as [-> ->]; [|by rewrite app_nil_r].
  rewrite app_nil_r. repeat split.
  intros d' Hin. simpl in Hin.
  apply list_elem_of_fmap in Hin as (d & -> & _).
  unfold repaired.
  destruct (bool_decide _) eqn:Hc; [|done]. simpl.
  apply bool_decide_eq_true in Hc. by apply sweep_doc_custom_ok.
Qed.

(** The sweep over records that can all be split, when the store
    accepts the updates: every one of them is swept, and the loop goes
    on with what follows. *)
Lemma fix_loop_prefix (docs pre rest : list (@ExpenseDoc num))
    (more : list (nat * @ExpenseDoc num)) c db :
  Forall scanned_nonempty docs ->
  (forall j, j < length docs -> update_one_fails (length pre + j) = false) ->
  expenses_collection db = pre ++ docs ++ rest ->
  forM fix_expenses_body
    (filter (fun ie : nat * @ExpenseDoc num =>
               doc_split_method ie.2 = Some "custom")
            (imap (fun i y => (length pre + i, y)) docs) ++ more) c db
  = forM fix_expenses_body more
      (c + length (filter (fun d => repaired d = true) docs))
      (with_expenses db (pre ++ map sweep_doc docs ++ rest)).
Proof.
  revert pre c db.
  induction docs as [|d docs IH]; intros pre c db Hne Hupd Hdb.
  - simpl. rewrite Nat.add_0_r. by rewrite with_expenses_same.
  - apply Forall_cons in Hne as [Hd Hne].
    rewrite (scan_cons pre d docs (sweep_doc d)).
    rewrite filter_cons.
    assert (Hupd' : forall j, j < length docs ->
              update_one_fails (length (pre ++ [sweep_doc d]) + j) = false).
    { intros j Hj. rewrite length_app. simpl.
      replace (length pre + 1 + j) with (length pre + S j) by lia.
      apply Hupd. simpl. lia. }
    destruct (repaired d) eqn:Hrep.
    + pose proof Hrep as Hrep'. unfold repaired in Hrep'.
      apply andb_true_iff in Hrep' as [Hc%bool_decide_eq_true Hn].
      rewrite !decide_True by done. cbn [app forM length map].
      unfold mbind at 1. rewrite fix_expenses_body_unfold, Hn.
      specialize (Hd Hc).
      destruct (default [] (doc_participants d)) as [|p ps] eqn:Hps;
        [done|].
      pose proof (Hupd 0 ltac:(simpl; lia)) as H0.
      rewrite Nat.add_0_r in H0. rewrite H0.
      rewrite IH; [| done | done |].
      * f_equal; [lia|]. unfold with_expenses. simpl. f_equal.
        by rewrite <- app_assoc.
      * simpl. rewrite Hdb.
        rewrite <- (Nat.add_0_r (length pre)) at 1.
        rewrite alter_app_r. simpl.
        rewrite (sweep_doc_repaired d Hrep), Hps.
        by rewrite <- app_assoc.
    + rewrite (decide_False (P := false = true)) by done.
      rewrite (sweep_doc_untouched d Hrep) in *.
      assert (Hstep : forall tail,
        forM fix_expenses_body
          (((if decide (doc_split_method d = Some "custom")
             then [(length pre, d)] else []) ++ tail) ++ more) c db
        = forM fix_expenses_body (tail ++ more) c db).
      { intros tail. destruct (decide _) as [Hc|Hc]; [|done]. cbn [app forM].
        unfold mbind at 1. rewrite fix_expenses_body_unfold.
        unfold repaired in Hrep. rewrite bool_decide_eq_true_2 in Hrep by done.
        simpl in Hrep. by rewrite Hrep. }
      rewrite Hstep. rewrite IH; [| done | done |].
      * cbn [map].
        by rewrite (sweep_doc_untouched d Hrep), <- app_assoc.
      * by rewrite Hdb, <- app_assoc.
Qed.

(** X20: a custom record without participants stops the sweep.  When
    the records before it can be split and the store accepts their
    updates, the sweep raises [ZeroDivisionError] at that record; the
    records before it stay rewritten, and that record and those after it
    are as they were. *)
Theorem fix_expenses_unsplittable db pre d post :
  expenses_collection db = pre ++ d :: post ->
  (forall d', d' ∈ pre -> scanned_nonempty d') ->
  (forall j, j < length pre -> update_one_fails j = false) ->
  doc_split_method d = Some "custom" ->
  default [] (doc_participants d) = [] ->
  fix_expenses db
  = (Raise ZeroDivisionError,
     with_expenses db (map sweep_doc pre ++ d :: post)).
Proof.
  intros Hdb Hne Hupd Hc Hps. unfold fix_expenses, enumerate.
  rewrite Hdb, imap_app, filter_app.
  rewrite (fix_loop_prefix pre [] (d :: post) _ 0 db);
    [| by apply Forall_forall | done | done].
  rewrite (scan_cons pre d post d). rewrite decide_True by done.
  cbn [app forM]. unfold mbind at 1. rewrite fix_expenses_body_unfold.
  assert (Hn : needs_fix d = true).
  { unfold needs_fix. rewrite Hps.
    by destruct (doc_splits d) as [[|[k v] sa]|]. }
  by rewrite Hn, Hps.
Qed.

End SweepReport.

(** ** Registered and unregistered addresses *)

(** X22: [validate_users] returns, each once, the addresses among the
    participants and the payer that no user has. *)
Theorem validate_users_spec {num : Type} (db : @DB num) participants
    paid_by :
  NoDup (validate_users db participants paid_by)
  /\ forall email,
       email ∈ validate_users db participants paid_by
       <-> (email ∈ participants \/ email = paid_by)
           /\ email ∉ users_collection db.
Proof.
  unfold validate_users. split.
  - apply NoDup_filter, NoDup_remove_dups.
  - intros email.
    rewrite list_elem_of_filter, elem_of_remove_dups, elem_of_app,
      list_elem_of_singleton.
    tauto.
Qed.

Lemma fix_expenses_report_witness :
  1 = length (filter (fun d => @repaired float float_Number d = true)
                (expenses_collection legacy_db))
  /\ legacy_swept_db
     = with_expenses legacy_db
         (map sweep_doc (expenses_collection legacy_db))
  /\ @no_repair_needed float float_Number legacy_swept_db.
Proof.
  apply (@fix_expenses_report float float_Number sound_store legacy_db 1
           legacy_swept_db).
  vm_compute. reflexivity.
Defined.

Lemma fix_expenses_unsplittable_witness :
  @fix_expenses float float_Number sound_store orphan_db
  = (Raise ZeroDivisionError,
     with_expenses orphan_db
       (map sweep_doc [legacy_doc] ++ orphan_doc :: [fair_doc])).
Proof.
  apply (@fix_expenses_unsplittable float float_Number sound_store
           orphan_db [legacy_doc] orphan_doc [fair_doc]).
  - reflexivity.
  - intros d Hd _. apply list_elem_of_singleton in Hd. subst d. discriminate.
  - reflexivity.
  - reflexivity.
  - reflexivity.
Defined.

(** ** Groups *)

Section GroupFacts.
Context {num : Type} `{!External}.
Implicit Types (db : @DB num).

Lemma get_groups_elem db email r :
  r ∈ get_groups db email <->
  exists group,
    groups_collection db !! gres_id r = Some group
    /\ (gdoc_created_by group = email \/ email ∈ gdoc_members group)
    /\ gres_name r = gdoc_name group
    /\ gres_members r = gdoc_members group
    /\ gres_created_by r = gdoc_created_by group.
Proof.
  unfold get_groups. rewrite list_elem_of_fmap. split.
  - intros ([i g] & -> & [Hsel Hin]%list_elem_of_filter). simpl in *.
    apply elem_of_enumerate in Hin. by exists g.
  - intros (g & Hl & Hsel & Hn & Hm & Hc). exists (gres_id r, g). split.
    + destruct r. simpl in *. by subst.
    + apply list_elem_of_filter. split; [done|].
      by apply elem_of_enumerate.
Qed.

(** X23: a group that was created is found.  After an answered
    [POST /group] the group is stored under the [id] of the response;
    [GET /groups] lists it for the creator it names and for each of its
    members, and still lists every group it listed before;
    [validate_group_members] accepts it for participants and a payer
    that are members; and the caller, when named as the creator, cannot
    create a second group of that name. *)
Theorem create_group_listed group current_user db resp db' :
  create_group group current_user db = (Ok resp, db') ->
  let doc := {| gdoc_name := grp_name group;
                gdoc_members := grp_members group;
                gdoc_created_by := grp_created_by group |} in
  db' = @record_group num db doc
  /\ gres_id resp = length (groups_collection db)
  /\ (forall email,
        email = grp_created_by group \/ email ∈ grp_members group ->
        resp ∈ get_groups db' email)
  /\ (forall email r, r ∈ get_groups db email -> r ∈ get_groups db' email)
  /\ (forall gid participants paid_by,
        ObjectId gid = Some (gres_id resp) ->
        (forall p, p ∈ participants -> p ∈ grp_members group) ->
        paid_by ∈ grp_members group ->
        validate_group_members db' gid participants paid_by = Ok doc)
  /\ (grp_created_by group = current_user ->
      exists detail,
        create_group group current_user db'
        = (Raise (HTTPException 400 detail), db')).
Proof.
  intros Hrun doc. revert Hrun. unfold create_group.
  destruct (bool_decide _) eqn:Hdup; [done|].
  unfold mbind, insert_group, ret. fold doc.
  destruct (insert_one_fails _); [done|].
  intros [= <- <-]. simpl. repeat split.
  - intros email Hsel. apply get_groups_elem. exists doc. simpl.
    split; [by rewrite list_lookup_middle|].
    split; [|done]. destruct Hsel as [->|Hin]; [by left | by right].
  - intros email r (g & Hl & Hrest)%get_groups_elem.
    apply get_groups_elem. exists g. split; [|done]. simpl.
    by apply lookup_app_l_Some.
  - intros gid ps pb Ho Hps Hpb. unfold validate_group_members.
    rewrite Ho. simpl. rewrite list_lookup_middle by done.
    rewrite bool_decide_eq_true_2; [done|].
    intros p [Hp|Hp]%elem_of_app; [by apply Hps|].
    apply list_elem_of_singleton in Hp. by subst.
  - intros Hby. eexists. rewrite bool_decide_eq_true_2; [done|].
    simpl. apply Exists_app. right. apply Exists_cons_hd. by simpl.
Qed.

End GroupFacts.

Lemma create_group_listed_witness :
  let doc := {| gdoc_name := grp_name trip;
                gdoc_members := grp_members trip;
                gdoc_created_by := grp_created_by trip |} in
  record_group flat_db trip_doc = @record_group float flat_db doc
  /\ gres_id trip_response = length (groups_collection flat_db)
  /\ (forall email,
        email = grp_created_by trip \/ email ∈ grp_members trip ->
        trip_response ∈ get_groups (record_group flat_db trip_doc) email)
  /\ (forall email r,
        r ∈ get_groups flat_db email ->
        r ∈ get_groups (record_group flat_db trip_doc) email)
  /\ (forall gid participants paid_by,
        @ObjectId sound_store gid = Some (gres_id trip_response) ->
        (forall p, p ∈ participants -> p ∈ grp_members trip) ->
        paid_by ∈ grp_members trip ->
        @validate_group_members float sound_store
          (record_group flat_db trip_doc) gid participants paid_by = Ok doc)
  /\ (grp_created_by trip = alice ->
      exists detail,
        @create_group float sound_store trip alice
          (record_group flat_db trip_doc)
        = (Raise (HTTPException 400 detail),
           record_group flat_db trip_doc)).
Proof.
  apply (@create_group_listed float sound_store trip alice flat_db
           trip_response (record_group flat_db trip_doc)).
  vm_compute. reflexivity.
Defined.

(** ** The keys of the group balances *)

Section GroupBalances.
Context {num : Type} `{!Number num} `{!External}.
Implicit Types (db : @DB num) (st : @agg_state num).

Lemma process_expense_group_keys db email st i (d : @ExpenseDoc num) st' k :
  expenses_collection db !! i = Some d ->
  email ∈ default [] (doc_participants d) ->
  process_expense db email st (i, d) = Ok st' ->
  k ∈ dict_keys st'.2 ->
  k ∈ dict_keys st.2 \/ group_label_of db email k.
Proof.
  intros Hl Hin. destruct st as [[el net] gb]. unfold process_expense.
  destruct (parse_created_at _) as [t|]; [|intros [= <-]; by left].
  destruct (Expense_of_doc d t) as [em|] eqn:Hem; [|intros [= <-]; by left].
  destruct (Expense_of_doc_fields d t em Hem) as [_ Hgid].
  destruct (calculate_split em) as [splits|]; simpl; [|done].
  unfold expense_group_step. rewrite Hgid.
  destruct (str_or_None (doc_group_id d)) as [gid|] eqn:Hs; simpl.
  - destruct (group_name_of db gid) as [name|] eqn:Hn; simpl.
    + intros [= <-]. simpl. intros Hk.
      apply accumulate_keys in Hk as [Hk|(u & _ & _ & ->)]; [by left|].
      right. exists gid, name. repeat split; try done.
      left. by exists i, d.
    + destruct InvalidId_is_ValueError; simpl; [|done].
      intros [= <-]. by left.
  - intros [= <-]. by left.
Qed.

Lemma process_payment_group_keys db email st i (p : @PaymentDoc num) st' k :
  payments_collection db !! i = Some p ->
  pdoc_payer p = email \/ pdoc_payee p = email ->
  process_payment db email st (i, p) = Ok st' ->
  k ∈ dict_keys st'.2 ->
  k ∈ dict_keys st.2 \/ group_label_of db email k.
Proof.
  intros Hl Hsel. destruct st as [[el net] gb]. unfold process_payment.
  destruct (parse_created_at _) as [t|]; [|intros [= <-]; by left].
  unfold payment_group_step.
  destruct (str_or_None (pdoc_group_id p)) as [gid|] eqn:Hs; simpl.
  - destruct (group_name_of db gid) as [name|] eqn:Hn; simpl.
    + intros [= <-]. simpl. intros Hk.
      assert (Hcase : k ∈ dict_keys gb \/ k = group_key_of name gid).
      { destruct (decide (pdoc_payer p = email)).
        - apply dict_keys_set in Hk as [->|Hk]; [by right | by left].
        - destruct (decide (pdoc_payee p = email)); [|by left].
          apply dict_keys_set in Hk as [->|Hk]; [by right | by left]. }
      destruct Hcase as [Hold | ->]; [by left|].
      right. exists gid, name. repeat split; try done.
      right. by exists i, p.
    + destruct InvalidId_is_ValueError; simpl; [|done].
      intros [= <-]. by left.
  - intros [= <-]. by left.
Qed.

(** X24: every key of the group balances of a view is the label
    [name (id)] of a group id that [ObjectId] accepts and that is
    carried by a stored expense in which the viewer takes part or by a
    stored payment that the viewer made or received. *)
Theorem group_balances_keys db email view k :
  get_user_expenses_by_email db email = Ok view ->
  k ∈ dict_keys (group_balances view) ->
  group_label_of db email k.
Proof.
  unfold get_user_expenses_by_email, aggregate.
  destruct (foldM (process_expense db email) _ _) as [st1|] eqn:H1;
    simpl; [|done].
  destruct (foldM (process_payment db email) _ _) as [st2|] eqn:H2;
    simpl; [|done].
  intros [= <-]. simpl. rewrite dict_keys_map.
  set (P := fun st : @agg_state num =>
              forall k, k ∈ dict_keys st.2 -> group_label_of db email k).
  assert (HP1 : P st1).
  { revert H1.
    apply (foldM_invariant P).
    - intros s [i d] s' [Hin Hsel]%list_elem_of_filter Hs Hstep k' Hk'.
      simpl in *. apply elem_of_enumerate in Hsel.
      destruct (process_expense_group_keys db email s i d s' k'
                  Hsel Hin Hstep Hk') as [Hold|Hnew]; [by apply Hs|done].
    - intros k' Hk'. simpl in Hk'. by apply elem_of_nil in Hk'. }
  assert (HP2 : P st2).
  { revert H2.
    apply (foldM_invariant P); [|done].
    intros s [i p] s' [Hin Hsel]%list_elem_of_filter Hs Hstep k' Hk'.
    simpl in *. apply elem_of_enumerate in Hsel.
    destruct (process_payment_group_keys db email s i p s' k'
                Hsel Hin Hstep Hk') as [Hold|Hnew]; [by apply Hs|done]. }
  apply HP2.
Qed.

End GroupBalances.

Lemma group_balances_keys_witness :
  @group_label_of float sound_store shopping_db bob
    "flat (000000000000000000000000)".
Proof.
  apply (@group_balances_keys float float_Number sound_store shopping_db
           bob shopping_view_of_bob "flat (000000000000000000000000)").
  - vm_compute. reflexivity.
  - by_computation.
Defined.

(** ** Expenses and payments of a group stay among its members *)

Section GroupMembership.
Context {num : Type} `{!Number num} `{!External}.
Implicit Types (db cur : @DB num) (e : @Expense num).

Lemma validate_group_members_in_group db gid ps pb :
  is_Ok (validate_group_members db gid ps pb) = true ->
  in_group db (Some gid) (ps ++ [pb]).
Proof.
  destruct (validate_group_members db gid ps pb) as [grp|] eqn:Hv; [|done].
  intros _ g Hg.
  assert (g = gid) as ->.
  { unfold str_or_None in Hg. destruct (truthy_str _); congruence. }
  apply validate_group_members_Ok in Hv as (oid & Ho & Hl & Hps & Hpb).
  exists oid, grp. repeat split; try done.
  intros p [Hp|Hp]%elem_of_app; [by apply Hps|].
  apply list_elem_of_singleton in Hp. by subst.
Qed.

Lemma expense_group_in_group db e :
  is_Ok (expense_group db e) = true ->
  in_group db (group_id e) (participants e ++ [paid_by e]).
Proof.
  unfold expense_group. intros Hok g Hg. rewrite Hg in Hok.
  destruct (validate_group_members db g _ _) as [grp|] eqn:Hv; [|done].
  apply (validate_group_members_in_group db g); [by rewrite Hv|].
  unfold str_or_None in *. destruct (group_id e) as [[|c s]|]; try done.
  simpl in *. by injection Hg as <-.
Qed.

Lemma groups_respected_record_expense db (d : @ExpenseDoc num) :
  groups_respected db ->
  in_group db (doc_group_id d)
    (default [] (doc_participants d) ++ [doc_paid_by d]) ->
  groups_respected (record_expense db d).
Proof.
  intros [He Hp] Hd. split; [|exact Hp].
  intros d' [Hin|Hin]%elem_of_app; [by apply He|].
  apply list_elem_of_singleton in Hin. subst d'. exact Hd.
Qed.

Lemma groups_respected_record_payment db (p : @PaymentDoc num) :
  groups_respected db ->
  in_group db (pdoc_group_id p) [pdoc_payer p; pdoc_payee p] ->
  groups_respected (record_payment db p).
Proof.
  intros [He Hp] Hd. split; [exact He|].
  intros p' [Hin|Hin]%elem_of_app; [by apply Hp|].
  apply list_elem_of_singleton in Hin. subst p'. exact Hd.
Qed.

Lemma add_payment_in_group (payment : @Payment num) current_user now db :
  (add_payment payment current_user now db).2 = db
  \/ in_group db (pay_group_id payment) [payer payment; payee payment]
     /\ (add_payment payment current_user now db).2
        = record_payment db
            (payment_dict payment now
               (validate_users db [payer payment; payee payment]
                  (payer payment))).
Proof.
  rewrite add_payment_unfold.
  destruct (bool_decide _); [by left|].
  destruct (str_or_None (pay_group_id payment)) as [gid|] eqn:Hs.
  - destruct (validate_group_members db gid _ _) as [g|] eqn:Hv; simpl;
      [|by left].
    destruct (insert_one_fails _); [by left|]. right. split; [|done].
    intros g' Hg'. rewrite Hs in Hg'. injection Hg' as <-.
    apply validate_group_members_Ok in Hv as (oid & Ho & Hl & Hps & _).
    by exists oid, g.
  - simpl. destruct (insert_one_fails _); [by left|]. right. split; [|done].
    intros g' Hg'. by rewrite Hs in Hg'.
Qed.

(** The sweep keeps the participants, the payer and the group of every
    record. *)
Lemma fix_expenses_body_respects c ie cur :
  groups_respected cur -> groups_respected (fix_expenses_body c ie cur).2.
Proof.
  intros [He Hp]. destruct ie as [i d]. rewrite fix_expenses_body_unfold.
  destruct (needs_fix d); [|done].
  destruct (default [] (doc_participants d)); [done|].
  destruct (update_one_fails i); [done|].
  split; [|exact Hp]. simpl. intros d' Hd'.
  apply list_elem_of_lookup_1 in Hd' as [j Hj].
  rewrite list_lookup_alter in Hj.
  destruct (decide (i = j)) as [->|Hij].
  - destruct (expenses_collection cur !! j) as [d0|] eqn:Hd0; [|done].
    injection Hj as <-.
    apply list_elem_of_lookup_2, He in Hd0. exact Hd0.
  - apply list_elem_of_lookup_2, He in Hj. exact Hj.
Qed.

(** X25: an expense or a payment of a group stays among the members of
    that group.  On a store in which every expense that names a group
    has its participants and its payer among the members of that group,
    and every payment that names a group its payer and its payee, that
    is still so after [POST /expense], [POST /group-expense],
    [POST /payment] and [POST /fix-expenses], answered or refused. *)
Theorem writes_respect_groups db current_user now :
  groups_respected db ->
  (forall e, groups_respected (add_expense e current_user now db).2)
  /\ (forall group_expense,
        groups_respected
          (add_group_expense group_expense current_user now db).2)
  /\ (forall payment : @Payment num,
        groups_respected (add_payment payment current_user now db).2)
  /\ groups_respected (fix_expenses db).2.
Proof.
  intros Hdb. split; [|split; [|split]].
  - intros e.
    destruct (add_expense_store e current_user now db)
      as [->|(splits & _ & Hg & _ & ->)]; [done|].
    apply groups_respected_record_expense; [done|].
    by apply (expense_group_in_group db).
  - intros ge.
    apply (add_group_expense_store_invariant groups_respected); [|done].
    intros acc group e cur _ Hcur.
    destruct (add_group_expense_body_store (ge_group_id ge) group
                current_user now acc e cur)
      as [->|(splits & _ & Hg & _ & ->)]; [done|].
    apply groups_respected_record_expense; [done|].
    by apply validate_group_members_in_group.
  - intros payment.
    destruct (add_payment_in_group payment current_user now db)
      as [->|[Hg ->]]; [done|].
    by apply groups_respected_record_payment.
  - unfold fix_expenses. apply forM_store_invariant; [|done].
    intros c ie cur _. apply fix_expenses_body_respects.
Qed.

End GroupMembership.

Lemma writes_respect_groups_witness :
  (forall e,
     @groups_respected float sound_store
       (@add_expense float float_Number sound_store e alice 0%Z
          shopping_db).2)
  /\ (forall group_expense,
        @groups_respected float sound_store
          (@add_group_expense float float_Number sound_store group_expense
             alice 0%Z shopping_db).2)
  /\ (forall payment : @Payment float,
        @groups_respected float sound_store
          (@add_payment float sound_store payment alice 0%Z shopping_db).2)
  /\ @groups_respected float sound_store
       (@fix_expenses float float_Number sound_store shopping_db).2.
Proof.
  apply (@writes_respect_groups float float_Number sound_store shopping_db
           alice 0%Z).
  split.
  - intros d Hd g Hg.
    apply elem_of_cons in Hd as [->|Hd]; [discriminate Hg|].
    apply list_elem_of_singleton in Hd. subst d.
    injection Hg as <-. exists 0, flat.
    repeat split; [reflexivity..|]. by_computation.
  - intros p Hp. by apply elem_of_nil in Hp.
Defined.
